(** * Observability pipeline: metrics registry, request logger and log-mining exporter

    A shallow embedding of [monitoring/exporters.py], [monitoring/metrics.py],
    [monitoring/logger.py] and [monitoring/middleware.py], followed by the
    properties of the natural-language specification that concern them.

    Conventions of the embedding.
    - A Python [dict] used as a map is a [gmap]; a [set] is a [gset].
    - A naive [datetime] is the number of microseconds since [datetime.min];
      [timedelta] arithmetic and comparison are then those of [Z].
    - JSON numbers that the code only adds, divides and compares (durations,
      rates) are rationals: the arithmetic of the embedding is exact, where
      Python rounds every operation to the nearest binary64 value.
    - Where the rounding decides a property it is embedded bit for bit:
      [int(len(durations) * 0.95)], where a float is turned back into an
      integer ([Float64]), and the three rates as doubles ([Binary64]),
      each within [2 ^ -53] of the exact rate.
    - Strings are sequences of the code points below 256. *)

From Stdlib Require Import ZArith QArith Qround Lia String Ascii List Floats.
From stdpp Require Import base option list gmap strings sorting pretty.

Open Scope Z_scope.

(** ** Binary64 arithmetic, as far as [int(n * c)] needs it *)

Module Float64.

(** A finite non-negative double, [mant * 2 ^ expo] with [mant < 2 ^ 53]
    (exponent range is not a concern for the magnitudes met here). *)
Record t : Type := mk { mant : Z; expo : Z }.

Definition prec : Z := 53.

(** [a / 2 ^ s] to the nearest integer, ties to the even one. *)
Definition round_half_even (a s : Z) : Z :=
  let q := a / 2 ^ s in
  let r := a mod 2 ^ s in
  let h := 2 ^ (s - 1) in
  if r <? h then q
  else if h <? r then q + 1
  else if Z.even q then q else q + 1.

(** The double nearest to [a * 2 ^ e], for [0 <= a]. *)
Definition rne (a e : Z) : t :=
  let s := Z.log2 a + 1 - prec in
  if s <=? 0 then mk a e else mk (round_half_even a s) (e + s).

(** [float(n)] for a Python [int]. *)
Definition of_int (n : Z) : t := rne n 0.

(** [x * y], correctly rounded. *)
Definition mul (x y : t) : t := rne (mant x * mant y) (expo x + expo y).

(** [int(x)]: truncation. *)
Definition to_int (x : t) : Z :=
  if 0 <=? expo x then mant x * 2 ^ expo x else mant x / 2 ^ (- expo x).

(** The literals [0.5], [0.95] and [0.99]
    ([0x1.0p-1], [0x1.e666666666666p-1], [0x1.fae147ae147aep-1]). *)
Definition lit_0_5 : t := mk 1 (-1).
Definition lit_0_95 : t := mk 0x1e666666666666 (-53).
Definition lit_0_99 : t := mk 0x1fae147ae147ae (-53).

(** [int(n * c)] for an [int] [n] and a float literal [c]. *)
Definition int_mul (n : Z) (c : t) : Z := to_int (mul (of_int n) c).

(** The same expression on the binary64 numbers of the kernel, for
    [0 <= n < 2 ^ 63]; it serves to test the definitions above. *)
Definition hardware_int_mul (n : Z) (c : float) : Z :=
  match Prim2SF (PrimFloat.mul (PrimFloat.of_uint63 (Uint63.of_Z n)) c) with
  | S754_finite _ m e => Z.shiftl (Z.pos m) e
  | _ => 0
  end.

(** [true] when both computations agree on [n], [n + step], ... ([k] values). *)
Fixpoint agree_from (k : nat) (n step : Z) : bool :=
  match k with
  | O => true
  | S k' =>
      (int_mul n lit_0_5 =? hardware_int_mul n 0x1p-1%float)
      && (int_mul n lit_0_95 =? hardware_int_mul n 0x1.e666666666666p-1%float)
      && (int_mul n lit_0_99 =? hardware_int_mul n 0x1.fae147ae147aep-1%float)
      && agree_from k' (n + step) step
  end.

End Float64.

(** ** Naive datetimes *)

(** Microseconds since [datetime.min]; [isoformat()] is injective on naive
    datetimes and is kept symbolic ([Isoformat d] is the text rendering
    of [d]). *)
Definition datetime : Type := Z.

Inductive isotext : Type := Isoformat (d : datetime).

Definition timedelta_hours (h : Z) : Z := h * 3600000000.

(** [ts.replace(minute=0, second=0, microsecond=0)] *)
Definition replace_to_hour (ts : datetime) : datetime :=
  ts - ts mod timedelta_hours 1.

(** ** The persisted log *)

(** The attributes of [record.extra] that the exporter reads, with the
    types the logger writes them in; [None] is a key that is absent
    ([dict.get] then yields its default). *)
Record extra : Type := mk_extra {
  event_type : option string;
  status_code : option Z;
  duration_ms : option Q;
  user_id : option string;
  event_name : option string;
  context_success : option bool   (* extra.context.success *)
}.

Record log_entry : Type := mk_entry {
  time_timestamp : option Q;      (* record.time.timestamp, epoch seconds *)
  record_extra : extra;           (* record.extra *)
  parsed_timestamp : option datetime
}.

(** One step of [for line in f], the file being opened as UTF-8 text:
    a blank line; a line whose text is not decodable ([json.loads]
    raises [JSONDecodeError]); a point at which an exception other than
    [JSONDecodeError] is raised; or an entry. [Unreadable] is a line
    that decodes but such that reading its timestamp raises (the value,
    its ["record"] or the ["time"] of that is not an object, or the
    timestamp is not a number), and also the point at which the
    iterator itself raises [UnicodeDecodeError]: the file is decoded
    block by block, so for bytes that are not UTF-8 this point comes
    before the first line of the block that holds them, whose earlier
    lines are never yielded. *)
Inductive log_line : Type :=
| Blank
| Malformed
| Unreadable
| Json (e : log_entry).

Definition get_status_code (req : log_entry) : Z :=
  default 0 (status_code (record_extra req)).

Definition get_duration_ms (req : log_entry) : Q :=
  default 0%Q (duration_ms (record_extra req)).

Definition has_event_type (ty : string) (log : log_entry) : bool :=
  bool_decide (event_type (record_extra log) = Some ty).

Definition Qsum (l : list Q) : Q := foldl Qplus 0%Q l.

#[global] Instance Qle_decision (x y : Q) : Decision (x <= y)%Q.
Proof. unfold Qle. apply _. Defined.

Section Exporter.

(** [datetime.fromtimestamp]: epoch seconds to local naive time; [None]
    when it raises (a value out of the platform's range). *)
Variable fromtimestamp : Q -> option datetime.

(** [_read_structured_logs], on what the iterator of the log file
    yields (nothing when the file does not exist). Only
    [JSONDecodeError] is handled per line; any other exception, the
    iterator's own included, reaches the outer handler, which ends the
    loop, and the records read so far are returned. *)
Fixpoint _read_structured_logs (lines : list log_line)
    (since : option datetime) : list log_entry :=
  match lines with
  | [] => []
  | Blank :: rest => _read_structured_logs rest since
  | Malformed :: rest => _read_structured_logs rest since
  | Unreadable :: _ => []
  | Json log_entry :: rest =>
      match time_timestamp log_entry with
      | Some timestamp_raw =>
          if Qeq_bool timestamp_raw 0 then _read_structured_logs rest since
          else
            match fromtimestamp timestamp_raw with
            | Some log_timestamp =>
                match since with
                | Some s =>
                    if log_timestamp <? s then _read_structured_logs rest since
                    else mk_entry (time_timestamp log_entry)
                           (record_extra log_entry) (Some log_timestamp)
                         :: _read_structured_logs rest since
                | None =>
                    mk_entry (time_timestamp log_entry)
                      (record_extra log_entry) (Some log_timestamp)
                    :: _read_structured_logs rest since
                end
            | None => []
            end
      | None => _read_structured_logs rest since
      end
  end.

Definition _calculate_real_success_rate (http_requests : list log_entry) : Q :=
  match http_requests with
  | [] => 1%Q
  | _ =>
      let successful :=
        length (List.filter (fun req => get_status_code req <? 400) http_requests) in
      (inject_Z (Z.of_nat successful) / inject_Z (Z.of_nat (length http_requests)))%Q
  end.

Definition _calculate_real_avg_response_time (http_requests : list log_entry) : Q :=
  match http_requests with
  | [] => 0%Q
  | _ =>
      let durations := map get_duration_ms http_requests in
      (Qsum durations / inject_Z (Z.of_nat (length durations)))%Q
  end.

Definition truthy_user_id (log : log_entry) : option string :=
  match user_id (record_extra log) with
  | Some u => if bool_decide (u = ""%string) then None else Some u
  | None => None
  end.

Definition _count_real_active_users (logs : list log_entry) : nat :=
  let user_ids : gset string :=
    foldl (fun (acc : gset string) log =>
             match truthy_user_id log with
             | Some u => {[ u ]} ∪ acc
             | None => acc
             end) ∅ logs in
  size user_ids.

Definition _calculate_real_error_rate (http_requests : list log_entry)
    (error_type : string) : Q :=
  match http_requests with
  | [] => 0%Q
  | _ =>
      if bool_decide (error_type = "4xx"%string) then
        let errors := List.filter (fun req => (400 <=? get_status_code req)
                                    && (get_status_code req <? 500)) http_requests in
        (inject_Z (Z.of_nat (length errors)) / inject_Z (Z.of_nat (length http_requests)))%Q
      else if bool_decide (error_type = "5xx"%string) then
        let errors := List.filter (fun req => 500 <=? get_status_code req) http_requests in
        (inject_Z (Z.of_nat (length errors)) / inject_Z (Z.of_nat (length http_requests)))%Q
      else 0%Q
  end.

Definition _calculate_real_failed_logins_rate (business_events : list log_entry) : Q :=
  let login_events :=
    List.filter (fun event => bool_decide (event_name (record_extra event)
                                           = Some "user_login_attempt"%string))
      business_events in
  match login_events with
  | [] => 0%Q
  | _ =>
      let failed_logins :=
        List.filter (fun event => negb (default true (context_success (record_extra event))))
          login_events in
      (inject_Z (Z.of_nat (length failed_logins)) / inject_Z (Z.of_nat (length login_events)))%Q
  end.

(** The mapping returned by [export_current_metrics]. *)
Record current_metrics : Type := mk_current {
  total_requests : nat;
  success_rate : Q;
  avg_response_time : Q;
  active_users : nat;
  error_rate_5xx : Q;
  error_rate_4xx : Q;
  failed_logins_rate : Q;
  current_timestamp : isotext;
  http_requests_key : list log_entry;     (* the key "http_requests" *)
  data_source : string
}.

(** [export_current_metrics]; [now] and [utcnow] are the two clock
    readings of the call. The registry snapshot that the source parses
    into [prometheus_metrics] is never read again and is left out. *)
Definition export_current_metrics (lines : list log_line)
    (now utcnow : datetime) : current_metrics :=
  let logs := _read_structured_logs lines (Some (now - timedelta_hours 1)) in
  let http_requests := List.filter (has_event_type "http_request") logs in
  let business_events := List.filter (has_event_type "business_event") logs in
  {| total_requests := length http_requests;
     success_rate := _calculate_real_success_rate http_requests;
     avg_response_time := _calculate_real_avg_response_time http_requests;
     active_users := _count_real_active_users logs;
     error_rate_5xx := _calculate_real_error_rate http_requests "5xx";
     error_rate_4xx := _calculate_real_error_rate http_requests "4xx";
     failed_logins_rate := _calculate_real_failed_logins_rate business_events;
     current_timestamp := Isoformat utcnow;
     http_requests_key := logs;
     data_source := "real_logs_and_prometheus" |}.

End Exporter.

(** ** Hour-bucketed timelines ([export_historical_data]) *)

#[global] Instance Qlt_decision (x y : Q) : Decision (x < y)%Q.
Proof. unfold Qlt. apply _. Defined.

(** [sorted(hourly_data.items())]: the keys of a dict are distinct, so
    the tuples are ordered by their first component alone. *)
Definition key_le {V : Type} (a b : datetime * V) : Prop := a.1 <= b.1.

#[global] Instance key_le_decision {V : Type} (a b : datetime * V)
  : Decision (key_le a b).
Proof. unfold key_le. apply _. Defined.

Definition sorted_items {V : Type} (hourly_data : gmap datetime V)
    : list (datetime * V) :=
  merge_sort key_le (map_to_list hourly_data).

Record hour_data : Type := mk_hour_data { count : nat; total_duration : Q }.

Record requests_point : Type := mk_requests_point {
  rp_timestamp : isotext;
  requests_count : nat;
  rp_avg_response_time : Q
}.

Record response_times_point : Type := mk_response_times_point {
  rt_timestamp : isotext;
  p50 : Q;
  p95 : Q;
  p99 : Q
}.

(** The first loop of [_get_real_requests_timeline]:
    [hourly_data = defaultdict(lambda: {'count': 0, 'total_duration': 0})]. *)
Definition requests_hourly_data (http_requests : list log_entry)
    : gmap datetime hour_data :=
  foldl (fun hourly_data req =>
           match parsed_timestamp req with
           | Some timestamp =>
               let hour_key := replace_to_hour timestamp in
               let data := default (mk_hour_data 0 0) (hourly_data !! hour_key) in
               <[hour_key := mk_hour_data (count data + 1)
                               (total_duration data + get_duration_ms req)]>
                 hourly_data
           | None => hourly_data
           end) ∅ http_requests.

Definition requests_point_of (item : datetime * hour_data) : requests_point :=
  let '(hour, data) := item in
  {| rp_timestamp := Isoformat hour;
     requests_count := count data;
     rp_avg_response_time :=
       if decide (0 < count data)%nat
       then (total_duration data / inject_Z (Z.of_nat (count data)))%Q
       else 0%Q |}.

Definition _get_real_requests_timeline (logs : list log_entry) (hours : Z)
    : list requests_point :=
  let http_requests := List.filter (has_event_type "http_request") logs in
  map requests_point_of (sorted_items (requests_hourly_data http_requests)).

(** The first loop of [_get_real_response_times_timeline]:
    [hourly_data = defaultdict(list)]. *)
Definition durations_hourly_data (http_requests : list log_entry)
    : gmap datetime (list Q) :=
  foldl (fun hourly_data req =>
           match parsed_timestamp req with
           | Some timestamp =>
               let hour_key := replace_to_hour timestamp in
               <[hour_key := default [] (hourly_data !! hour_key)
                               ++ [get_duration_ms req]]> hourly_data
           | None => hourly_data
           end) ∅ http_requests.

(** [durations[idx] if idx < len(durations) else 0] *)
Definition item_or_zero (durations : list Q) (idx : Z) : Q :=
  if idx <? Z.of_nat (length durations)
  then default 0%Q (durations !! Z.to_nat idx)
  else 0%Q.

Definition response_times_point_of (item : datetime * list Q)
    : list response_times_point :=
  let '(hour, durations) := item in
  match durations with
  | [] => []
  | _ =>
      let durations := merge_sort Qle durations in
      let len := Z.of_nat (length durations) in
      let p50_idx := Float64.int_mul len Float64.lit_0_5 in
      let p95_idx := Float64.int_mul len Float64.lit_0_95 in
      let p99_idx := Float64.int_mul len Float64.lit_0_99 in
      [ {| rt_timestamp := Isoformat hour;
           p50 := item_or_zero durations p50_idx;
           p95 := item_or_zero durations p95_idx;
           p99 := item_or_zero durations p99_idx |} ]
  end.

Definition _get_real_response_times_timeline (logs : list log_entry) (hours : Z)
    : list response_times_point :=
  let http_requests := List.filter (has_event_type "http_request") logs in
  flat_map response_times_point_of
    (sorted_items (durations_hourly_data http_requests)).

(** The two log-derived timelines of [export_historical_data]; the
    system sample and the error events are not modelled. *)
Record historical_data : Type := mk_historical {
  http_requests_timeline : list requests_point;
  response_times_timeline : list response_times_point
}.

Definition export_historical_data (fromtimestamp : Q -> option datetime)
    (lines : list log_line) (utcnow : datetime) (hours : Z) : historical_data :=
  let since := utcnow - timedelta_hours hours in
  let logs := _read_structured_logs fromtimestamp lines (Some since) in
  {| http_requests_timeline := _get_real_requests_timeline logs hours;
     response_times_timeline := _get_real_response_times_timeline logs hours |}.

(** ** The metric registry ([metrics.py]) *)

(** A labelled child of a [prometheus_client] [Histogram]: the finite
    upper bounds it was declared with (the [+Inf] bucket comes after
    them), one counter per bucket and the running sum. The library keeps
    the buckets non-cumulative and derives the [_count] sample from them. *)
Record histogram : Type := mk_histogram {
  upper_bounds : list Q;
  buckets : list nat;
  hsum : Q
}.

Definition new_histogram (bounds : list Q) : histogram :=
  mk_histogram bounds (replicate (S (length bounds)) 0%nat) 0.

Definition hcount (h : histogram) : nat := sum_list (buckets h).

(** Index of the first bound with [amount <= bound]; past the finite
    bounds it is the index of [+Inf]. *)
Fixpoint bucket_index (bounds : list Q) (amount : Q) : nat :=
  match bounds with
  | [] => 0%nat
  | bound :: rest =>
      if decide (amount <= bound)%Q then 0%nat else S (bucket_index rest amount)
  end.

(** [Histogram.observe(amount)] of [prometheus_client] (imported by
    [metrics.py]; the call sites pass the measured duration unchecked):
    [self._sum.inc(amount)], then the first bucket whose bound is not
    below [amount] is incremented. The library documents that negative
    values are accepted, and the call returns normally on any amount. *)
Definition observe (h : histogram) (amount : Q) : histogram :=
  {| upper_bounds := upper_bounds h;
     buckets := alter S (bucket_index (upper_bounds h) amount) (buckets h);
     hsum := (hsum h + amount)%Q |}.

Definition http_request_duration_buckets : list Q :=
  [1#100; 5#100; 1#10; 25#100; 5#10; 1; 25#10; 5; 10]%Q.

Definition db_query_duration_buckets : list Q :=
  [1#1000; 5#1000; 1#100; 5#100; 1#10; 25#100; 5#10; 1]%Q.

(** The series of [MetricsCollector] written by [record_http_request]
    and [record_db_query], each keyed by its label values (the gauges
    and the business counters are left out). *)
Record MetricsCollector : Type := mk_collector {
  http_requests_total : gmap (string * string * string) nat;
  http_request_duration : gmap (string * string) histogram;
  db_queries_total : gmap (string * string) nat;
  db_query_duration : gmap (string * string) histogram
}.

Definition empty_collector : MetricsCollector := mk_collector ∅ ∅ ∅ ∅.

(** [.labels(...)] creates the child on first use. *)
Definition labels_counter `{Countable K} (m : gmap K nat) (k : K) : nat :=
  default 0%nat (m !! k).

Definition labels_histogram `{Countable K} (bounds : list Q)
    (m : gmap K histogram) (k : K) : histogram :=
  default (new_histogram bounds) (m !! k).

Definition record_http_request (self : MetricsCollector)
    (method endpoint : string) (status_code : Z) (duration : Q) : MetricsCollector :=
  let ck := (method, endpoint, pretty status_code) in
  let hk := (method, endpoint) in
  {| http_requests_total :=
       <[ck := S (labels_counter (http_requests_total self) ck)]>
         (http_requests_total self);
     http_request_duration :=
       <[hk := observe (labels_histogram http_request_duration_buckets
                          (http_request_duration self) hk) duration]>
         (http_request_duration self);
     db_queries_total := db_queries_total self;
     db_query_duration := db_query_duration self |}.

Definition record_db_query (self : MetricsCollector)
    (table operation : string) (duration : Q) : MetricsCollector :=
  let k := (table, operation) in
  {| http_requests_total := http_requests_total self;
     http_request_duration := http_request_duration self;
     db_queries_total :=
       <[k := S (labels_counter (db_queries_total self) k)]> (db_queries_total self);
     db_query_duration :=
       <[k := observe (labels_histogram db_query_duration_buckets
                         (db_query_duration self) k) duration]>
         (db_query_duration self) |}.

(** *** Text exposition by category *)

(** Python's ASCII whitespace ([str.strip], [str.split]). *)
Definition is_whitespace (c : ascii) : bool :=
  match c with
  | "009" | "010" | "011" | "012" | "013"
  | "028" | "029" | "030" | "031" | " " => true
  | _ => false
  end%char.

Fixpoint lstrip (s : string) : string :=
  match s with
  | String c rest => if is_whitespace c then lstrip rest else s
  | EmptyString => EmptyString
  end.

Definition strip (s : string) : string :=
  String.rev (lstrip (String.rev (lstrip s))).

(** [s.split()]: the maximal runs of non-whitespace characters;
    [cur] is the run being read, last character first. *)
Fixpoint split_go (cur : option string) (s : string) : list string :=
  match s with
  | EmptyString => option_list (String.rev <$> cur)
  | String c rest =>
      if is_whitespace c
      then option_list (String.rev <$> cur) ++ split_go None rest
      else split_go (Some (String c (default EmptyString cur))) rest
  end.

Definition split (s : string) : list string := split_go None s.

(** [s.split('\n')] *)
Fixpoint split_newline_go (cur : string) (s : string) : list string :=
  match s with
  | EmptyString => [String.rev cur]
  | String c rest =>
      if Ascii.eqb c "010"
      then String.rev cur :: split_newline_go EmptyString rest
      else split_newline_go (String c cur) rest
  end.

Definition split_newline (s : string) : list string :=
  split_newline_go EmptyString s.

(** ['\n'.join(result)] *)
Fixpoint join_newline (result : list string) : string :=
  match result with
  | [] => EmptyString
  | [line] => line
  | line :: rest => line ++ String "010" (join_newline rest)
  end.

Fixpoint str_mul (s : string) (n : nat) : string :=
  match n with
  | O => EmptyString
  | S n' => s ++ str_mul s n'
  end.

Definition startswith (s prefix : string) : bool := String.prefix prefix s.

(** The dict [categories], in its declaration (and iteration) order. *)
Definition categories : list (string * string) :=
  [ ("http_", "HTTP METRICS");
    ("system_", "SYSTEM METRICS");
    ("db_", "DATABASE METRICS");
    ("books_", "BUSINESS METRICS (Books)");
    ("ml_", "MACHINE LEARNING METRICS");
    ("user_", "USER METRICS") ]%string.

Definition section_order : list string :=
  [ "http_"; "system_"; "db_"; "books_"; "ml_"; "user_"; "other" ]%string.

(** The inner [for prefix, category in categories.items()] loop. *)
Definition section_of_metric (metric_name : string) : string :=
  match List.find (fun item => startswith metric_name item.1) categories with
  | Some item => item.1
  | None => "other"%string
  end.

(** The first loop of [_format_metrics_by_category]; [None] is the
    [IndexError] of [line.split()[2]] on a HELP line of fewer than
    three words. *)
Fixpoint categorize (lines : list string) (current_section : string)
    (categorized_metrics : gmap string (list string))
    : option (gmap string (list string)) :=
  match lines with
  | [] => Some categorized_metrics
  | line :: rest =>
      if bool_decide (strip line = EmptyString)
      then categorize rest current_section categorized_metrics
      else
        current_section ←
          (if startswith line "# HELP"
           then section_of_metric <$> (split line !! 2%nat)
           else Some current_section);
        categorize rest current_section
          (<[current_section :=
               default [] (categorized_metrics !! current_section) ++ [line]]>
             categorized_metrics)
  end.

Definition dashes : string := ("# " ++ str_mul "-" 50)%string.

Definition section_block (categorized_metrics : gmap string (list string))
    (section : string) : list string :=
  match categorized_metrics !! section with
  | Some ((_ :: _) as section_lines) =>
      (match List.find (fun item => bool_decide (item.1 = section)) categories with
       | Some item => [dashes; ("# " ++ item.2)%string; dashes]
       | None =>
           if bool_decide (section = "other"%string)
           then [dashes; "# OTHER METRICS"%string; dashes]
           else []
       end)
      ++ [EmptyString] ++ section_lines ++ [EmptyString]
  | _ => []
  end.

Definition exposition_header : list string :=
  [ str_mul "# =" 40; "# FASTAPI MONITORING METRICS"; str_mul "# =" 40;
    EmptyString ]%string.

Definition _format_metrics_by_category (raw_metrics : string) : option string :=
  let lines := split_newline (strip raw_metrics) in
  categorized_metrics ← categorize lines "other" ∅;
  Some (join_newline
          (exposition_header
           ++ flat_map (section_block categorized_metrics) section_order)).

(** ** The request logger ([logger.py], [config.py], [middleware.py]) *)

Inductive level : Type := DEBUG | INFO | WARNING | ERROR.

Definition SLOW_REQUEST_THRESHOLD : Q := 1.

(** [round(x, 2)]: to the nearest hundredth, ties to the even one. *)
Definition round2 (x : Q) : Q :=
  let scaled := (x * 100)%Q in
  let lower := Qfloor scaled in
  let frac := (scaled - inject_Z lower)%Q in
  let n := if decide (frac < 1#2)%Q then lower
           else if decide (1#2 < frac)%Q then lower + 1
           else if Z.even lower then lower else lower + 1 in
  (inject_Z n / 100)%Q.

(** [log_request]: the level it logs at and, of the attributes it
    binds, those of [extra]. *)
Definition log_request (method path : string) (status_code : Z) (duration : Q)
    (user_id : option string) : level * extra :=
  let level :=
    if 500 <=? status_code then ERROR
    else if 400 <=? status_code then WARNING
    else if decide (SLOW_REQUEST_THRESHOLD < duration)%Q then WARNING
    else INFO in
  (level,
   {| event_type := Some "http_request"%string;
      status_code := Some status_code;
      duration_ms := Some (round2 (duration * 1000));
      user_id := user_id;
      event_name := None;
      context_success := None |}).

(** [log_business_event], always at INFO; of the keyword context only
    [success] is kept. *)
Definition log_business_event (event_name : string) (user_id : option string)
    (success : option bool) : level * extra :=
  (INFO,
   {| event_type := Some "business_event"%string;
      status_code := None;
      duration_ms := None;
      user_id := user_id;
      event_name := Some event_name;
      context_success := success |}).

(** The log record of [BusinessEventTracker.track_user_login]. *)
Definition track_user_login (success : bool) (username : string) : level * extra :=
  log_business_event "user_login_attempt" None (Some success).

(** ** Vocabulary of the properties *)

Fixpoint count_where {A : Type} (p : A -> bool) (l : list A) : nat :=
  match l with
  | [] => 0%nat
  | x :: rest => ((if p x then 1 else 0) + count_where p rest)%nat
  end.

Definition is_success (req : log_entry) : bool := get_status_code req <? 400.
Definition is_4xx (req : log_entry) : bool :=
  (400 <=? get_status_code req) && (get_status_code req <? 500).
Definition is_5xx (req : log_entry) : bool := 500 <=? get_status_code req.

(** The fraction [a / b] of two counts. *)
Definition fraction (a b : nat) : Q :=
  (inject_Z (Z.of_nat a) / inject_Z (Z.of_nat b))%Q.

(** The records that [export_current_metrics] works on: what the reader
    returns for the trailing hour, and the [http_request] ones among them. *)
Definition window_logs (fromtimestamp : Q -> option datetime) (lines : list log_line)
    (now : datetime) : list log_entry :=
  _read_structured_logs fromtimestamp lines (Some (now - timedelta_hours 1)).

Definition window_http_requests (fromtimestamp : Q -> option datetime)
    (lines : list log_line) (now : datetime) : list log_entry :=
  List.filter (has_event_type "http_request") (window_logs fromtimestamp lines now).

(** The lines on which reading raises an exception that is not handled
    per line, and the lines before the first of them. *)
Definition raises (fromtimestamp : Q -> option datetime) (line : log_line) : bool :=
  match line with
  | Unreadable => true
  | Json raw =>
      match time_timestamp raw with
      | Some t => negb (Qeq_bool t 0) && bool_decide (fromtimestamp t = None)
      | None => false
      end
  | _ => false
  end.

Fixpoint readable_prefix (fromtimestamp : Q -> option datetime)
    (lines : list log_line) : list log_line :=
  match lines with
  | [] => []
  | line :: rest =>
      if raises fromtimestamp line then []
      else line :: readable_prefix fromtimestamp rest
  end.

(** What [_read_structured_logs] keeps of one line for a given [since]. *)
Definition in_window (fromtimestamp : Q -> option datetime) (since : datetime)
    (line : log_line) : option log_entry :=
  match line with
  | Json raw =>
      t ← time_timestamp raw;
      ts ← fromtimestamp t;
      if negb (Qeq_bool t 0) && (since <=? ts)
      then Some (mk_entry (Some t) (record_extra raw) (Some ts))
      else None
  | _ => None
  end.

Definition is_login_attempt (event : log_entry) : bool :=
  bool_decide (event_name (record_extra event) = Some "user_login_attempt"%string).

Definition login_failed (event : log_entry) : bool :=
  bool_decide (context_success (record_extra event) = Some false).

(** The hour a record falls in, and the records of one hour. *)
Definition hour_of (req : log_entry) : option datetime :=
  replace_to_hour <$> parsed_timestamp req.

Definition in_hour (hour : datetime) (req : log_entry) : bool :=
  bool_decide (hour_of req = Some hour).

Definition bucket_of (hour : datetime) (reqs : list log_entry) : list log_entry :=
  List.filter (in_hour hour) reqs.



(** The records that [export_historical_data] reads for [hours]. *)
Definition historical_http_requests (fromtimestamp : Q -> option datetime)
    (lines : list log_line) (utcnow : datetime) (hours : Z) : list log_entry :=
  List.filter (has_event_type "http_request")
    (_read_structured_logs fromtimestamp lines
       (Some (utcnow - timedelta_hours hours))).

(** The durations of one hour, in ascending order. *)
Definition sorted_durations (reqs : list log_entry) (hour : datetime) : list Q :=
  merge_sort Qle (map get_duration_ms (bucket_of hour reqs)).

(** The point of the latency timeline for one hour: of the [n] sorted
    durations, those of rank [50 n / 100], [95 n / 100] and [99 n / 100]
    (integer quotients), 0 standing for a rank past the last one. *)
Definition percentile_point_spec (reqs : list log_entry) (hour : datetime)
    : response_times_point :=
  let durations := sorted_durations reqs hour in
  let n := length durations in
  {| rt_timestamp := Isoformat hour;
     p50 := nth (50 * n / 100)%nat durations 0%Q;
     p95 := nth (95 * n / 100)%nat durations 0%Q;
     p99 := nth (99 * n / 100)%nat durations 0%Q |}.

(** The section each non-blank line is filed under: that of the latest
    HELP line read so far, ["other"] before the first one. *)
Fixpoint tag_lines (lines : list string) (current_section : string)
    : list (string * string) :=
  match lines with
  | [] => []
  | line :: rest =>
      if bool_decide (strip line = EmptyString)
      then tag_lines rest current_section
      else
        let section :=
          if startswith line "# HELP"
          then section_of_metric (default EmptyString (split line !! 2%nat))
          else current_section in
        (section, line) :: tag_lines rest section
  end.

Definition lines_of_section (tagged : list (string * string)) (section : string)
    : list string :=
  map snd (List.filter (fun item => bool_decide (item.1 = section)) tagged).

(** A HELP line names its metric: it has a third word. *)
Definition help_names_metric (line : string) : Prop :=
  startswith line "# HELP" = true -> is_Some (split line !! 2%nat).

(** The exposition that [generate_latest] writes is a sequence of
    families: the HELP line of a metric, then its TYPE line and its
    series. [series_follow_help family lines] tells that every line of
    [lines] that starts with a declared prefix comes after a HELP line,
    and that the metric named by the last HELP line before it starts
    with that prefix too; [family] is the metric named last, if any. *)
Fixpoint series_follow_help (family : option string) (lines : list string) : bool :=
  match lines with
  | [] => true
  | line :: rest =>
      if bool_decide (strip line = EmptyString)
      then series_follow_help family rest
      else if startswith line "# HELP"
      then series_follow_help (split line !! 2%nat) rest
      else
        forallb (fun item : string * string =>
                   implb (startswith line item.1)
                     (from_option (fun name => startswith name item.1) false family))
          categories
        && series_follow_help family rest
  end.

(** A category as it is laid out: nothing when it has no line, else its
    banner, a blank line, its lines and a blank line. *)
Definition category_block (title : string) (section_lines : list string)
    : list string :=
  match section_lines with
  | [] => []
  | _ => [dashes; ("# " ++ title)%string; dashes]
         ++ [EmptyString] ++ section_lines ++ [EmptyString]
  end.

(** ** Sample data *)

(** A local clock on UTC, for epoch times that are whole microseconds
    (62135596800 seconds separate [datetime.min] from the epoch). *)
Definition utc_time (t : Q) : datetime :=
  62135596800000000 + Qfloor (t * 1000000).

Definition utc_clock (t : Q) : option datetime := Some (utc_time t).

(** A line as the logger writes it, [t] being the epoch time of writing. *)
Definition logged (t : Q) (record : level * extra) : log_line :=
  Json (mk_entry (Some t) record.2 None).

(** Three requests answered 200, 404 and 500 in 100, 200 and 300 ms. *)
Definition three_requests : list log_line :=
  [ logged 1700000000 (log_request "GET" "/books" 200 (1#10) None);
    logged 1700000001 (log_request "GET" "/books/7" 404 (2#10) None);
    logged 1700000002 (log_request "POST" "/predict" 500 (3#10) None) ].

(** One successful and one failed login attempt. *)
Definition two_logins : list log_line :=
  [ logged 1700000000 (track_user_login true "ana");
    logged 1700000001 (track_user_login false "ana") ].

(** Five requests of one hour that took 50, 10, 40, 20 and 30 ms. *)
Definition five_requests : list log_line :=
  [ logged 1700000000 (log_request "GET" "/books" 200 (50#1000) None);
    logged 1700000001 (log_request "GET" "/books" 200 (10#1000) None);
    logged 1700000002 (log_request "GET" "/books" 200 (40#1000) None);
    logged 1700000003 (log_request "GET" "/books" 200 (20#1000) None);
    logged 1700000004 (log_request "GET" "/books" 200 (30#1000) None) ].

(** 2023-11-14T22:13:30 UTC, seconds after the sample lines were written. *)
Definition sample_now : datetime := utc_time 1700000010.

(** A small exposition, the database family first. *)
Definition sample_exposition : string :=
  join_newline
    [ "# HELP db_queries_total Total database queries";
      "# TYPE db_queries_total counter";
      "db_queries_total{operation=select,table=books} 2.0";
      "# HELP python_info Python platform information";
      "python_info 1.0";
      "# HELP http_requests_total Total HTTP requests";
      "# TYPE http_requests_total counter";
      "http_requests_total{method=GET} 5.0";
      "" ]%string.

(** ** Vocabulary of the further properties *)

(** [entry] is what the reader makes of a line of [lines] that carries a
    non-zero timestamp not older than [since]. *)
Definition read_from (fromtimestamp : Q -> option datetime)
    (lines : list log_line) (since : datetime) (entry : log_entry) : Prop :=
  exists (raw : log_entry) (t : Q) (ts : datetime),
    In (Json raw) lines
    /\ time_timestamp raw = Some t
    /\ ~ (t == 0)%Q
    /\ fromtimestamp t = Some ts
    /\ since <= ts
    /\ entry = mk_entry (Some t) (record_extra raw) (Some ts).

(** The records whose parsed timestamp is not older than [since]. *)
Definition not_older_than (since : datetime) (entry : log_entry) : bool :=
  match parsed_timestamp entry with
  | Some ts => since <=? ts
  | None => false
  end.

(** A point of the latency timeline whose percentiles are ordered and
    are durations of records of its hour. *)
Definition ordered_observations (reqs : list log_entry)
    (point : response_times_point) : Prop :=
  (p50 point <= p95 point)%Q
  /\ (p95 point <= p99 point)%Q
  /\ exists hour : datetime,
       rt_timestamp point = Isoformat hour
       /\ In (p50 point) (map get_duration_ms (bucket_of hour reqs))
       /\ In (p95 point) (map get_duration_ms (bucket_of hour reqs))
       /\ In (p99 point) (map get_duration_ms (bucket_of hour reqs)).

(** * Further code of the monitoring package *)

(** ** [metrics.py]: the business counters *)

(** [books_scraped_total], and [ml_predictions_total] and
    [user_logins_total] keyed by their one label. *)
Record BusinessCounters : Type := mk_business {
  books_scraped_total : nat;
  ml_predictions_total : gmap string nat;
  user_logins_total : gmap string nat
}.

Definition empty_business : BusinessCounters := mk_business 0 ∅ ∅.

(** [record_business_event(event_type, **labels)] *)
Definition record_business_event (self : BusinessCounters) (event_type : string)
    (labels : gmap string string) : BusinessCounters :=
  if bool_decide (event_type = "book_scraped"%string) then
    mk_business (S (books_scraped_total self))
      (ml_predictions_total self) (user_logins_total self)
  else if bool_decide (event_type = "ml_prediction"%string) then
    let recommended := default "false"%string (labels !! "recommended"%string) in
    mk_business (books_scraped_total self)
      (<[recommended := S (labels_counter (ml_predictions_total self) recommended)]>
         (ml_predictions_total self))
      (user_logins_total self)
  else if bool_decide (event_type = "user_login"%string) then
    let status := default "unknown"%string (labels !! "status"%string) in
    mk_business (books_scraped_total self) (ml_predictions_total self)
      (<[status := S (labels_counter (user_logins_total self) status)]>
         (user_logins_total self))
  else self.

(** ** [logger.py]: database queries, errors and the sinks *)

Definition DB_QUERY_SLOW_THRESHOLD : Q := 1 # 2.

Record database_query : Type := mk_database_query {
  dq_query : string;
  dq_duration_ms : Q;
  dq_table : option string;
  dq_operation : option string
}.

(** [log_database_query]: the level and the attributes bound (the
    event type is ["database_query"]). *)
Definition log_database_query (query : string) (duration : Q)
    (table operation : option string) : level * database_query :=
  (if decide (DB_QUERY_SLOW_THRESHOLD < duration)%Q then WARNING else DEBUG,
   {| dq_query := if decide (200 < String.length query)%nat
                  then (substring 0 200 query ++ "...")%string
                  else query;
      dq_duration_ms := round2 (duration * 1000);
      dq_table := table;
      dq_operation := operation |}).

(** [log_error]: always at ERROR; of the attributes bound, those of [extra]. *)
Definition log_error (error_type error_message : string) : level * extra :=
  (ERROR,
   {| event_type := Some "error"%string;
      status_code := None;
      duration_ms := None;
      user_id := None;
      event_name := None;
      context_success := None |}).

(** The severity numbers of loguru. *)
Definition level_no (l : level) : Z :=
  match l with
  | DEBUG => 10
  | INFO => 20
  | WARNING => 30
  | ERROR => 40
  end.

(** [logger.add(sink, level=LOG_LEVEL, ...)] in [_setup_logger]: the
    sink receives the records whose severity is at least that of
    [LOG_LEVEL], given here by its number (loguru resolves the names
    TRACE, DEBUG, INFO, SUCCESS, WARNING, ERROR and CRITICAL to 5, 10,
    20, 25, 30, 40 and 50). *)
Definition sink_receives (LOG_LEVEL : Z) (record_level : level) : bool :=
  LOG_LEVEL <=? level_no record_level.

(** [os.getenv("LOG_LEVEL", "INFO")] when the variable is not set. *)
Definition LOG_LEVEL_default : Z := level_no INFO.

(** The file sink ([serialize=True]): a record that passes the level
    filter becomes one line, with the time of the call and the
    attributes bound. *)
Definition file_sink (LOG_LEVEL : Z) (clock : Q) (record : level * extra)
    : list log_line :=
  if sink_receives LOG_LEVEL record.1 then [logged clock record] else [].

(** The attributes of a [log_database_query] record that [extra] keeps. *)
Definition database_query_extra (q : database_query) : extra :=
  {| event_type := Some "database_query"%string;
     status_code := None;
     duration_ms := Some (dq_duration_ms q);
     user_id := None;
     event_name := None;
     context_success := None |}.

(** ** Vocabulary of the registry properties *)

(** A call of one of the two recording functions. *)
Inductive registry_call : Type :=
| HttpRequest (method endpoint : string) (status_code : Z) (duration : Q)
| DbQuery (table operation : string) (duration : Q).

Definition is_http_call (call : registry_call) : bool :=
  match call with HttpRequest _ _ _ _ => true | DbQuery _ _ _ => false end.

Definition run_call (self : MetricsCollector) (call : registry_call)
    : MetricsCollector :=
  match call with
  | HttpRequest method endpoint status_code duration =>
      record_http_request self method endpoint status_code duration
  | DbQuery table operation duration =>
      record_db_query self table operation duration
  end.

(** The sum of the counters of a family, and the sum of the [_count]
    of the children of a histogram. *)
Definition counter_total `{Countable K} (m : gmap K nat) : nat :=
  sum_list_with (fun item => item.2) (map_to_list m).

Definition observation_total `{Countable K} (m : gmap K histogram) : nat :=
  sum_list_with (fun item => hcount item.2) (map_to_list m).

(** A histogram has one bucket per bound and one for [+Inf]. *)
Definition histogram_wf (h : histogram) : Prop :=
  length (buckets h) = S (length (upper_bounds h)).

(** ** [middleware.py]: the request middleware *)

(** [\d] on the characters of the embedding, which are the code points
    below 256: among them it matches the ten ASCII digits and nothing
    else. In Python it also matches the decimal digits of other
    scripts, which are code points above 255; a property that depends
    on what is not a digit is stated for ASCII text ([is_ascii_text]). *)
Definition is_digit (c : ascii) : bool :=
  (48 <=? nat_of_ascii c)%nat && (nat_of_ascii c <=? 57)%nat.

Definition starts_with_digit (s : string) : bool :=
  match s with
  | String c _ => is_digit c
  | EmptyString => false
  end.

(** [re.sub(r'/\d+', '/{id}', path)]: the matches are taken from left
    to right and do not overlap; a match starts at a slash that a digit
    follows and takes every digit after it. [in_match] tells that the
    characters before were the digits of a match. *)
Fixpoint sub_slash_digits (in_match : bool) (path : string) : string :=
  match path with
  | EmptyString => EmptyString
  | String c rest =>
      if in_match && is_digit c then sub_slash_digits true rest
      else if Ascii.eqb c "/" && starts_with_digit rest
           then ("/{id}" ++ sub_slash_digits true rest)%string
           else String c (sub_slash_digits false rest)
  end.

Definition _normalize_path (path : string) : string :=
  sub_slash_digits false path.

(** [_extract_user_id]: every branch returns [None]. *)
Definition _extract_user_id (authorization : option string) : option string :=
  match authorization with
  | Some a =>
      if negb (bool_decide (a = ""%string)) && startswith a "Bearer "
      then None else None
  | None => None
  end.

(** The state the package keeps in a process: the registry, with the
    gauge of requests in progress, and the log file. *)
Record monitoring : Type := mk_monitoring {
  registry : MetricsCollector;
  http_requests_in_progress : Z;
  business : BusinessCounters;
  log_file : list log_line
}.

Definition with_registry (self : monitoring) (r : MetricsCollector) : monitoring :=
  mk_monitoring r (http_requests_in_progress self) (business self) (log_file self).

Definition with_in_progress (self : monitoring) (n : Z) : monitoring :=
  mk_monitoring (registry self) n (business self) (log_file self).

Definition with_business (self : monitoring) (b : BusinessCounters) : monitoring :=
  mk_monitoring (registry self) (http_requests_in_progress self) b (log_file self).

(** [logger.bind(...).log(level, ...)] at time [clock]. *)
Definition write (LOG_LEVEL : Z) (self : monitoring) (clock : Q)
    (record : level * extra) : monitoring :=
  mk_monitoring (registry self) (http_requests_in_progress self) (business self)
    (log_file self ++ file_sink LOG_LEVEL clock record).

(** What [call_next] does: it returns a response, or raises (the error
    is then logged at [error_clock]). *)
Inductive handler_outcome : Type :=
| Responds (status_code : Z)
| Raises (error_type error_message : string) (error_clock : Q).

(** [dispatch], for a request handled in [duration] seconds and logged
    at [clock]. The result is the status of the response, or [None] when
    the exception of the handler is raised again. The request id, the
    user agent, the address and the body are bound to the record but
    never read again; the two response headers are left out. *)
Definition dispatch (LOG_LEVEL : Z) (self : monitoring) (method path : string)
    (authorization : option string) (call_next : handler_outcome)
    (duration clock : Q) : monitoring * option Z :=
  let user_id := _extract_user_id authorization in
  let entered := with_in_progress self (http_requests_in_progress self + 1) in
  let '(handled, status_code, response) :=
    match call_next with
    | Responds status_code => (entered, status_code, Some status_code)
    | Raises error_type error_message error_clock =>
        (write LOG_LEVEL entered error_clock (log_error error_type error_message),
         500, None)
    end in
  let recorded :=
    with_registry handled
      (record_http_request (registry handled) method (_normalize_path path)
         status_code duration) in
  let logged :=
    write LOG_LEVEL recorded clock
      (log_request method path status_code duration user_id) in
  (with_in_progress logged (http_requests_in_progress logged - 1), response).

(** The wrappers of [monitor_query]: whether the wrapped function
    returns or raises, the query is recorded and logged. *)
Definition monitor_query (LOG_LEVEL : Z) (self : monitoring)
    (table operation : string) (duration clock : Q) : monitoring :=
  let recorded :=
    with_registry self (record_db_query (registry self) table operation duration) in
  let record :=
    log_database_query (operation ++ " on " ++ table) duration
      (Some table) (Some operation) in
  write LOG_LEVEL recorded clock (record.1, database_query_extra record.2).

(** [progress_percent] in [track_scraping_progress]. *)
Definition progress_percent (page_number : Z) (total_pages : option Z) : option Q :=
  match total_pages with
  | Some total =>
      if bool_decide (total = 0) then None
      else Some (round2 (inject_Z page_number / inject_Z total * 100))
  | None => None
  end.

(** [books_per_second] in [track_scraping_complete]; [None] is
    [ZeroDivisionError]. *)
Definition books_per_second (total_books : Z) (duration_seconds : Q) : option Q :=
  if Qeq_bool duration_seconds 0 then None
  else Some (round2 (inject_Z total_books / duration_seconds)).

Module BusinessEventTracker.

Definition track_book_scraping (LOG_LEVEL : Z) (self : monitoring)
    (books_count : Z) (clock : Q) : monitoring :=
  let counted :=
    Nat.iter (Z.to_nat books_count)
      (fun b => record_business_event b "book_scraped" ∅) (business self) in
  write LOG_LEVEL (with_business self counted) clock
    (log_business_event "books_scraped" None None).

Definition track_ml_prediction (LOG_LEVEL : Z) (self : monitoring)
    (recommended : bool) (user_id : option string) (clock : Q) : monitoring :=
  let counted :=
    record_business_event (business self) "ml_prediction"
      {[ "recommended"%string := if recommended then "true"%string
                                  else "false"%string ]} in
  write LOG_LEVEL (with_business self counted) clock
    (log_business_event "ml_prediction_made" user_id None).

Definition track_user_login (LOG_LEVEL : Z) (self : monitoring)
    (success : bool) (username : string) (clock : Q) : monitoring :=
  let status := if success then "success"%string else "failed"%string in
  let counted :=
    record_business_event (business self) "user_login"
      {[ "status"%string := status ]} in
  write LOG_LEVEL (with_business self counted) clock
    (log_business_event "user_login_attempt" None (Some success)).

Definition track_scraping_start (LOG_LEVEL : Z) (self : monitoring)
    (clock : Q) : monitoring :=
  write LOG_LEVEL self clock (log_business_event "scraping_started" None None).

Definition track_scraping_progress (LOG_LEVEL : Z) (self : monitoring)
    (page_number books_found : Z) (total_pages : option Z) (clock : Q)
    : monitoring :=
  let logged :=
    write LOG_LEVEL self clock
      (log_business_event "scraping_page_completed" None None) in
  with_business logged (record_business_event (business logged) "page_scraped" ∅).

(** [None] when the rate raises, before anything is logged. *)
Definition track_scraping_complete (LOG_LEVEL : Z) (self : monitoring)
    (total_books : Z) (duration_seconds : Q) (clock : Q) : option monitoring :=
  match books_per_second total_books duration_seconds with
  | Some _ =>
      Some (write LOG_LEVEL self clock
              (log_business_event "scraping_completed" None None))
  | None => None
  end.

End BusinessEventTracker.

(** ** Vocabulary of the properties of the package at work *)

(** What a process does with the package, one call after the other,
    each with the time at which its record is logged: a request that
    goes through the middleware, a function wrapped by [monitor_query],
    the calls of [BusinessEventTracker], and the direct calls of the
    logger in [api/main.py] ([log_error] in the scraping task and the
    prediction endpoint, [log_database_query] in the book listing, and
    [log_business_event] in the book search and the statistics
    overview, the latter with the user name as [user_id]). *)
Inductive activity : Type :=
| Request (method path : string) (authorization : option string)
    (call_next : handler_outcome) (duration : Q)
| Query (table operation : string) (duration : Q)
| BookScraping (books_count : Z)
| MlPrediction (recommended : bool) (user_id : option string)
| UserLogin (success : bool) (username : string)
| ScrapingStart
| ScrapingProgress (page_number books_found : Z) (total_pages : option Z)
| ScrapingComplete (total_books : Z) (duration_seconds : Q)
| LogError (error_type error_message : string)
| LogDatabaseQuery (query : string) (duration : Q) (table operation : option string)
| BookSearchPerformed
| StatsOverviewAccessed (username : string).

Definition run (LOG_LEVEL : Z) (self : monitoring) (step : activity * Q)
    : monitoring :=
  let clock := step.2 in
  match step.1 with
  | Request method path authorization call_next duration =>
      (dispatch LOG_LEVEL self method path authorization call_next duration clock).1
  | Query table operation duration =>
      monitor_query LOG_LEVEL self table operation duration clock
  | BookScraping books_count =>
      BusinessEventTracker.track_book_scraping LOG_LEVEL self books_count clock
  | MlPrediction recommended user_id =>
      BusinessEventTracker.track_ml_prediction LOG_LEVEL self recommended user_id clock
  | UserLogin success username =>
      BusinessEventTracker.track_user_login LOG_LEVEL self success username clock
  | ScrapingStart =>
      BusinessEventTracker.track_scraping_start LOG_LEVEL self clock
  | ScrapingProgress page_number books_found total_pages =>
      BusinessEventTracker.track_scraping_progress LOG_LEVEL self
        page_number books_found total_pages clock
  | ScrapingComplete total_books duration_seconds =>
      default self
        (BusinessEventTracker.track_scraping_complete LOG_LEVEL self
           total_books duration_seconds clock)
  | LogError error_type error_message =>
      write LOG_LEVEL self clock (log_error error_type error_message)
  | LogDatabaseQuery query duration table operation =>
      let record := log_database_query query duration table operation in
      write LOG_LEVEL self clock (record.1, database_query_extra record.2)
  | BookSearchPerformed =>
      write LOG_LEVEL self clock
        (log_business_event "book_search_performed" None None)
  | StatsOverviewAccessed username =>
      write LOG_LEVEL self clock
        (log_business_event "stats_overview_accessed" (Some username) None)
  end.

(** A process that has just started, and where it is after [steps]. *)
Definition idle : monitoring :=
  mk_monitoring empty_collector 0 empty_business [].

Definition run_all (LOG_LEVEL : Z) (steps : list (activity * Q)) : monitoring :=
  foldl (run LOG_LEVEL) idle steps.

(** The times at which a step logs. *)
Definition clocks (step : activity * Q) : list Q :=
  match step.1 with
  | Request _ _ _ (Raises _ _ error_clock) _ => [error_clock; step.2]
  | _ => [step.2]
  end.

(** A time that the reader accepts for the trailing hour before [now]. *)
Definition within_last_hour (fromtimestamp : Q -> option datetime)
    (now : datetime) (clock : Q) : Prop :=
  exists ts : datetime,
    ~ (clock == 0)%Q
    /\ fromtimestamp clock = Some ts
    /\ now - timedelta_hours 1 <= ts.

Definition is_request (step : activity * Q) : bool :=
  match step.1 with Request _ _ _ _ _ => true | _ => false end.

Definition is_query (step : activity * Q) : bool :=
  match step.1 with Query _ _ _ => true | _ => false end.

(** A query, wrapped or logged directly, that took more than
    [DB_QUERY_SLOW_THRESHOLD]. *)
Definition is_slow_query (step : activity * Q) : bool :=
  match step.1 with
  | Query _ _ duration => bool_decide (DB_QUERY_SLOW_THRESHOLD < duration)%Q
  | LogDatabaseQuery _ duration _ _ =>
      bool_decide (DB_QUERY_SLOW_THRESHOLD < duration)%Q
  | _ => false
  end.

Definition is_login (success : bool) (step : activity * Q) : bool :=
  match step.1 with
  | UserLogin s _ => bool_decide (s = success)
  | _ => false
  end.

Definition is_prediction (recommended : bool) (step : activity * Q) : bool :=
  match step.1 with
  | MlPrediction r _ => bool_decide (r = recommended)
  | _ => false
  end.

Definition is_identified_prediction (step : activity * Q) : bool :=
  match step.1 with
  | MlPrediction _ (Some u) => negb (bool_decide (u = ""%string))
  | _ => false
  end.

(** A visit of the statistics overview by a user with a name. *)
Definition is_identified_overview (step : activity * Q) : bool :=
  match step.1 with
  | StatsOverviewAccessed username => negb (bool_decide (username = ""%string))
  | _ => false
  end.

(** The steps that log a record with a non-empty [user_id]. *)
Definition is_identified (step : activity * Q) : bool :=
  is_identified_prediction step || is_identified_overview step.

Definition books_of (step : activity * Q) : nat :=
  match step.1 with
  | BookScraping books_count => Z.to_nat books_count
  | _ => 0%nat
  end.

Definition is_server_error (step : activity * Q) : bool :=
  match step.1 with
  | Request _ _ _ (Responds status_code) _ => 500 <=? status_code
  | Request _ _ _ (Raises _ _ _) _ => true
  | _ => false
  end.

(** The lines that a step adds to the log file. *)
Definition written (LOG_LEVEL : Z) (step : activity * Q) : list log_line :=
  log_file (run LOG_LEVEL idle step).

(** The lines of the log file whose attributes satisfy [p], and those
    that carry an event type. *)
Definition line_satisfies (p : extra -> bool) (line : log_line) : bool :=
  match line with
  | Json e => p (record_extra e)
  | _ => false
  end.

Definition line_has_event_type (ty : string) (line : log_line) : bool :=
  line_satisfies (fun e => bool_decide (event_type e = Some ty)) line.

(** A line written at a time that the reader accepts. *)
Definition well_timed (fromtimestamp : Q -> option datetime) (now : datetime)
    (line : log_line) : Prop :=
  exists (clock : Q) (e : extra),
    line = Json (mk_entry (Some clock) e None)
    /\ within_last_hour fromtimestamp now clock.

Fixpoint has_slash_digit (s : string) : bool :=
  match s with
  | EmptyString => false
  | String c rest =>
      (Ascii.eqb c "/" && starts_with_digit rest) || has_slash_digit rest
  end.

Fixpoint all_digits (s : string) : bool :=
  match s with
  | EmptyString => true
  | String c rest => is_digit c && all_digits rest
  end.

(** Text of ASCII characters only. *)
Fixpoint is_ascii_text (s : string) : bool :=
  match s with
  | EmptyString => true
  | String c rest => (nat_of_ascii c <? 128)%nat && is_ascii_text rest
  end.

(** A request answered 200, one whose handler raises, a fast and a slow
    query, two logins, a prediction, three books scraped and a visit of
    the statistics overview. *)
Definition sample_steps : list (activity * Q) :=
  [ (Request "GET" "/api/v1/books/7" None (Responds 200) (1 # 10), 1700000000%Q);
    (Request "POST" "/api/v1/predict" (Some "Bearer abc"%string)
       (Raises "ValueError" "bad input" 1700000001) (3 # 10), 1700000001%Q);
    (Query "books" "SELECT" (1 # 100), 1700000002%Q);
    (Query "books" "INSERT" (3 # 4), 1700000003%Q);
    (UserLogin true "ana", 1700000004%Q);
    (UserLogin false "ana", 1700000005%Q);
    (MlPrediction true (Some "ana"%string), 1700000006%Q);
    (BookScraping 3, 1700000007%Q);
    (StatsOverviewAccessed "bia", 1700000008%Q) ].

(** ** The rates as the doubles that Python returns *)

Module Binary64.

(** [a / d] to the nearest integer, ties to the even one, for [0 < d]. *)
Definition nearest_quotient (a d : Z) : Z :=
  let q := a / d in
  let r := a mod d in
  if 2 * r <? d then q
  else if d <? 2 * r then q + 1
  else if Z.even q then q else q + 1.

(** [a / b] for two Python [int]s, [0 <= a] and [0 < b]: true division
    is correctly rounded, so the result is the double nearest to the
    quotient (the quotients of two counts are far from the subnormal
    range and from overflow). [k] is taken so that
    [2 ^ 52 <= a * 2 ^ k / b < 2 ^ 53], which gives a mantissa of 53
    bits. *)
Definition true_div (a b : Z) : Float64.t :=
  if a =? 0 then Float64.mk 0 0
  else
    let k0 := Float64.prec + Z.log2 b - Z.log2 a in
    let k :=
      if 2 ^ Float64.prec * b * 2 ^ Z.max 0 (- k0) <=? a * 2 ^ Z.max 0 k0
      then k0 - 1 else k0 in
    Float64.mk (nearest_quotient (a * 2 ^ Z.max 0 k) (b * 2 ^ Z.max 0 (- k)))
      (- k).

(** The rational that a double is. *)
Definition to_Q (x : Float64.t) : Q :=
  if 0 <=? Float64.expo x
  then inject_Z (Float64.mant x * 2 ^ Float64.expo x)
  else (inject_Z (Float64.mant x) / inject_Z (2 ^ (- Float64.expo x)))%Q.

(** The literals [1.0] and [0.0]. *)
Definition lit_1_0 : Float64.t := Float64.mk 1 0.
Definition lit_0_0 : Float64.t := Float64.mk 0 0.

(** [_calculate_real_success_rate] and [_calculate_real_error_rate]
    with the quotient as Python computes it. *)
Definition _calculate_real_success_rate (http_requests : list log_entry)
    : Float64.t :=
  match http_requests with
  | [] => lit_1_0
  | _ =>
      let successful :=
        length (List.filter (fun req => get_status_code req <? 400) http_requests) in
      true_div (Z.of_nat successful) (Z.of_nat (length http_requests))
  end.

Definition _calculate_real_error_rate (http_requests : list log_entry)
    (error_type : string) : Float64.t :=
  match http_requests with
  | [] => lit_0_0
  | _ =>
      if bool_decide (error_type = "4xx"%string) then
        let errors := List.filter (fun req => (400 <=? get_status_code req)
                                    && (get_status_code req <? 500)) http_requests in
        true_div (Z.of_nat (length errors)) (Z.of_nat (length http_requests))
      else if bool_decide (error_type = "5xx"%string) then
        let errors := List.filter (fun req => 500 <=? get_status_code req) http_requests in
        true_div (Z.of_nat (length errors)) (Z.of_nat (length http_requests))
      else lit_0_0
  end.

(** The same quotient on the binary64 numbers of the kernel, for
    [0 <= a, b < 2 ^ 53]; it serves to test [true_div], and to add up
    the rates as Python would. *)
Definition hardware_true_div (a b : Z) : float :=
  PrimFloat.div (PrimFloat.of_uint63 (Uint63.of_Z a))
    (PrimFloat.of_uint63 (Uint63.of_Z b)).

Definition same_double (x : Float64.t) (y : float) : bool :=
  match Prim2SF y with
  | S754_zero false => Float64.mant x =? 0
  | S754_finite false m e =>
      let low := Z.min (Float64.expo x) e in
      Float64.mant x * 2 ^ (Float64.expo x - low) =? Z.pos m * 2 ^ (e - low)
  | _ => false
  end.

(** [true] when [true_div] and the kernel agree on [a / b] for every
    [0 <= a <= b] with [b] among [denominators]. *)
Definition agree_on (denominators : list Z) : bool :=
  forallb (fun b =>
             forallb (fun a => same_double (true_div a b) (hardware_true_div a b))
               (seqZ 0 (b + 1)))
    denominators.

End Binary64.

(** [2 ^ -53], half the distance between two doubles of [[1/2, 1]]. *)
Definition half_ulp : Q := 1 # 9007199254740992.

(** Six requests answered 200, 404 (four times) and 500. *)
Definition six_requests : list log_line :=
  [ logged 1700000000 (log_request "GET" "/books" 200 (1#10) None);
    logged 1700000001 (log_request "GET" "/books/7" 404 (1#10) None);
    logged 1700000002 (log_request "GET" "/books/8" 404 (1#10) None);
    logged 1700000003 (log_request "GET" "/books/9" 404 (1#10) None);
    logged 1700000004 (log_request "GET" "/books/10" 404 (1#10) None);
    logged 1700000005 (log_request "POST" "/predict" 500 (1#10) None) ].

(** * Properties *)

(** ** Counting and ratios *)


Lemma length_filter_count {A : Type} (p : A -> bool) (l : list A) :
  length (List.filter p l) = count_where p l.
Proof.
  induction l as [|x l IH]; simpl; [reflexivity|].
  destruct (p x); simpl; rewrite IH; reflexivity.
Qed.

Lemma count_where_le {A : Type} (p : A -> bool) (l : list A) :
  (count_where p l <= length l)%nat.
Proof.
  induction l as [|x l IH]; simpl; [lia|]. destruct (p x); lia.
Qed.

Lemma status_classes_partition (l : list log_entry) :
  (count_where is_success l + count_where is_4xx l + count_where is_5xx l
   = length l)%nat.
Proof.
  induction l as [|x l IH]; simpl; [reflexivity|].
  unfold is_success, is_4xx, is_5xx in *.
  destruct (Z.ltb_spec (get_status_code x) 400);
    destruct (Z.leb_spec 400 (get_status_code x));
    destruct (Z.ltb_spec (get_status_code x) 500);
    destruct (Z.leb_spec 500 (get_status_code x)); simpl; lia.
Qed.

Lemma fraction_bounds (a b : nat) :
  (a <= b)%nat -> (0 < b)%nat -> (0 <= fraction a b <= 1)%Q.
Proof.
  intros Hab Hb. unfold fraction.
  assert (Hpos : (0 < inject_Z (Z.of_nat b))%Q).
  { change 0%Q with (inject_Z 0). rewrite <- Zlt_Qlt. lia. }
  split.
  - apply Qle_shift_div_l; [exact Hpos|].
    rewrite Qmult_0_l. change 0%Q with (inject_Z 0). rewrite <- Zle_Qle. lia.
  - apply Qle_shift_div_r; [exact Hpos|].
    rewrite Qmult_1_l. rewrite <- Zle_Qle. lia.
Qed.

Lemma fraction_sum3 (a b c n : nat) :
  (a + b + c = n)%nat -> (0 < n)%nat ->
  (fraction a n + fraction b n + fraction c n == 1)%Q.
Proof.
  intros Hsum Hn. unfold fraction. subst n.
  rewrite !Nat2Z.inj_add, !inject_Z_plus.
  field. intro Hz.
  rewrite <- !inject_Z_plus in Hz.
  change 0%Q with (inject_Z 0) in Hz. rewrite inject_Z_injective in Hz. lia.
Qed.

Lemma success_rate_eq (l : list log_entry) :
  _calculate_real_success_rate l
  = match l with
    | [] => 1%Q
    | _ => fraction (count_where is_success l) (length l)
    end.
Proof.
  destruct l as [|x l]; [reflexivity|].
  unfold _calculate_real_success_rate, fraction.
  rewrite (length_filter_count (fun req => get_status_code req <? 400)).
  reflexivity.
Qed.

Lemma error_rate_4xx_eq (l : list log_entry) :
  _calculate_real_error_rate l "4xx"
  = match l with
    | [] => 0%Q
    | _ => fraction (count_where is_4xx l) (length l)
    end.
Proof.
  destruct l as [|x l]; [reflexivity|].
  unfold _calculate_real_error_rate, fraction.
  rewrite bool_decide_eq_true_2 by reflexivity.
  rewrite (length_filter_count
             (fun req => (400 <=? get_status_code req) && (get_status_code req <? 500))).
  reflexivity.
Qed.

Lemma error_rate_5xx_eq (l : list log_entry) :
  _calculate_real_error_rate l "5xx"
  = match l with
    | [] => 0%Q
    | _ => fraction (count_where is_5xx l) (length l)
    end.
Proof.
  destruct l as [|x l]; [reflexivity|].
  unfold _calculate_real_error_rate, fraction.
  rewrite bool_decide_eq_false_2 by discriminate.
  rewrite bool_decide_eq_true_2 by reflexivity.
  rewrite (length_filter_count (fun req => 500 <=? get_status_code req)).
  reflexivity.
Qed.

(** ** Success rate *)

(** C1. Over the [http_request] records of the trailing hour,
    [export_current_metrics] returns as [success_rate] the number of
    records with status below 400 divided by [total_requests], and 1
    when there is no such record; the value always lies in [[0,1]]. *)
Theorem success_rate_is_fraction_of_successes :
  forall (fromtimestamp : Q -> option datetime) (lines : list log_line)
         (now utcnow : datetime),
    let m := export_current_metrics fromtimestamp lines now utcnow in
    let reqs := window_http_requests fromtimestamp lines now in
    total_requests m = length reqs
    /\ success_rate m
       = (if decide (total_requests m = 0%nat) then 1%Q
          else fraction (count_where (fun req => get_status_code req <? 400) reqs)
                 (total_requests m))
    /\ (0 <= success_rate m <= 1)%Q.
Proof.
  intros fromtimestamp lines now utcnow m reqs.
  assert (Hrate : success_rate m = _calculate_real_success_rate reqs) by reflexivity.
  assert (Htotal : total_requests m = length reqs) by reflexivity.
  rewrite Hrate, Htotal, success_rate_eq.
  split; [reflexivity|].
  destruct reqs as [|x l] eqn:E.
  - simpl. split; [reflexivity|]. split; discriminate.
  - rewrite decide_False by discriminate.
    split; [reflexivity|].
    apply fraction_bounds; [apply count_where_le | simpl; lia].
Qed.

(** ** Reading the log *)

Lemma read_structured_logs_omap (fromtimestamp : Q -> option datetime)
    (lines : list log_line) (since : datetime) :
  _read_structured_logs fromtimestamp lines (Some since)
  = omap (in_window fromtimestamp since) (readable_prefix fromtimestamp lines).
Proof.
  induction lines as [|line rest IH]; [reflexivity|].
  destruct line as [| | |raw]; simpl; try exact IH; [reflexivity|].
  destruct (time_timestamp raw) as [t|] eqn:Et; simpl; rewrite ?Et; simpl;
    [|exact IH].
  destruct (Qeq_bool t 0) eqn:Ezero; simpl.
  { rewrite Et. simpl. destruct (fromtimestamp t); simpl; rewrite ?Ezero; exact IH. }
  destruct (fromtimestamp t) as [ts|] eqn:Ets; simpl; [|reflexivity].
  rewrite Et. simpl. rewrite Ets. simpl. rewrite Ezero. simpl.
  rewrite Z.leb_antisym.
  destruct (ts <? since); simpl; [exact IH|].
  rewrite IH. reflexivity.
Qed.

(** C9. Besides the documented fields, the mapping returned by
    [export_current_metrics] has under ["http_requests"] the whole list
    that the reader returned for the trailing hour: one record, in file
    order, for every decodable line whose timestamp is present, not zero
    and not older than one hour, whatever its event type. *)
Theorem http_requests_key_holds_all_records :
  forall (fromtimestamp : Q -> option datetime) (lines : list log_line)
         (now utcnow : datetime),
    let m := export_current_metrics fromtimestamp lines now utcnow in
    http_requests_key m
    = omap (in_window fromtimestamp (now - timedelta_hours 1))
        (readable_prefix fromtimestamp lines)
    /\ (forall (raw : log_entry) (t : Q) (ts : datetime),
          In (Json raw) (readable_prefix fromtimestamp lines) ->
          time_timestamp raw = Some t ->
          ~ (t == 0)%Q ->
          fromtimestamp t = Some ts ->
          now - timedelta_hours 1 <= ts ->
          In (mk_entry (Some t) (record_extra raw) (Some ts))
             (http_requests_key m))
    /\ (let m5 := export_current_metrics utc_clock (three_requests ++ two_logins)
                    sample_now sample_now in
        total_requests m5 = 3%nat /\ length (http_requests_key m5) = 5%nat).
Proof.
  intros fromtimestamp lines now utcnow m.
  assert (Hkey : http_requests_key m
                 = omap (in_window fromtimestamp (now - timedelta_hours 1))
                     (readable_prefix fromtimestamp lines)).
  { apply read_structured_logs_omap. }
  split; [exact Hkey|]. split.
  - intros raw t ts Hin Ht Hnz Hts Hsince. rewrite Hkey.
    apply list_elem_of_In, list_elem_of_omap.
    exists (Json raw). split; [apply list_elem_of_In; exact Hin|].
    simpl. rewrite Ht. simpl. rewrite Hts.
    assert (Hq : Qeq_bool t 0 = false).
    { destruct (Qeq_bool t 0) eqn:E; [|reflexivity].
      apply Qeq_bool_eq in E. contradiction. }
    rewrite Hq. simpl.
    rewrite (proj2 (Z.leb_le _ _) Hsince). reflexivity.
  - split; vm_compute; reflexivity.
Qed.

(** ** Failed logins *)

Lemma failed_logins_rate_eq (business_events : list log_entry) :
  _calculate_real_failed_logins_rate business_events
  = let login_events := List.filter is_login_attempt business_events in
    match login_events with
    | [] => 0%Q
    | _ => fraction (count_where login_failed login_events) (length login_events)
    end.
Proof.
  unfold _calculate_real_failed_logins_rate. fold is_login_attempt.
  cbv zeta. destruct (List.filter is_login_attempt business_events) as [|e l] eqn:E;
    [reflexivity|].
  unfold fraction. rewrite !length_filter_count.
  do 3 f_equal.
  generalize (e :: l). intros evs.
  induction evs as [|x evs IH]; simpl; [reflexivity|]. rewrite IH.
  f_equal. unfold login_failed.
  destruct (context_success (record_extra x)) as [[|]|]; reflexivity.
Qed.

(** C7. [failed_logins_rate] is, among the [business_event] records of
    the trailing hour named ["user_login_attempt"], the fraction whose
    [context.success] is false, and 0 when there is no such record; one
    successful and one failed attempt, as [track_user_login] logs them,
    give one half. *)
Theorem failed_logins_rate_is_fraction_of_failures :
  forall (fromtimestamp : Q -> option datetime) (lines : list log_line)
         (now utcnow : datetime),
    let m := export_current_metrics fromtimestamp lines now utcnow in
    let attempts :=
      List.filter (fun log => has_event_type "business_event" log
                              && is_login_attempt log)
        (window_logs fromtimestamp lines now) in
    failed_logins_rate m
    = (if decide (length attempts = 0%nat) then 0%Q
       else fraction (count_where login_failed attempts) (length attempts))
    /\ failed_logins_rate
         (export_current_metrics utc_clock two_logins sample_now sample_now)
       = (1 # 2)%Q
    /\ (forall (u1 u2 : string) (t1 t2 : option Q) (p1 p2 : option datetime),
          _calculate_real_failed_logins_rate
            [ mk_entry t1 (track_user_login true u1).2 p1;
              mk_entry t2 (track_user_login false u2).2 p2 ]
          = (1 # 2)%Q).
Proof.
  intros fromtimestamp lines now utcnow m attempts.
  split; [|split; [vm_compute; reflexivity | intros; reflexivity]].
  assert (Hm : failed_logins_rate m
               = _calculate_real_failed_logins_rate
                   (List.filter (has_event_type "business_event")
                      (window_logs fromtimestamp lines now))) by reflexivity.
  rewrite Hm, failed_logins_rate_eq. cbv zeta.
  assert (Hatt : List.filter is_login_attempt
                   (List.filter (has_event_type "business_event")
                      (window_logs fromtimestamp lines now)) = attempts).
  { subst attempts. generalize (window_logs fromtimestamp lines now). intros l.
    induction l as [|x l IH]; simpl; [reflexivity|].
    destruct (has_event_type "business_event" x); simpl; [|exact IH].
    destruct (is_login_attempt x); simpl; rewrite IH; reflexivity. }
  rewrite Hatt.
  destruct attempts as [|e l]; [reflexivity|].
  rewrite decide_False by discriminate. reflexivity.
Qed.

(** ** Severity of a logged request *)

(** C8. [log_request] logs an [http_request] at ERROR when the status
    is 500 or more, at WARNING when the status is in 400..499 or, the
    status being below 400, the duration exceeds
    [SLOW_REQUEST_THRESHOLD], and at INFO otherwise. *)
Theorem log_request_severity :
  forall (method path : string) (status_code : Z) (duration : Q)
         (user_id : option string),
    let logged_at := (log_request method path status_code duration user_id).1 in
    (logged_at = ERROR <-> 500 <= status_code)
    /\ (logged_at = WARNING <->
        400 <= status_code <= 499
        \/ (status_code < 400 /\ (SLOW_REQUEST_THRESHOLD < duration)%Q))
    /\ (logged_at = INFO <->
        status_code < 400 /\ ~ (SLOW_REQUEST_THRESHOLD < duration)%Q)
    /\ logged_at <> DEBUG
    /\ event_type (log_request method path status_code duration user_id).2
       = Some "http_request"%string.
Proof.
  intros method path status_code duration user_id logged_at.
  subst logged_at. unfold log_request. cbn [fst snd event_type].
  destruct (Z.leb_spec 500 status_code) as [H5|H5];
    [|destruct (Z.leb_spec 400 status_code) as [H4|H4];
      [|destruct (decide (SLOW_REQUEST_THRESHOLD < duration)%Q) as [Hs|Hs]]];
    intuition (try discriminate; try lia).
Qed.

(** ** Repeated calls *)

(** Two calls one microsecond apart over the same log file do not
    return the same mapping: [current_timestamp] is the clock reading of
    each call. *)
Lemma current_metrics_differ_between_calls :
  export_current_metrics utc_clock three_requests sample_now sample_now
  <> export_current_metrics utc_clock three_requests (sample_now + 1) (sample_now + 1).
Proof.
  intros Heq. apply (f_equal current_timestamp) in Heq.
  vm_compute in Heq. discriminate Heq.
Qed.

(** C4, amended. Two calls of [export_current_metrics] over the same
    log file whose trailing hours hold the same records agree on every
    field but [current_timestamp], which is the UTC clock reading of
    each call. *)
Theorem current_metrics_repeatable_up_to_clock :
  forall (fromtimestamp : Q -> option datetime) (lines : list log_line)
         (now1 utcnow1 now2 utcnow2 : datetime),
    window_logs fromtimestamp lines now1 = window_logs fromtimestamp lines now2 ->
    let m1 := export_current_metrics fromtimestamp lines now1 utcnow1 in
    let m2 := export_current_metrics fromtimestamp lines now2 utcnow2 in
    total_requests m1 = total_requests m2
    /\ success_rate m1 = success_rate m2
    /\ avg_response_time m1 = avg_response_time m2
    /\ active_users m1 = active_users m2
    /\ error_rate_5xx m1 = error_rate_5xx m2
    /\ error_rate_4xx m1 = error_rate_4xx m2
    /\ failed_logins_rate m1 = failed_logins_rate m2
    /\ http_requests_key m1 = http_requests_key m2
    /\ data_source m1 = data_source m2
    /\ current_timestamp m1 = Isoformat utcnow1
    /\ current_timestamp m2 = Isoformat utcnow2.
Proof.
  intros fromtimestamp lines now1 utcnow1 now2 utcnow2 Hwin m1 m2.
  subst m1 m2. unfold export_current_metrics.
  fold (window_logs fromtimestamp lines now1).
  fold (window_logs fromtimestamp lines now2).
  rewrite Hwin. cbn. repeat split; reflexivity.
Qed.

Lemma current_metrics_repeatable_witness :
  window_logs utc_clock three_requests sample_now
  = window_logs utc_clock three_requests (sample_now + 1)
  /\ total_requests
       (export_current_metrics utc_clock three_requests sample_now sample_now)
     = total_requests
         (export_current_metrics utc_clock three_requests (sample_now + 1)
            (sample_now + 1)).
Proof.
  split; [vm_compute; reflexivity|].
  exact (proj1 (current_metrics_repeatable_up_to_clock utc_clock three_requests
                  sample_now sample_now (sample_now + 1) (sample_now + 1)
                  ltac:(vm_compute; reflexivity))).
Defined.

(** ** Negative observations *)

Lemma bucket_index_negative (bounds : list Q) (v : Q) :
  (v < 0)%Q -> Forall (Qle 0) bounds -> bucket_index bounds v = 0%nat.
Proof.
  intros Hv Hb. destruct bounds as [|b rest]; simpl; [reflexivity|].
  inversion Hb as [|? ? Hb0 _]; subst.
  rewrite decide_True; [reflexivity|].
  apply Qlt_le_weak. eapply Qlt_le_trans; eassumption.
Qed.

(** A request that lasted [-1] second (the wall clock stepped back) is
    recorded like any other: the child series of the duration histogram
    is created, its sum is [-1], its count 1, and the observation sits
    in the lowest bucket. The series is not left as it was. *)
Lemma negative_observation_is_recorded :
  let h0 := new_histogram http_request_duration_buckets in
  let self := record_http_request empty_collector "GET" "/books" 200 (-1) in
  http_request_duration self !! ("GET"%string, "/books"%string)
  = Some (observe h0 (-1))
  /\ buckets (observe h0 (-1)) = [1; 0; 0; 0; 0; 0; 0; 0; 0; 0]%nat
  /\ (hsum (observe h0 (-1)) == -1)%Q
  /\ hcount (observe h0 (-1)) = 1%nat
  /\ observe h0 (-1) <> h0.
Proof.
  cbv zeta. split; [vm_compute; reflexivity|].
  split; [vm_compute; reflexivity|].
  split; [vm_compute; reflexivity|].
  split; [vm_compute; reflexivity|].
  intros Heq. apply (f_equal hcount) in Heq. vm_compute in Heq. discriminate Heq.
Qed.

(** C3, amended. [observe] accepts a negative value: on a histogram
    whose bounds are not negative, the value is added to the running
    sum, the lowest bucket and the count grow by one and the bounds stay;
    [record_http_request] and [record_db_query] hand the duration they
    are given to [observe] of the labelled child as it is. *)
Theorem negative_observation_is_accepted :
  forall (h : histogram) (v : Q),
    (v < 0)%Q ->
    Forall (Qle 0) (upper_bounds h) ->
    buckets h <> [] ->
    (upper_bounds (observe h v) = upper_bounds h
     /\ hsum (observe h v) = (hsum h + v)%Q
     /\ buckets (observe h v) = alter S 0%nat (buckets h)
     /\ hcount (observe h v) = S (hcount h))
    /\ (forall (self : MetricsCollector) (method endpoint : string) (status_code : Z),
          http_request_duration (record_http_request self method endpoint status_code v)
            !! (method, endpoint)
          = Some (observe (labels_histogram http_request_duration_buckets
                             (http_request_duration self) (method, endpoint)) v))
    /\ (forall (self : MetricsCollector) (table operation : string),
          db_query_duration (record_db_query self table operation v)
            !! (table, operation)
          = Some (observe (labels_histogram db_query_duration_buckets
                             (db_query_duration self) (table, operation)) v)).
Proof.
  intros h v Hv Hbounds Hne.
  split; [|split; intros; simpl; apply lookup_insert_eq].
  unfold observe, hcount. cbn [upper_bounds hsum buckets].
  rewrite (bucket_index_negative _ _ Hv Hbounds).
  repeat split.
  destruct (buckets h) as [|b rest]; [contradiction|]. simpl. reflexivity.
Qed.

Lemma negative_observation_witness :
  let h0 := new_histogram http_request_duration_buckets in
  (-1 < 0)%Q
  /\ hsum (observe h0 (-1)) = (hsum h0 + -1)%Q
  /\ hcount (observe h0 (-1)) = S (hcount h0).
Proof.
  cbv zeta. split; [reflexivity|].
  pose proof (negative_observation_is_accepted
                (new_histogram http_request_duration_buckets) (-1)
                ltac:(reflexivity)
                ltac:(repeat constructor; discriminate)
                ltac:(discriminate)) as [[_ [Hsum [_ Hcount]]] _].
  split; [exact Hsum | exact Hcount].
Defined.

(** ** Hour buckets *)

#[local] Instance key_le_transitive {V : Type} : Transitive (@key_le V).
Proof. intros x y z. unfold key_le. lia. Qed.

#[local] Instance key_le_total {V : Type} : Total (@key_le V).
Proof. intros x y. unfold key_le. lia. Qed.

Lemma sorted_items_perm {V : Type} (m : gmap datetime V) :
  sorted_items m ≡ₚ map_to_list m.
Proof. apply merge_sort_Permutation. Qed.

Lemma elem_of_sorted_items {V : Type} (m : gmap datetime V) (k : datetime) (v : V) :
  (k, v) ∈ sorted_items m <-> m !! k = Some v.
Proof. rewrite sorted_items_perm. apply elem_of_map_to_list. Qed.

Lemma NoDup_sorted_items_keys {V : Type} (m : gmap datetime V) :
  NoDup (sorted_items m).*1.
Proof. rewrite sorted_items_perm. apply NoDup_fst_map_to_list. Qed.

Lemma strictly_sorted_keys {V : Type} (l : list (datetime * V)) :
  StronglySorted key_le l -> NoDup l.*1 -> StronglySorted Z.lt l.*1.
Proof.
  induction 1 as [|x l Hsorted IH Hall]; intros Hnd; simpl; [constructor|].
  apply NoDup_cons in Hnd as [Hnotin Hnd].
  constructor; [apply IH; exact Hnd|].
  apply Forall_fmap, Forall_forall. intros y Hy. simpl.
  rewrite Forall_forall in Hall. specialize (Hall y Hy). unfold key_le in Hall.
  assert (x.1 <> y.1).
  { intros Heq. apply Hnotin. rewrite Heq. apply list_elem_of_fmap. eauto. }
  lia.
Qed.

Lemma sorted_items_keys_ascending {V : Type} (m : gmap datetime V) :
  StronglySorted Z.lt (sorted_items m).*1.
Proof.
  apply strictly_sorted_keys; [|apply NoDup_sorted_items_keys].
  apply StronglySorted_merge_sort; apply _.
Qed.



Lemma in_hour_cases (hour : datetime) (req : log_entry) :
  in_hour hour req
  = match parsed_timestamp req with
    | Some ts => bool_decide (replace_to_hour ts = hour)
    | None => false
    end.
Proof.
  unfold in_hour, hour_of. destruct (parsed_timestamp req) as [ts|]; simpl.
  - apply bool_decide_ext. split; [intros [= ->]; reflexivity | intros ->; reflexivity].
  - reflexivity.
Qed.

(** The state of [hourly_data] at key [k] after the loop has run over
    [reqs] from the state [m]. *)
Lemma requests_loop_lookup (reqs : list log_entry) :
  forall (m : gmap datetime hour_data) (k : datetime),
    foldl (fun hourly_data req =>
             match parsed_timestamp req with
             | Some timestamp =>
                 let hour_key := replace_to_hour timestamp in
                 let data := default (mk_hour_data 0 0) (hourly_data !! hour_key) in
                 <[hour_key := mk_hour_data (count data + 1)
                                 (total_duration data + get_duration_ms req)]>
                   hourly_data
             | None => hourly_data
             end) m reqs !! k
    = match bucket_of k reqs with
      | [] => m !! k
      | bucket =>
          let data := default (mk_hour_data 0 0) (m !! k) in
          Some (mk_hour_data (count data + length bucket)
                  (foldl Qplus (total_duration data) (map get_duration_ms bucket)))
      end.
Proof.
  induction reqs as [|req rest IH]; intros m k; [reflexivity|].
  cbn [foldl]. rewrite IH. unfold bucket_of. cbn [List.filter].
  rewrite in_hour_cases.
  destruct (parsed_timestamp req) as [ts|]; [|reflexivity].
  cbv zeta. destruct (decide (replace_to_hour ts = k)) as [->|Hne].
  - rewrite bool_decide_eq_true_2 by reflexivity.
    rewrite lookup_insert_eq. cbn [default count total_duration].
    destruct (List.filter (in_hour k) rest) as [|r b].
    + cbn. reflexivity.
    + unfold id. cbn [length map foldl count total_duration]. f_equal. f_equal. lia.
  - rewrite bool_decide_eq_false_2 by exact Hne.
    rewrite lookup_insert_ne by exact Hne. reflexivity.
Qed.

Lemma requests_hourly_data_lookup (reqs : list log_entry) (k : datetime) :
  requests_hourly_data reqs !! k
  = match bucket_of k reqs with
    | [] => None
    | bucket => Some (mk_hour_data (length bucket)
                        (Qsum (map get_duration_ms bucket)))
    end.
Proof.
  unfold requests_hourly_data. rewrite requests_loop_lookup.
  rewrite lookup_empty. destruct (bucket_of k reqs); reflexivity.
Qed.

Lemma bucket_of_nonempty (reqs : list log_entry) (hour : datetime) :
  bucket_of hour reqs <> [] <-> exists req, In req reqs /\ hour_of req = Some hour.
Proof.
  unfold bucket_of. split.
  - intros Hne. destruct (List.filter (in_hour hour) reqs) as [|req b] eqn:E;
      [contradiction|].
    assert (Hin : In req (List.filter (in_hour hour) reqs)) by (rewrite E; left; reflexivity).
    apply filter_In in Hin as [Hin Hhour]. exists req. split; [exact Hin|].
    unfold in_hour in Hhour. apply bool_decide_eq_true_1 in Hhour. exact Hhour.
  - intros (req & Hin & Hhour) Hnil.
    assert (Hf : In req (List.filter (in_hour hour) reqs)).
    { apply filter_In. split; [exact Hin|]. unfold in_hour.
      apply bool_decide_eq_true_2. exact Hhour. }
    rewrite Hnil in Hf. destruct Hf.
Qed.





(** ** [int(n * c)] in binary64 *)

(** The embedding of [int(n * c)] computes what the kernel's binary64
    multiplication computes: on every length up to 1000, and on 500
    lengths each spread up to [2^34], [2^45] and [2^62]. *)
Example int_mul_agrees_with_hardware :
  Float64.agree_from 1001 0 1 = true
  /\ Float64.agree_from 500 1 34359737 = true
  /\ Float64.agree_from 500 7 70368744177 = true
  /\ Float64.agree_from 500 13 9223372036854775 = true.
Proof.
  split; [vm_compute; reflexivity|].
  split; [vm_compute; reflexivity|].
  split; vm_compute; reflexivity.
Qed.

Lemma round_half_even_bounds (a s : Z) :
  a / 2 ^ s <= Float64.round_half_even a s <= a / 2 ^ s + 1.
Proof.
  unfold Float64.round_half_even. cbv zeta.
  destruct (a mod 2 ^ s <? 2 ^ (s - 1)); [lia|].
  destruct (2 ^ (s - 1) <? a mod 2 ^ s); [lia|].
  destruct (Z.even (a / 2 ^ s)); lia.
Qed.

Lemma round_half_even_up (a s : Z) :
  2 ^ (s - 1) < a mod 2 ^ s -> Float64.round_half_even a s = a / 2 ^ s + 1.
Proof.
  intros Hr. unfold Float64.round_half_even. cbv zeta.
  destruct (Z.ltb_spec (a mod 2 ^ s) (2 ^ (s - 1))); [lia|].
  destruct (Z.ltb_spec (2 ^ (s - 1)) (a mod 2 ^ s)); [reflexivity|lia].
Qed.

Lemma of_int_exact (n : Z) :
  0 <= n < 2 ^ 45 -> Float64.of_int n = Float64.mk n 0.
Proof.
  intros Hn. unfold Float64.of_int, Float64.rne, Float64.prec. cbv zeta.
  assert (Hlog : Z.log2 n < 45).
  { destruct (Z.eq_dec n 0) as [->|Hnz]; [reflexivity|].
    apply Z.log2_lt_pow2; lia. }
  rewrite (proj2 (Z.leb_le _ _)) by lia. reflexivity.
Qed.

Lemma int_mul_half (n : Z) :
  0 <= n < 2 ^ 45 -> Float64.int_mul n Float64.lit_0_5 = 50 * n / 100.
Proof.
  intros Hn. unfold Float64.int_mul. rewrite of_int_exact by exact Hn.
  unfold Float64.mul, Float64.lit_0_5, Float64.rne, Float64.prec.
  cbn [Float64.mant Float64.expo]. cbv zeta.
  assert (Hlog : Z.log2 (n * 1) < 45).
  { rewrite Z.mul_1_r. destruct (Z.eq_dec n 0) as [->|Hnz]; [reflexivity|].
    apply Z.log2_lt_pow2; lia. }
  rewrite (proj2 (Z.leb_le _ _)) by lia.
  unfold Float64.to_int. cbn [Float64.mant Float64.expo].
  change (0 <=? 0 + -1) with false. cbv iota.
  change (2 ^ (- (0 + -1))) with 2. Z.div_mod_to_equations. lia.
Qed.

Section PercentLiteral.

(** A literal [M * 2^-53] that is the double just below [P / 100]. *)
Variables M P c : Z.
Hypothesis literal_value : 100 * M = P * 2 ^ 53 - c.
Hypothesis mantissa_range : 2 ^ 52 <= M < 2 ^ 53.
Hypothesis percent_range : 0 < P < 100.
Hypothesis error_range : 0 <= c < 2 ^ 7 /\ 2 * c < P.

Lemma int_mul_percent (n : Z) :
  0 <= n < 2 ^ 45 -> Float64.int_mul n (Float64.mk M (-53)) = P * n / 100.
Proof.
  intros Hn. unfold Float64.int_mul. rewrite of_int_exact by exact Hn.
  unfold Float64.mul, Float64.rne, Float64.prec.
  cbn [Float64.mant Float64.expo]. cbv zeta.
  set (a := n * M).
  pose proof (Z.div_mod (P * n) 100 ltac:(lia)) as Hk.
  pose proof (Z.mod_pos_bound (P * n) 100 ltac:(lia)) as Ht.
  set (k := P * n / 100) in *. set (t := (P * n) mod 100) in *.
  assert (Ha : 100 * a = (100 * k + t) * 2 ^ 53 - c * n) by (subst a; nia).
  destruct (Z.eq_dec n 0) as [->|Hnz].
  { subst a. change (Z.log2 (0 * M) + 1 - 53 <=? 0) with true. cbv iota.
    unfold Float64.to_int. cbn [Float64.mant Float64.expo].
    change (0 <=? 0 + -53) with false. cbv iota. rewrite Z.mul_0_l, Z.div_0_l by lia.
    lia. }
  assert (Hapos : 2 ^ 52 <= a) by (subst a; nia).
  pose proof (Z.log2_spec a ltac:(lia)) as Hlog.
  assert (Hlo : 52 <= Z.log2 a) by (apply Z.log2_le_pow2; lia).
  assert (Hhi : Z.log2 a < 98).
  { apply Z.log2_lt_pow2; [lia|]. subst a.
    change (2 ^ 98) with (2 ^ 45 * 2 ^ 53). nia. }
  set (s := Z.log2 a + 1 - 53) in *.
  destruct (Z.leb_spec s 0) as [Hs|Hs].
  - (* n = 1: the product is exact and below one *)
    assert (Hs0 : Z.log2 a = 52) by lia. rewrite Hs0 in Hlog.
    change (2 ^ Z.succ 52) with (2 ^ 53) in Hlog.
    unfold Float64.to_int. cbn [Float64.mant Float64.expo].
    change (0 <=? 0 + -53) with false. cbv iota. change (- (0 + -53)) with 53.
    rewrite Z.div_small by lia.
    assert (n = 1) by (subst a; nia). lia.
  - unfold Float64.to_int. cbn [Float64.mant Float64.expo].
    rewrite (proj2 (Z.leb_gt _ _)) by lia.
    replace (- (0 + -53 + s)) with (53 - s) by lia.
    set (T := 2 ^ s). set (U := 2 ^ (53 - s)).
    assert (HT : 0 < T) by (apply Z.pow_pos_nonneg; lia).
    assert (HU : 0 < U) by (apply Z.pow_pos_nonneg; lia).
    assert (HTU : T * U = 2 ^ 53).
    { subst T U. rewrite <- Z.pow_add_r by lia. f_equal. lia. }
    assert (HT45 : T <= 2 ^ 45) by (subst T; apply Z.pow_le_mono_r; lia).
    assert (Hh : 2 * 2 ^ (s - 1) = T).
    { subst T. rewrite <- Z.pow_succ_r by lia. f_equal. lia. }
    assert (HaT : 2 ^ 52 * T <= a < 2 ^ 53 * T).
    { replace (Z.log2 a) with (52 + s) in Hlog by lia.
      replace (Z.succ (52 + s)) with (53 + s) in Hlog by lia.
      rewrite !Z.pow_add_r in Hlog by lia. exact Hlog. }
    pose proof (round_half_even_bounds a s) as Hr. fold T in Hr.
    pose proof (Z.div_mod a T ltac:(lia)) as Hq.
    pose proof (Z.mod_pos_bound a T HT) as Hrm.
    symmetry. apply (Z.div_unique_pos _ _ _ (Float64.round_half_even a s - U * k)).
    2: lia.
    split.
    + (* the rounded mantissa is not below [k * U] *)
      destruct (Z_lt_le_dec a (k * 2 ^ 53)) as [Hbelow|Habove].
      * (* [P * n] is a multiple of 100 and the product falls just below
           [k]: rounding brings it back *)
        assert (Ht0 : t = 0) by nia.
        assert (Hd : 100 * (k * 2 ^ 53 - a) = c * n) by lia.
        assert (HPn : P * n <= 100 * T) by nia.
        assert (Hq1 : a / T = k * U - 1).
        { symmetry. apply Z.div_unique_pos with (r := a - T * (k * U - 1)); nia. }
        assert (Hup : 2 ^ (s - 1) < a mod T) by nia.
        rewrite (round_half_even_up a s Hup). fold T. lia.
      * assert (k * U <= a / T).
        { apply Z.div_le_lower_bound; [lia|]. nia. }
        lia.
    + (* nor does it reach [(k + 1) * U] *)
      assert (Hub : a + 2 * T <= (k + 1) * 2 ^ 53) by lia.
      assert (a / T + 2 <= (k + 1) * U).
      { apply (Z.mul_le_mono_pos_r _ _ T HT). nia. }
      lia.
Qed.

End PercentLiteral.

Lemma int_mul_0_95 (n : Z) :
  0 <= n < 2 ^ 45 -> Float64.int_mul n Float64.lit_0_95 = 95 * n / 100.
Proof.
  apply (int_mul_percent 0x1e666666666666 95 40); try reflexivity; lia.
Qed.

Lemma int_mul_0_99 (n : Z) :
  0 <= n < 2 ^ 45 -> Float64.int_mul n Float64.lit_0_99 = 99 * n / 100.
Proof.
  apply (int_mul_percent 0x1fae147ae147ae 99 8); try reflexivity; lia.
Qed.

(** ** Percentiles *)

#[local] Instance Qle_total : Total Qle.
Proof.
  intros x y. destruct (Qlt_le_dec x y) as [H|H]; [left; apply Qlt_le_weak|right]; exact H.
Qed.

#[local] Instance Qle_transitive : Transitive Qle.
Proof. intros x y z. apply Qle_trans. Qed.

Lemma durations_loop_lookup (reqs : list log_entry) :
  forall (m : gmap datetime (list Q)) (k : datetime),
    foldl (fun hourly_data req =>
             match parsed_timestamp req with
             | Some timestamp =>
                 let hour_key := replace_to_hour timestamp in
                 <[hour_key := default [] (hourly_data !! hour_key)
                                 ++ [get_duration_ms req]]> hourly_data
             | None => hourly_data
             end) m reqs !! k
    = match bucket_of k reqs with
      | [] => m !! k
      | bucket => Some (default [] (m !! k) ++ map get_duration_ms bucket)
      end.
Proof.
  induction reqs as [|req rest IH]; intros m k; [reflexivity|].
  cbn [foldl]. rewrite IH. unfold bucket_of. cbn [List.filter].
  rewrite in_hour_cases.
  destruct (parsed_timestamp req) as [ts|]; [|reflexivity].
  cbv zeta. destruct (decide (replace_to_hour ts = k)) as [->|Hne].
  - rewrite bool_decide_eq_true_2 by reflexivity.
    rewrite lookup_insert_eq. cbn [default]. unfold id.
    destruct (List.filter (in_hour k) rest) as [|r b]; [reflexivity|].
    rewrite <- app_assoc. reflexivity.
  - rewrite bool_decide_eq_false_2 by exact Hne.
    rewrite lookup_insert_ne by exact Hne. reflexivity.
Qed.

Lemma durations_hourly_data_lookup (reqs : list log_entry) (k : datetime) :
  durations_hourly_data reqs !! k
  = match bucket_of k reqs with
    | [] => None
    | bucket => Some (map get_duration_ms bucket)
    end.
Proof.
  unfold durations_hourly_data. rewrite durations_loop_lookup.
  rewrite lookup_empty. destruct (bucket_of k reqs); reflexivity.
Qed.

Lemma item_or_zero_past_end (durations : list Q) (idx : Z) :
  Z.of_nat (length durations) <= idx -> item_or_zero durations idx = 0%Q.
Proof.
  intros Hidx. unfold item_or_zero.
  rewrite (proj2 (Z.ltb_ge _ _)) by exact Hidx. reflexivity.
Qed.

Lemma item_or_zero_rank (durations : list Q) (P : nat) :
  item_or_zero durations (Z.of_nat P * Z.of_nat (length durations) / 100)
  = nth (P * length durations / 100)%nat durations 0%Q.
Proof.
  unfold item_or_zero.
  assert (Hidx : Z.to_nat (Z.of_nat P * Z.of_nat (length durations) / 100)
                 = (P * length durations / 100)%nat).
  { rewrite <- Nat2Z.inj_mul. change 100 with (Z.of_nat 100).
    rewrite <- Nat2Z.inj_div. apply Nat2Z.id. }
  rewrite Hidx, nth_lookup.
  destruct (Z.ltb_spec (Z.of_nat P * Z.of_nat (length durations) / 100)
              (Z.of_nat (length durations))) as [Hlt|Hge]; [reflexivity|].
  rewrite lookup_ge_None_2; [reflexivity|].
  rewrite <- Hidx. lia.
Qed.

Lemma length_read_structured_logs (fromtimestamp : Q -> option datetime)
    (lines : list log_line) (since : option datetime) :
  (length (_read_structured_logs fromtimestamp lines since) <= length lines)%nat.
Proof.
  induction lines as [|line rest IH]; simpl; [lia|].
  destruct line as [| | |raw]; simpl; try lia.
  destruct (time_timestamp raw) as [t|]; [|lia].
  destruct (Qeq_bool t 0); [lia|].
  destruct (fromtimestamp t) as [ts|]; [|simpl; lia].
  destruct since as [s|]; [destruct (ts <? s)|]; simpl; lia.
Qed.

Lemma length_filter_le {A : Type} (p : A -> bool) (l : list A) :
  (length (List.filter p l) <= length l)%nat.
Proof. rewrite length_filter_count. apply count_where_le. Qed.

Lemma response_times_point_of_item (reqs : list log_entry) (hour : datetime)
    (durations : list Q) :
  Z.of_nat (length reqs) < 2 ^ 45 ->
  durations_hourly_data reqs !! hour = Some durations ->
  bucket_of hour reqs <> []
  /\ response_times_point_of (hour, durations) = [percentile_point_spec reqs hour].
Proof.
  intros Hlen. rewrite durations_hourly_data_lookup.
  destruct (bucket_of hour reqs) as [|req b] eqn:E; [discriminate|].
  intros [= <-]. split; [discriminate|].
  unfold response_times_point_of, percentile_point_spec, sorted_durations.
  rewrite E. cbn [map]. cbv zeta.
  set (durations := merge_sort Qle (get_duration_ms req :: map get_duration_ms b)).
  assert (Hn : Z.of_nat (length durations) < 2 ^ 45).
  { subst durations. rewrite merge_sort_Permutation. cbn [length].
    rewrite length_map. change (S (length b)) with (length (req :: b)).
    rewrite <- E. pose proof (length_filter_le (in_hour hour) reqs).
    unfold bucket_of. lia. }
  rewrite int_mul_half, int_mul_0_95, int_mul_0_99 by lia.
  change 50 with (Z.of_nat 50). change 95 with (Z.of_nat 95).
  change 99 with (Z.of_nat 99).
  rewrite !item_or_zero_rank. reflexivity.
Qed.

Lemma flat_map_over_keys {K V B : Type} (g : K * V -> list B) (f : K -> B)
    (l : list (K * V)) :
  (forall item, In item l -> g item = [f item.1]) -> flat_map g l = map f l.*1.
Proof.
  induction l as [|item l IH]; intros Hall; [reflexivity|].
  cbn. rewrite (Hall item) by (left; reflexivity).
  cbn. f_equal. apply IH. intros item' Hin. apply Hall. right. exact Hin.
Qed.

(** C2. For a log of fewer than [2^45] lines, the latency timeline of
    [export_historical_data] has one point per hour in which an
    [http_request] record of the window falls, hours ascending; with
    the [n] durations of the hour sorted ascending, the point reports as
    p50, p95 and p99 the durations of rank [50 n / 100], [95 n / 100]
    and [99 n / 100], without interpolation. The binary64 products
    [n * 0.5], [n * 0.95] and [n * 0.99] truncate to exactly these
    ranks; a rank past the last duration yields 0, which no rank
    computed for a bucket is. Durations 10, 20, 30, 40, 50 give p50 = 30
    and p95 = 50. *)
Theorem response_times_are_nearest_rank_percentiles :
  forall (fromtimestamp : Q -> option datetime) (lines : list log_line)
         (utcnow : datetime) (hours : Z),
    Z.of_nat (length lines) < 2 ^ 45 ->
    let reqs := historical_http_requests fromtimestamp lines utcnow hours in
    (exists hour_list : list datetime,
       response_times_timeline
         (export_historical_data fromtimestamp lines utcnow hours)
       = map (percentile_point_spec reqs) hour_list
       /\ (forall hour : datetime,
             In hour hour_list <->
             exists req, In req reqs /\ hour_of req = Some hour)
       /\ StronglySorted Z.lt hour_list)
    /\ (forall hour : datetime,
          Sorted Qle (sorted_durations reqs hour)
          /\ sorted_durations reqs hour ≡ₚ map get_duration_ms (bucket_of hour reqs))
    /\ (forall n : Z,
          0 <= n < 2 ^ 45 ->
          Float64.int_mul n Float64.lit_0_5 = 50 * n / 100
          /\ Float64.int_mul n Float64.lit_0_95 = 95 * n / 100
          /\ Float64.int_mul n Float64.lit_0_99 = 99 * n / 100
          /\ (1 <= n -> 99 * n / 100 <= n - 1))
    /\ (forall (durations : list Q) (idx : Z),
          (0 <= idx < Z.of_nat (length durations) ->
           durations !! Z.to_nat idx = Some (item_or_zero durations idx))
          /\ (Z.of_nat (length durations) <= idx ->
              item_or_zero durations idx = 0%Q))
    /\ (forall hour : datetime,
          response_times_point_of (hour, [10; 20; 30; 40; 50]%Q)
          = [ {| rt_timestamp := Isoformat hour;
                 p50 := 30%Q; p95 := 50%Q; p99 := 50%Q |} ]).
Proof.
  intros fromtimestamp lines utcnow hours Hlines reqs.
  assert (Hreqs : Z.of_nat (length reqs) < 2 ^ 45).
  { subst reqs. unfold historical_http_requests.
    pose proof (length_filter_le (has_event_type "http_request")
                  (_read_structured_logs fromtimestamp lines
                     (Some (utcnow - timedelta_hours hours)))).
    pose proof (length_read_structured_logs fromtimestamp lines
                  (Some (utcnow - timedelta_hours hours))).
    lia. }
  split; [|split; [|split; [|split]]].
  - set (items := sorted_items (durations_hourly_data reqs)).
    exists (items.*1). split; [|split].
    + change (flat_map response_times_point_of items
              = map (percentile_point_spec reqs) items.*1).
      apply flat_map_over_keys.
      intros [k v] Hin. apply list_elem_of_In, elem_of_sorted_items in Hin.
      apply (response_times_point_of_item reqs k v Hreqs) in Hin as [_ Hpoint].
      exact Hpoint.
    + intros hour.
      rewrite <- bucket_of_nonempty, <- list_elem_of_In, list_elem_of_fmap.
      split.
      * intros ([k v] & -> & Hkv). simpl.
        apply elem_of_sorted_items in Hkv.
        apply (response_times_point_of_item reqs k v Hreqs) in Hkv. tauto.
      * intros Hne. pose proof (durations_hourly_data_lookup reqs hour) as Hl.
        destruct (bucket_of hour reqs) as [|req b] eqn:E; [contradiction|].
        eexists (hour, _). split; [reflexivity|].
        apply elem_of_sorted_items. exact Hl.
    + apply sorted_items_keys_ascending.
  - intros hour. unfold sorted_durations. split.
    + apply Sorted_merge_sort. apply _.
    + apply merge_sort_Permutation.
  - intros n Hn. split; [apply int_mul_half; exact Hn|].
    split; [apply int_mul_0_95; exact Hn|].
    split; [apply int_mul_0_99; exact Hn|].
    intros Hpos. Z.div_mod_to_equations. lia.
  - intros durations idx. split.
    + intros Hidx. unfold item_or_zero.
      rewrite (proj2 (Z.ltb_lt _ _)) by lia.
      destruct (lookup_lt_is_Some_2 durations (Z.to_nat idx) ltac:(lia)) as [d Hd].
      rewrite Hd. reflexivity.
    + apply item_or_zero_past_end.
  - intros hour. vm_compute. reflexivity.
Qed.

Lemma response_times_witness :
  Z.of_nat (length five_requests) < 2 ^ 45
  /\ exists hour_list : list datetime,
       response_times_timeline
         (export_historical_data utc_clock five_requests sample_now 24)
       = map (percentile_point_spec
                (historical_http_requests utc_clock five_requests sample_now 24))
           hour_list
       /\ StronglySorted Z.lt hour_list.
Proof.
  split; [reflexivity|].
  destruct (response_times_are_nearest_rank_percentiles utc_clock five_requests
              sample_now 24 ltac:(reflexivity)) as [(hour_list & Hmap & _ & Hsorted) _].
  exists hour_list. split; [exact Hmap | exact Hsorted].
Defined.

(** The five sample requests, logged out of order within one hour. *)
Example five_requests_percentiles :
  exists point : response_times_point,
    response_times_timeline
      (export_historical_data utc_clock five_requests sample_now 24)
    = [point]
    /\ rt_timestamp point = Isoformat (replace_to_hour (utc_time 1700000000))
    /\ (p50 point == 30)%Q /\ (p95 point == 50)%Q /\ (p99 point == 50)%Q.
Proof.
  eexists. split; [vm_compute; reflexivity|]. repeat split.
Qed.

(** ** Exposition by category *)

Lemma lines_of_section_cons (section line : string)
    (tagged : list (string * string)) (s : string) :
  lines_of_section ((section, line) :: tagged) s
  = if bool_decide (section = s) then line :: lines_of_section tagged s
    else lines_of_section tagged s.
Proof.
  unfold lines_of_section. cbn [List.filter fst].
  destruct (bool_decide (section = s)); reflexivity.
Qed.

(** The dict [categorized_metrics] after the loop has run over [lines]
    from the state [(current_section, m)]. *)
Lemma categorize_lookup (lines : list string) :
  forall (current_section : string) (m : gmap string (list string)),
    Forall help_names_metric lines ->
    exists m' : gmap string (list string),
      categorize lines current_section m = Some m'
      /\ forall s : string,
           m' !! s
           = match lines_of_section (tag_lines lines current_section) s with
             | [] => m !! s
             | new => Some (default [] (m !! s) ++ new)
             end.
Proof.
  induction lines as [|line rest IH]; intros current_section m Hwf.
  { exists m. split; [reflexivity|]. intros s. reflexivity. }
  apply Forall_cons in Hwf as [Hline Hrest].
  cbn [categorize tag_lines].
  destruct (bool_decide (strip line = EmptyString)); [apply IH; exact Hrest|].
  cbv zeta.
  set (section := if startswith line "# HELP"
                  then section_of_metric (default EmptyString (split line !! 2%nat))
                  else current_section).
  assert (Hsec : (if startswith line "# HELP"
                  then section_of_metric <$> split line !! 2%nat
                  else Some current_section) = Some section).
  { subst section. unfold help_names_metric in Hline.
    destruct (startswith line "# HELP"); [|reflexivity].
    destruct (Hline eq_refl) as [name ->]. reflexivity. }
  rewrite Hsec. cbn [mbind option_bind].
  destruct (IH section
              (<[section := default [] (m !! section) ++ [line]]> m) Hrest)
    as (m' & Hrun & Hlookup).
  exists m'. split; [exact Hrun|].
  intros s. rewrite Hlookup, lines_of_section_cons.
  destruct (decide (section = s)) as [->|Hne].
  - rewrite bool_decide_eq_true_2 by reflexivity.
    rewrite lookup_insert_eq. cbn [default]. unfold id.
    destruct (lines_of_section (tag_lines rest s) s) as [|l ls]; [reflexivity|].
    rewrite <- app_assoc. reflexivity.
  - rewrite bool_decide_eq_false_2 by exact Hne.
    rewrite lookup_insert_ne by exact Hne. reflexivity.
Qed.

Lemma section_block_layout (m : gmap string (list string))
    (tagged : list (string * string)) :
  (forall s : string,
     m !! s = match lines_of_section tagged s with
              | [] => None
              | new => Some new
              end) ->
  flat_map (section_block m) section_order
  = category_block "HTTP METRICS" (lines_of_section tagged "http_")
    ++ category_block "SYSTEM METRICS" (lines_of_section tagged "system_")
    ++ category_block "DATABASE METRICS" (lines_of_section tagged "db_")
    ++ category_block "BUSINESS METRICS (Books)" (lines_of_section tagged "books_")
    ++ category_block "MACHINE LEARNING METRICS" (lines_of_section tagged "ml_")
    ++ category_block "USER METRICS" (lines_of_section tagged "user_")
    ++ category_block "OTHER METRICS" (lines_of_section tagged "other").
Proof.
  intros Hlookup. unfold section_order. cbn [flat_map]. rewrite app_nil_r.
  unfold section_block. rewrite !Hlookup.
  repeat (f_equal; [destruct (lines_of_section tagged _); reflexivity|]).
  destruct (lines_of_section tagged _); reflexivity.
Qed.

Lemma section_of_declared_prefix (metric_name prefix title : string) :
  In (prefix, title) categories ->
  startswith metric_name prefix = true ->
  section_of_metric metric_name = prefix.
Proof.
  intros Hin Hstart. unfold section_of_metric, startswith in *.
  destruct metric_name as [|c rest].
  { cbn in Hin. intuition (simplify_eq; discriminate). }
  cbn in Hin.
  repeat (destruct Hin as [Hin|Hin];
          [ injection Hin as <- <-;
            cbn [String.prefix] in Hstart;
            match type of Hstart with
            | (if ascii_dec ?a c then _ else _) = true =>
                destruct (ascii_dec a c) as [<-|]; [|discriminate]
            end;
            cbn; cbn in Hstart; rewrite Hstart; reflexivity
          | ]).
  destruct Hin.
Qed.

Lemma lines_of_section_sublist (lines : list string) :
  forall current_section s : string,
    sublist (lines_of_section (tag_lines lines current_section) s) lines.
Proof.
  induction lines as [|line rest IH]; intros current_section s.
  { constructor. }
  cbn [tag_lines].
  destruct (bool_decide (strip line = EmptyString)).
  { apply sublist_cons, IH. }
  cbv zeta. rewrite lines_of_section_cons.
  destruct (bool_decide (_ = s)); [apply sublist_skip | apply sublist_cons]; apply IH.
Qed.

Lemma help_line_tagged (lines : list string) :
  forall (current_section line name : string),
    In line lines ->
    strip line <> EmptyString ->
    startswith line "# HELP" = true ->
    split line !! 2%nat = Some name ->
    In (section_of_metric name, line) (tag_lines lines current_section).
Proof.
  induction lines as [|l rest IH]; intros current_section line name Hin Hnb Hhelp Hname.
  { destruct Hin. }
  cbn [tag_lines]. destruct Hin as [->|Hin].
  - rewrite bool_decide_eq_false_2 by exact Hnb.
    cbv zeta. rewrite Hhelp, Hname. left. reflexivity.
  - destruct (bool_decide (strip l = EmptyString)); [|right]; eapply IH; eassumption.
Qed.

Lemma help_line_has_no_declared_prefix (line prefix title : string) :
  startswith line "# HELP" = true ->
  In (prefix, title) categories ->
  startswith line prefix = false.
Proof.
  intros Hhelp Hin. unfold startswith in *.
  destruct line as [|c rest]; [discriminate|].
  cbn [String.prefix] in Hhelp.
  destruct (ascii_dec "#" c) as [<-|]; [|discriminate].
  cbn in Hin.
  repeat (destruct Hin as [Hin|Hin]; [injection Hin as <- <-; reflexivity|]).
  destruct Hin.
Qed.

Lemma series_tagged (lines : list string) :
  forall (current_section : string) (family : option string)
         (line prefix title : string),
    (forall name : string,
        family = Some name -> current_section = section_of_metric name) ->
    series_follow_help family lines = true ->
    In line lines ->
    strip line <> EmptyString ->
    In (prefix, title) categories ->
    startswith line prefix = true ->
    In (prefix, line) (tag_lines lines current_section).
Proof.
  induction lines as [|l rest IH];
    intros current_section family line prefix title Hinv Hwf Hin Hnb Hcat Hstart.
  { destruct Hin. }
  cbn [tag_lines series_follow_help] in *.
  destruct (bool_decide (strip l = EmptyString)) eqn:Hblank.
  { destruct Hin as [->|Hin].
    - apply bool_decide_eq_true_1 in Hblank. contradiction.
    - eapply IH; eassumption. }
  cbv zeta.
  destruct (startswith l "# HELP") eqn:Hhelp.
  - destruct Hin as [->|Hin].
    + rewrite (help_line_has_no_declared_prefix line prefix title Hhelp Hcat) in Hstart.
      discriminate.
    + right. eapply (IH _ (split l !! 2%nat)); try eassumption.
      intros name Hname. rewrite Hname. reflexivity.
  - apply andb_true_iff in Hwf as [Hhere Hrest].
    destruct Hin as [->|Hin].
    + left. f_equal.
      rewrite forallb_forall in Hhere. specialize (Hhere (prefix, title) Hcat).
      cbn [fst] in Hhere. rewrite Hstart in Hhere. cbn [implb] in Hhere.
      destruct family as [name|]; cbn [from_option] in Hhere; [|discriminate].
      rewrite (Hinv name eq_refl).
      apply (section_of_declared_prefix name prefix title Hcat Hhere).
    + right. eapply IH; eassumption.
Qed.

(** C6. On an exposition as [generate_latest] writes it (every HELP
    line names its metric, and every series follows the HELP line of a
    metric with the same declared prefix),
    [_format_metrics_by_category] returns the header followed by the
    blocks of the categories in the order http, system, db, books, ml,
    user, other, whatever the order of the series in the input; the
    block of a category is its banner and the lines filed under it, in
    the order in which they were read, and is absent when there is none.
    Every HELP line whose metric starts with a declared prefix and every
    series that starts with a declared prefix are in the block of that
    prefix. *)
Theorem exposition_is_grouped_by_category :
  forall raw_metrics : string,
    let lines := split_newline (strip raw_metrics) in
    let tagged := tag_lines lines "other" in
    Forall help_names_metric lines ->
    series_follow_help None lines = true ->
    _format_metrics_by_category raw_metrics
    = Some (join_newline
              (exposition_header
               ++ category_block "HTTP METRICS" (lines_of_section tagged "http_")
               ++ category_block "SYSTEM METRICS" (lines_of_section tagged "system_")
               ++ category_block "DATABASE METRICS" (lines_of_section tagged "db_")
               ++ category_block "BUSINESS METRICS (Books)"
                    (lines_of_section tagged "books_")
               ++ category_block "MACHINE LEARNING METRICS"
                    (lines_of_section tagged "ml_")
               ++ category_block "USER METRICS" (lines_of_section tagged "user_")
               ++ category_block "OTHER METRICS" (lines_of_section tagged "other")))
    /\ (forall line name prefix title : string,
          In line lines ->
          strip line <> EmptyString ->
          startswith line "# HELP" = true ->
          split line !! 2%nat = Some name ->
          In (prefix, title) categories ->
          startswith name prefix = true ->
          In line (lines_of_section tagged prefix))
    /\ (forall line prefix title : string,
          In line lines ->
          strip line <> EmptyString ->
          In (prefix, title) categories ->
          startswith line prefix = true ->
          In line (lines_of_section tagged prefix))
    /\ (forall s : string, sublist (lines_of_section tagged s) lines).
Proof.
  intros raw_metrics lines tagged Hwf Hseries.
  split; [|split; [|split]].
  - unfold _format_metrics_by_category. fold lines.
    destruct (categorize_lookup lines "other" ∅ Hwf) as (m & Hrun & Hlookup).
    rewrite Hrun. cbn [mbind option_bind]. do 3 f_equal.
    apply section_block_layout. intros s. rewrite Hlookup, lookup_empty.
    fold tagged. destruct (lines_of_section tagged s); reflexivity.
  - intros line name prefix title Hin Hnb Hhelp Hname Hcat Hstart.
    pose proof (help_line_tagged lines "other" line name Hin Hnb Hhelp Hname) as Htag.
    rewrite (section_of_declared_prefix name prefix title Hcat Hstart) in Htag.
    fold tagged in Htag. unfold lines_of_section.
    apply (in_map snd) in Htag as Hsnd. cbn [snd] in Hsnd.
    apply in_map_iff. exists (prefix, line). split; [reflexivity|].
    apply filter_In. split; [exact Htag|].
    apply bool_decide_eq_true_2. reflexivity.
  - intros line prefix title Hin Hnb Hcat Hstart.
    assert (Htag : In (prefix, line) tagged).
    { apply (series_tagged lines "other" None line prefix title);
        try assumption. intros name Hname. discriminate. }
    unfold lines_of_section.
    apply in_map_iff. exists (prefix, line). split; [reflexivity|].
    apply filter_In. split; [exact Htag|].
    apply bool_decide_eq_true_2. reflexivity.
  - intros s. apply lines_of_section_sublist.
Qed.

Lemma exposition_witness :
  Forall help_names_metric (split_newline (strip sample_exposition))
  /\ series_follow_help None (split_newline (strip sample_exposition)) = true
  /\ In "http_requests_total{method=GET} 5.0"%string
       (lines_of_section
          (tag_lines (split_newline (strip sample_exposition)) "other") "http_")
  /\ In "db_queries_total{operation=select,table=books} 2.0"%string
       (lines_of_section
          (tag_lines (split_newline (strip sample_exposition)) "other") "db_").
Proof.
  assert (Hwf : Forall help_names_metric (split_newline (strip sample_exposition))).
  { set (lines := split_newline (strip sample_exposition)).
    vm_compute in lines. subst lines.
    repeat (apply List.Forall_cons;
            [ unfold help_names_metric; intros Hhelp;
              first [ vm_compute in Hhelp; discriminate Hhelp
                    | eexists; vm_compute; reflexivity ]
            | ]).
    apply List.Forall_nil. }
  assert (Hseries : series_follow_help None
                      (split_newline (strip sample_exposition)) = true)
    by (vm_compute; reflexivity).
  pose proof (proj1 (proj2 (proj2
                (exposition_is_grouped_by_category sample_exposition Hwf Hseries))))
    as Hfiled.
  split; [exact Hwf|]. split; [exact Hseries|]. split.
  - apply (Hfiled _ "http_"%string "HTTP METRICS"%string);
      [ vm_compute; tauto | vm_compute; discriminate
      | vm_compute; tauto | vm_compute; reflexivity ].
  - apply (Hfiled _ "db_"%string "DATABASE METRICS"%string);
      [ vm_compute; tauto | vm_compute; discriminate
      | vm_compute; tauto | vm_compute; reflexivity ].
Defined.

(** The filing is by position: a series that no HELP line precedes goes
    to the last block, whatever its name. *)
Example series_without_help_is_filed_by_position :
  _format_metrics_by_category "http_requests_total{method=GET} 5.0"
  = Some (join_newline
            (exposition_header
             ++ category_block "OTHER METRICS"
                  ["http_requests_total{method=GET} 5.0"%string]))
  /\ series_follow_help None
       (split_newline (strip "http_requests_total{method=GET} 5.0")) = false.
Proof. split; vm_compute; reflexivity. Qed.

(** The sample exposition lists the database family first; its block
    still comes after the HTTP one. *)
Example sample_exposition_layout :
  _format_metrics_by_category sample_exposition
  = Some (join_newline
            (exposition_header
             ++ [ dashes; "# HTTP METRICS"; dashes; "";
                  "# HELP http_requests_total Total HTTP requests";
                  "# TYPE http_requests_total counter";
                  "http_requests_total{method=GET} 5.0"; "" ]
             ++ [ dashes; "# DATABASE METRICS"; dashes; "";
                  "# HELP db_queries_total Total database queries";
                  "# TYPE db_queries_total counter";
                  "db_queries_total{operation=select,table=books} 2.0"; "" ]
             ++ [ dashes; "# OTHER METRICS"; dashes; "";
                  "# HELP python_info Python platform information";
                  "python_info 1.0"; "" ]))%string.
Proof. vm_compute. reflexivity. Qed.

(** ** The embedding on the sample data *)

(** Three requests answered 200, 404 and 500 in 100, 200 and 300 ms:
    [total_requests] is 3, each rate one third, the mean 200 ms. *)
Example three_requests_metrics :
  let m := export_current_metrics utc_clock three_requests sample_now sample_now in
  total_requests m = 3%nat
  /\ (success_rate m == 1 # 3)%Q
  /\ (error_rate_4xx m == 1 # 3)%Q
  /\ (error_rate_5xx m == 1 # 3)%Q
  /\ (avg_response_time m == 200)%Q
  /\ active_users m = 0%nat
  /\ (failed_logins_rate m == 0)%Q.
Proof. cbv zeta. split; [reflexivity|]. repeat split. Qed.

(** A record older than the trailing hour is not counted, and a line
    that cannot be decoded is skipped. *)
Example old_and_malformed_lines_are_left_out :
  total_requests
    (export_current_metrics utc_clock
       (logged 1699990000 (log_request "GET" "/" 200 (1#10) None)
        :: Malformed :: Blank :: three_requests)
       sample_now sample_now)
  = 3%nat.
Proof. reflexivity. Qed.

(** Requests of two hours, logged in any order, give two points in
    ascending order of the hour. *)
Example two_hours_timeline :
  map (fun point => (rp_timestamp point, requests_count point))
    (http_requests_timeline
       (export_historical_data utc_clock
          (logged 1700003700 (log_request "GET" "/" 200 (1#10) None)
           :: three_requests)
          (utc_time 1700003800) 24))
  = [ (Isoformat (utc_time 1699999200), 3%nat);
      (Isoformat (utc_time 1700002800), 1%nat) ].
Proof. vm_compute. reflexivity. Qed.

Example strip_and_split :
  strip "  # HELP  http_requests_total   Total  " = "# HELP  http_requests_total   Total"%string
  /\ split "  # HELP  http_requests_total   Total  "
     = [ "#"; "HELP"; "http_requests_total"; "Total" ]%string
  /\ section_of_metric "http_requests_total" = "http_"%string
  /\ section_of_metric "python_info" = "other"%string.
Proof. repeat split; vm_compute; reflexivity. Qed.

(** * Further properties of the exporter *)

From Stdlib Require Import Lqa.

(** ** Active users *)

Lemma active_users_fold (logs : list log_entry) :
  forall acc : gset string,
    foldl (fun (acc : gset string) log =>
             match truthy_user_id log with
             | Some u => {[ u ]} ∪ acc
             | None => acc
             end) acc logs
    = list_to_set (omap truthy_user_id logs) ∪ acc.
Proof.
  induction logs as [|log logs IH]; intros acc; cbn [foldl].
  { cbn. symmetry. apply (left_id_L ∅ (∪)). }
  rewrite IH. cbn [omap list_omap].
  destruct (truthy_user_id log) as [u|]; [|reflexivity].
  cbn [list_to_set]. rewrite (comm_L (∪) {[ u ]} (list_to_set _)).
  rewrite (assoc_L (∪)). reflexivity.
Qed.

Lemma size_list_to_set_length (l : list string) :
  (size (list_to_set l : gset string) <= length l)%nat.
Proof.
  induction l as [|x l IH]; cbn [list_to_set length].
  { rewrite size_empty. lia. }
  rewrite size_union_alt, size_singleton.
  pose proof (subseteq_size (list_to_set l ∖ {[ x ]}) (list_to_set l : gset string)
                (subseteq_difference_l _ _ _ (reflexivity _))).
  lia.
Qed.

Lemma active_users_as_set (logs : list log_entry) :
  _count_real_active_users logs
  = size (list_to_set (omap truthy_user_id logs) : gset string).
Proof.
  unfold _count_real_active_users. rewrite active_users_fold.
  f_equal. apply (right_id_L ∅ (∪)).
Qed.

(** X2. [_count_real_active_users] is the number of distinct
    non-empty [user_id] values of the records: it is the length of any
    duplicate-free list of exactly the non-empty ids that occur. It
    therefore does not exceed the number of records, does not depend on
    their order, does not change when every record appears twice, and
    ignores a record whose [user_id] is missing or empty. *)
Theorem active_users_counts_distinct_ids :
  forall logs : list log_entry,
    (forall ids : list string,
        NoDup ids ->
        (forall u : string,
            u ∈ ids
            <-> u <> EmptyString
                /\ exists log : log_entry,
                     In log logs /\ user_id (record_extra log) = Some u) ->
        _count_real_active_users logs = length ids)
    /\ (exists ids : list string,
          NoDup ids
          /\ (forall u : string,
                u ∈ ids
                <-> u <> EmptyString
                    /\ exists log : log_entry,
                         In log logs /\ user_id (record_extra log) = Some u)
          /\ _count_real_active_users logs = length ids)
    /\ (_count_real_active_users logs <= length logs)%nat
    /\ (forall logs' : list log_entry,
          logs ≡ₚ logs' ->
          _count_real_active_users logs' = _count_real_active_users logs)
    /\ _count_real_active_users (logs ++ logs) = _count_real_active_users logs
    /\ (forall log : log_entry,
          user_id (record_extra log) = None
          \/ user_id (record_extra log) = Some EmptyString ->
          _count_real_active_users (log :: logs) = _count_real_active_users logs)
    /\ (forall log : log_entry,
          In log logs ->
          _count_real_active_users (log :: logs) = _count_real_active_users logs).
Proof.
  intros logs.
  assert (Hmember : forall u : string,
             u ∈ omap truthy_user_id logs
             <-> u <> EmptyString
                 /\ exists log : log_entry,
                      In log logs /\ user_id (record_extra log) = Some u).
  { intros u. rewrite list_elem_of_omap. unfold truthy_user_id. split.
    - intros (log & Hin & Hu). apply list_elem_of_In in Hin.
      destruct (user_id (record_extra log)) as [v|] eqn:Hv; [|discriminate].
      destruct (bool_decide (v = EmptyString)) eqn:Hempty; [discriminate|].
      injection Hu as ->. apply bool_decide_eq_false_1 in Hempty.
      split; [exact Hempty|]. exists log. split; assumption.
    - intros (Hne & log & Hin & Hu). exists log.
      split; [apply list_elem_of_In; exact Hin|]. rewrite Hu.
      rewrite bool_decide_eq_false_2 by exact Hne. reflexivity. }
  assert (Hdistinct : forall ids : list string,
             NoDup ids ->
             (forall u : string,
                 u ∈ ids
                 <-> u <> EmptyString
                     /\ exists log : log_entry,
                          In log logs /\ user_id (record_extra log) = Some u) ->
             _count_real_active_users logs = length ids).
  { intros ids Hnodup Hids. rewrite active_users_as_set.
    rewrite <- (size_list_to_set (C := gset string) ids Hnodup).
    f_equal. apply set_eq. intros u. rewrite !elem_of_list_to_set.
    rewrite Hmember, Hids. reflexivity. }
  split; [exact Hdistinct|].
  split.
  { exists (remove_dups (omap truthy_user_id logs)).
    assert (Hids : forall u : string,
               u ∈ remove_dups (omap truthy_user_id logs)
               <-> u <> EmptyString
                   /\ exists log : log_entry,
                        In log logs /\ user_id (record_extra log) = Some u).
    { intros u. rewrite elem_of_remove_dups. apply Hmember. }
    split; [apply NoDup_remove_dups|]. split; [exact Hids|].
    apply Hdistinct; [apply NoDup_remove_dups|exact Hids]. }
  rewrite !active_users_as_set.
  split; [|split; [|split; [|split]]].
  - etransitivity; [apply size_list_to_set_length|].
    clear. induction logs as [|log logs IH]; cbn; [lia|].
    destruct (truthy_user_id log); cbn; lia.
  - intros logs' Hperm. rewrite !active_users_as_set.
    f_equal. apply set_eq. intros u. rewrite !elem_of_list_to_set.
    rewrite Hperm. reflexivity.
  - rewrite omap_app. f_equal. apply set_eq. intros u.
    rewrite !elem_of_list_to_set, elem_of_app. tauto.
  - intros log Hnone. rewrite active_users_as_set. cbn [omap list_omap].
    assert (Hfalsy : truthy_user_id log = None).
    { unfold truthy_user_id. destruct Hnone as [-> | ->]; reflexivity. }
    rewrite Hfalsy. reflexivity.
  - intros log Hin. rewrite active_users_as_set. cbn [omap list_omap].
    destruct (truthy_user_id log) as [u|] eqn:Hu; [|reflexivity].
    f_equal. apply set_eq. intros v. cbn.
    rewrite elem_of_union, elem_of_singleton, !elem_of_list_to_set.
    split; [|tauto]. intros [->|Hv]; [|exact Hv].
    apply list_elem_of_omap. exists log. split; [apply list_elem_of_In; exact Hin|exact Hu].
Qed.

(** ** The reader *)

(** X3. Every record returned by [_read_structured_logs] for a given
    [since] comes from a decodable line of the file, carries the
    attributes of that line, and has a non-zero timestamp whose local
    time, stored under [parsed_timestamp], is not older than [since]. *)
Theorem read_records_are_in_window :
  forall (fromtimestamp : Q -> option datetime) (lines : list log_line)
         (since : datetime),
    Forall (read_from fromtimestamp lines since)
      (_read_structured_logs fromtimestamp lines (Some since)).
Proof.
  intros fromtimestamp lines since.
  induction lines as [|line rest IH].
  { constructor. }
  assert (Hrest : Forall (read_from fromtimestamp (line :: rest) since)
                    (_read_structured_logs fromtimestamp rest (Some since))).
  { eapply Forall_impl; [exact IH|].
    intros e (raw & t & ts & Hin & Hrest). exists raw, t, ts.
    split; [right; exact Hin | exact Hrest]. }
  destruct line as [| | |raw]; cbn [_read_structured_logs];
    try exact Hrest; [constructor|].
  destruct (time_timestamp raw) as [t|] eqn:Et; [|exact Hrest].
  destruct (Qeq_bool t 0) eqn:Ezero; [exact Hrest|].
  destruct (fromtimestamp t) as [ts|] eqn:Ets; [|constructor].
  destruct (Z.ltb_spec ts since) as [Hold|Hnew]; [exact Hrest|].
  constructor; [|exact Hrest].
  exists raw, t, ts. repeat split; try assumption.
  - left. reflexivity.
  - intros Hz. apply Qeq_eq_bool in Hz. congruence.
Qed.

(** X4. Reading with a later [since] returns what filtering the result
    of the earlier [since] by the parsed timestamp returns: a narrower
    window never brings in a record and keeps the order. *)
Theorem narrower_window_filters :
  forall (fromtimestamp : Q -> option datetime) (lines : list log_line)
         (since1 since2 : datetime),
    since1 <= since2 ->
    _read_structured_logs fromtimestamp lines (Some since2)
    = List.filter (not_older_than since2)
        (_read_structured_logs fromtimestamp lines (Some since1)).
Proof.
  intros fromtimestamp lines since1 since2 Hle.
  induction lines as [|line rest IH]; [reflexivity|].
  destruct line as [| | |raw]; cbn [_read_structured_logs]; try exact IH;
    [reflexivity|].
  destruct (time_timestamp raw) as [t|]; [|exact IH].
  destruct (Qeq_bool t 0); [exact IH|].
  destruct (fromtimestamp t) as [ts|]; [|reflexivity].
  destruct (Z.ltb_spec ts since1) as [Hold1|Hnew1].
  - rewrite (proj2 (Z.ltb_lt ts since2)) by lia. exact IH.
  - cbn [List.filter]. unfold not_older_than at 1. cbn [parsed_timestamp].
    rewrite Z.leb_antisym.
    destruct (ts <? since2); cbn [negb]; rewrite IH; reflexivity.
Qed.

Lemma narrower_window_witness :
  sample_now - timedelta_hours 24 <= sample_now - timedelta_hours 1
  /\ window_logs utc_clock three_requests sample_now
     = List.filter (not_older_than (sample_now - timedelta_hours 1))
         (_read_structured_logs utc_clock three_requests
            (Some (sample_now - timedelta_hours 24))).
Proof.
  assert (Hle : sample_now - timedelta_hours 24 <= sample_now - timedelta_hours 1)
    by (vm_compute; discriminate).
  split; [exact Hle|].
  exact (narrower_window_filters utc_clock three_requests _ _ Hle).
Defined.

(** X5. Of the lines that the file iterator yields, a blank one, one
    whose text [json.loads] rejects, and a decoded record without a
    timestamp or with the timestamp 0 are skipped, wherever they stand.
    Any other exception ends the reading, and every record after that
    point is lost: a decoded value from which no timestamp can be taken,
    a timestamp that [fromtimestamp] rejects, and the iterator itself
    failing on bytes that are not UTF-8 (which happens before the first
    line of the block of the file that holds them). *)
Theorem corrupt_lines_skip_or_truncate :
  forall (fromtimestamp : Q -> option datetime)
         (before after : list log_line) (since : option datetime),
    _read_structured_logs fromtimestamp (before ++ Malformed :: after) since
    = _read_structured_logs fromtimestamp (before ++ after) since
    /\ _read_structured_logs fromtimestamp (before ++ Blank :: after) since
       = _read_structured_logs fromtimestamp (before ++ after) since
    /\ _read_structured_logs fromtimestamp (before ++ Unreadable :: after) since
       = _read_structured_logs fromtimestamp before since
    /\ (forall raw : log_entry,
          time_timestamp raw = None
          \/ (exists t : Q, time_timestamp raw = Some t /\ (t == 0)%Q) ->
          _read_structured_logs fromtimestamp (before ++ Json raw :: after) since
          = _read_structured_logs fromtimestamp (before ++ after) since)
    /\ (forall (raw : log_entry) (t : Q),
          time_timestamp raw = Some t ->
          ~ (t == 0)%Q ->
          fromtimestamp t = None ->
          _read_structured_logs fromtimestamp (before ++ Json raw :: after) since
          = _read_structured_logs fromtimestamp before since).
Proof.
  intros fromtimestamp before after since.
  induction before as [|line rest (IHm & IHb & IHu & IHs & IHf)].
  { split; [reflexivity|]. split; [reflexivity|]. split; [reflexivity|].
    cbn [app _read_structured_logs]. split.
    - intros raw [-> | (t & -> & Hzero)]; [reflexivity|].
      apply Qeq_bool_iff in Hzero. rewrite Hzero. reflexivity.
    - intros raw t -> Hzero Hnone.
      destruct (Qeq_bool t 0) eqn:E; [apply Qeq_bool_iff in E; contradiction|].
      rewrite Hnone. reflexivity. }
  cbn [app].
  split; [|split; [|split; [|split]]].
  - destruct line as [| | |raw]; cbn [_read_structured_logs];
      rewrite ?IHm; reflexivity.
  - destruct line as [| | |raw]; cbn [_read_structured_logs];
      rewrite ?IHb; reflexivity.
  - destruct line as [| | |raw]; cbn [_read_structured_logs];
      rewrite ?IHu; reflexivity.
  - intros raw Hraw. specialize (IHs raw Hraw).
    destruct line as [| | |raw0]; cbn [_read_structured_logs];
      rewrite ?IHs; reflexivity.
  - intros raw t Ht Hzero Hnone. specialize (IHf raw t Ht Hzero Hnone).
    destruct line as [| | |raw0]; cbn [_read_structured_logs];
      rewrite ?IHf; reflexivity.
Qed.

(** ** Conservation of the request timeline *)

Lemma read_has_timestamp (fromtimestamp : Q -> option datetime)
    (lines : list log_line) (since : option datetime) :
  Forall (fun entry => is_Some (parsed_timestamp entry))
    (_read_structured_logs fromtimestamp lines since).
Proof.
  induction lines as [|line rest IH]; [constructor|].
  destruct line as [| | |raw]; cbn [_read_structured_logs]; try exact IH;
    [constructor|].
  destruct (time_timestamp raw) as [t|]; [|exact IH].
  destruct (Qeq_bool t 0); [exact IH|].
  destruct (fromtimestamp t) as [ts|]; [|constructor].
  destruct since as [s|]; [destruct (ts <? s); [exact IH|]|];
    (constructor; [eexists; reflexivity | exact IH]).
Qed.

Lemma counted_insert (m : gmap datetime hour_data) (k : datetime)
    (data : hour_data) :
  (sum_list_with (fun item => count item.2) (map_to_list (<[k := data]> m))
   + count (default (mk_hour_data 0 0) (m !! k))
   = count data + sum_list_with (fun item => count item.2) (map_to_list m))%nat.
Proof.
  destruct (m !! k) as [old|] eqn:Hk; cbn [default]; unfold id.
  - rewrite <- insert_delete_eq.
    rewrite map_to_list_insert by apply lookup_delete_eq.
    rewrite <- (map_to_list_delete m k old Hk). cbn. lia.
  - rewrite map_to_list_insert by exact Hk. cbn. lia.
Qed.

Lemma requests_loop_counts (reqs : list log_entry) :
  forall m : gmap datetime hour_data,
    sum_list_with (fun item => count item.2)
      (map_to_list
         (foldl (fun hourly_data req =>
                   match parsed_timestamp req with
                   | Some timestamp =>
                       let hour_key := replace_to_hour timestamp in
                       let data := default (mk_hour_data 0 0)
                                     (hourly_data !! hour_key) in
                       <[hour_key := mk_hour_data (count data + 1)
                                       (total_duration data + get_duration_ms req)]>
                         hourly_data
                   | None => hourly_data
                   end) m reqs))
    = (sum_list_with (fun item => count item.2) (map_to_list m)
       + count_where (fun req => bool_decide (is_Some (parsed_timestamp req))) reqs)%nat.
Proof.
  induction reqs as [|req rest IH]; intros m; cbn [foldl count_where]; [lia|].
  rewrite IH. destruct (parsed_timestamp req) as [ts|]; cbn [bool_decide].
  - cbv zeta.
    pose proof (counted_insert m (replace_to_hour ts)
                  (mk_hour_data
                     (count (default (mk_hour_data 0 0) (m !! replace_to_hour ts)) + 1)
                     (total_duration (default (mk_hour_data 0 0)
                                        (m !! replace_to_hour ts))
                      + get_duration_ms req))) as Hins.
    cbn [count] in Hins.
    rewrite bool_decide_eq_true_2 by (eexists; reflexivity). lia.
  - rewrite bool_decide_eq_false_2 by (intros [? ?]; discriminate). lia.
Qed.

(** X6. The counts of the request timeline add up to the number of
    [http_request] records read for the window: every such record is
    counted in exactly one hour. *)
Theorem timeline_counts_every_request_once :
  forall (fromtimestamp : Q -> option datetime) (lines : list log_line)
         (utcnow : datetime) (hours : Z),
    sum_list_with requests_count
      (http_requests_timeline
         (export_historical_data fromtimestamp lines utcnow hours))
    = length (historical_http_requests fromtimestamp lines utcnow hours).
Proof.
  intros fromtimestamp lines utcnow hours.
  set (reqs := historical_http_requests fromtimestamp lines utcnow hours).
  change (sum_list_with requests_count
            (map requests_point_of (sorted_items (requests_hourly_data reqs)))
          = length reqs).
  assert (Hmap : forall items : list (datetime * hour_data),
             sum_list_with requests_count (map requests_point_of items)
             = sum_list_with (fun item => count item.2) items).
  { induction items as [|[k v] items IH]; [reflexivity|]. cbn. rewrite IH. reflexivity. }
  rewrite Hmap, sorted_items_perm.
  unfold requests_hourly_data. rewrite requests_loop_counts.
  rewrite map_to_list_empty. cbn [sum_list_with].
  assert (Hts : Forall (fun entry => is_Some (parsed_timestamp entry)) reqs).
  { subst reqs. unfold historical_http_requests.
    apply Forall_forall. intros e He.
    apply list_elem_of_In, filter_In in He as [He _].
    pose proof (read_has_timestamp fromtimestamp lines
                  (Some (utcnow - timedelta_hours hours))) as Hall.
    rewrite Forall_forall in Hall. apply Hall, list_elem_of_In. exact He. }
  clear -Hts. induction Hts as [|e l He _ IH]; [reflexivity|].
  cbn [count_where length]. rewrite bool_decide_eq_true_2 by exact He.
  cbn in IH |- *. rewrite IH. reflexivity.
Qed.

(** ** Order of the percentiles *)

Lemma sorted_nth_le (l : list Q) :
  StronglySorted Qle l ->
  forall i j : nat, (i <= j)%nat -> (j < length l)%nat ->
    (nth i l 0 <= nth j l 0)%Q.
Proof.
  induction 1 as [|x l Hsorted IH Hall]; intros i j Hij Hj; [simpl in Hj; lia|].
  destruct i as [|i], j as [|j]; cbn [nth]; cbn [length] in Hj; try lia.
  - apply Qle_refl.
  - rewrite Forall_forall in Hall. apply Hall, list_elem_of_In, nth_In. lia.
  - apply IH; lia.
Qed.

Lemma percentile_point_spec_ordered (reqs : list log_entry) (hour : datetime) :
  bucket_of hour reqs <> [] ->
  ordered_observations reqs (percentile_point_spec reqs hour).
Proof.
  intros Hne. unfold ordered_observations, percentile_point_spec. cbv zeta.
  cbn [p50 p95 p99 rt_timestamp].
  set (durations := sorted_durations reqs hour).
  assert (Hperm : durations ≡ₚ map get_duration_ms (bucket_of hour reqs))
    by apply merge_sort_Permutation.
  assert (Hsorted : StronglySorted Qle durations)
    by (apply StronglySorted_merge_sort; apply _).
  assert (Hlen : (1 <= length durations)%nat).
  { rewrite Hperm, length_map. destruct (bucket_of hour reqs); [contradiction|simpl; lia]. }
  set (n := length durations) in *.
  assert (H50 : (50 * n / 100 <= 95 * n / 100)%nat)
    by (apply Nat.Div0.div_le_mono; lia).
  assert (H95 : (95 * n / 100 <= 99 * n / 100)%nat)
    by (apply Nat.Div0.div_le_mono; lia).
  assert (H99 : (99 * n / 100 < n)%nat)
    by (apply Nat.Div0.div_lt_upper_bound; lia).
  assert (Hin : forall i : nat, (i < n)%nat ->
             In (nth i durations 0%Q) (map get_duration_ms (bucket_of hour reqs))).
  { intros i Hi. apply list_elem_of_In. rewrite <- Hperm.
    apply list_elem_of_In, nth_In. exact Hi. }
  split; [apply sorted_nth_le; [exact Hsorted|exact H50|lia]|].
  split; [apply sorted_nth_le; [exact Hsorted|exact H95|lia]|].
  exists hour. split; [reflexivity|].
  repeat split; apply Hin; lia.
Qed.

(** X7. In every point of the latency timeline built from a log of
    fewer than [2^45] lines, p50 <= p95 <= p99, and each of the three is
    the duration of a record of that hour. *)
Theorem percentiles_are_ordered_observations :
  forall (fromtimestamp : Q -> option datetime) (lines : list log_line)
         (utcnow : datetime) (hours : Z),
    Z.of_nat (length lines) < 2 ^ 45 ->
    Forall (ordered_observations
              (historical_http_requests fromtimestamp lines utcnow hours))
      (response_times_timeline
         (export_historical_data fromtimestamp lines utcnow hours)).
Proof.
  intros fromtimestamp lines utcnow hours Hlines.
  set (reqs := historical_http_requests fromtimestamp lines utcnow hours).
  assert (Hreqs : Z.of_nat (length reqs) < 2 ^ 45).
  { subst reqs. unfold historical_http_requests.
    pose proof (length_filter_le (has_event_type "http_request")
                  (_read_structured_logs fromtimestamp lines
                     (Some (utcnow - timedelta_hours hours)))).
    pose proof (length_read_structured_logs fromtimestamp lines
                  (Some (utcnow - timedelta_hours hours))).
    lia. }
  change (Forall (ordered_observations reqs)
            (flat_map response_times_point_of
               (sorted_items (durations_hourly_data reqs)))).
  apply Forall_forall. intros point Hpoint.
  apply list_elem_of_In, in_flat_map in Hpoint as ([k v] & Hitem & Hpoint).
  apply list_elem_of_In, elem_of_sorted_items in Hitem.
  apply (response_times_point_of_item reqs k v Hreqs) in Hitem as [Hne Heq].
  rewrite Heq in Hpoint. destruct Hpoint as [<-|[]].
  apply percentile_point_spec_ordered. exact Hne.
Qed.

Lemma percentiles_ordered_witness :
  Z.of_nat (length five_requests) < 2 ^ 45
  /\ Forall (ordered_observations
               (historical_http_requests utc_clock five_requests sample_now 24))
       (response_times_timeline
          (export_historical_data utc_clock five_requests sample_now 24)).
Proof.
  split; [reflexivity|].
  exact (percentiles_are_ordered_observations utc_clock five_requests sample_now 24
           ltac:(reflexivity)).
Defined.

(** ** The two timelines side by side *)

Lemma response_times_point_of_timestamp (hour : datetime) (durations : list Q) :
  durations <> [] ->
  map rt_timestamp (response_times_point_of (hour, durations)) = [Isoformat hour].
Proof.
  intros Hne. destruct durations as [|d ds]; [contradiction|]. reflexivity.
Qed.

Lemma timestamps_of_response_times (items : list (datetime * list Q)) :
  Forall (fun item => item.2 <> []) items ->
  map rt_timestamp (flat_map response_times_point_of items)
  = map Isoformat items.*1.
Proof.
  induction 1 as [|[k v] items Hne _ IH]; [reflexivity|].
  cbn [flat_map]. rewrite map_app, IH.
  rewrite (response_times_point_of_timestamp k v Hne). reflexivity.
Qed.

Lemma timestamps_of_requests (items : list (datetime * hour_data)) :
  map rp_timestamp (map requests_point_of items) = map Isoformat items.*1.
Proof.
  induction items as [|[k v] items IH]; [reflexivity|].
  cbn. f_equal. exact IH.
Qed.

(** X8. The request timeline and the latency timeline of one call of
    [export_historical_data] report the same hours in the same order. *)
Theorem timelines_share_their_hours :
  forall (fromtimestamp : Q -> option datetime) (lines : list log_line)
         (utcnow : datetime) (hours : Z),
    let data := export_historical_data fromtimestamp lines utcnow hours in
    map rp_timestamp (http_requests_timeline data)
    = map rt_timestamp (response_times_timeline data).
Proof.
  intros fromtimestamp lines utcnow hours data.
  set (reqs := historical_http_requests fromtimestamp lines utcnow hours).
  change (map rp_timestamp
            (map requests_point_of (sorted_items (requests_hourly_data reqs)))
          = map rt_timestamp
              (flat_map response_times_point_of
                 (sorted_items (durations_hourly_data reqs)))).
  rewrite timestamps_of_requests, timestamps_of_response_times.
  2:{ apply Forall_forall. intros [k v] Hin. cbn.
      apply elem_of_sorted_items in Hin.
      rewrite durations_hourly_data_lookup in Hin.
      destruct (bucket_of k reqs); [discriminate|].
      injection Hin as <-. discriminate. }
  f_equal.
  apply (StronglySorted_unique_strong Z.lt).
  - intros x1 x2 _ _ H12 H21. lia.
  - apply sorted_items_keys_ascending.
  - apply sorted_items_keys_ascending.
  - apply NoDup_Permutation; [apply NoDup_sorted_items_keys..|].
    intros hour. rewrite !list_elem_of_fmap. split.
    + intros ([k v] & -> & Hin). cbn.
      apply elem_of_sorted_items in Hin.
      rewrite requests_hourly_data_lookup in Hin.
      pose proof (durations_hourly_data_lookup reqs k) as Hd.
      destruct (bucket_of k reqs); [discriminate|].
      eexists (k, _). split; [reflexivity|].
      apply elem_of_sorted_items. exact Hd.
    + intros ([k v] & -> & Hin). cbn.
      apply elem_of_sorted_items in Hin.
      rewrite durations_hourly_data_lookup in Hin.
      pose proof (requests_hourly_data_lookup reqs k) as Hd.
      destruct (bucket_of k reqs); [discriminate|].
      eexists (k, _). split; [reflexivity|].
      apply elem_of_sorted_items. exact Hd.
Qed.

(** ** Error rates *)

(** X9. Whatever string is passed as [error_type],
    [_calculate_real_error_rate] returns a value of [[0,1]]; it is 0 for
    every string other than ["4xx"] and ["5xx"], and the two rates
    together never exceed 1. *)
Theorem error_rate_is_a_proportion :
  forall (http_requests : list log_entry) (error_type : string),
    (0 <= _calculate_real_error_rate http_requests error_type <= 1)%Q
    /\ (error_type <> "4xx"%string -> error_type <> "5xx"%string ->
        _calculate_real_error_rate http_requests error_type = 0%Q)
    /\ (_calculate_real_error_rate http_requests "4xx"
        + _calculate_real_error_rate http_requests "5xx" <= 1)%Q.
Proof.
  intros reqs error_type.
  assert (Hzero : (0 <= 0 <= 1)%Q) by (split; discriminate).
  assert (H4 : (0 <= _calculate_real_error_rate reqs "4xx" <= 1)%Q).
  { rewrite error_rate_4xx_eq. destruct reqs as [|r rs]; [exact Hzero|].
    apply fraction_bounds; [apply count_where_le|simpl; lia]. }
  assert (H5 : (0 <= _calculate_real_error_rate reqs "5xx" <= 1)%Q).
  { rewrite error_rate_5xx_eq. destruct reqs as [|r rs]; [exact Hzero|].
    apply fraction_bounds; [apply count_where_le|simpl; lia]. }
  assert (Hother : error_type <> "4xx"%string -> error_type <> "5xx"%string ->
                   _calculate_real_error_rate reqs error_type = 0%Q).
  { intros Hn4 Hn5. unfold _calculate_real_error_rate.
    destruct reqs as [|r rs]; [reflexivity|].
    rewrite !bool_decide_eq_false_2 by assumption. reflexivity. }
  split; [|split; [exact Hother|]].
  - destruct (decide (error_type = "4xx"%string)) as [->|Hn4]; [exact H4|].
    destruct (decide (error_type = "5xx"%string)) as [->|Hn5]; [exact H5|].
    rewrite (Hother Hn4 Hn5). exact Hzero.
  - rewrite error_rate_4xx_eq, error_rate_5xx_eq.
    destruct reqs as [|r rs]; [discriminate|].
    set (l := r :: rs).
    pose proof (status_classes_partition l) as Hpart.
    pose proof (fraction_sum3 _ _ _ _ Hpart ltac:(subst l; simpl; lia)) as Hsum.
    pose proof (fraction_bounds (count_where is_success l) (length l)
                  (count_where_le _ _) ltac:(subst l; simpl; lia)) as [Hs _].
    lra.
Qed.

(** * Further properties of the registry *)

(** ** Histograms *)

Lemma bucket_index_le (bounds : list Q) (v : Q) :
  (bucket_index bounds v <= length bounds)%nat.
Proof.
  induction bounds as [|b rest IH]; cbn [bucket_index length]; [lia|].
  destruct (decide (v <= b)%Q); lia.
Qed.

Lemma sum_list_alter_S (l : list nat) (i : nat) :
  (i < length l)%nat -> sum_list (alter S i l) = S (sum_list l).
Proof.
  revert i. induction l as [|x l IH]; intros i Hi; [simpl in Hi; lia|].
  destruct i as [|i]; cbn; [reflexivity|].
  rewrite IH by (simpl in Hi; lia). lia.
Qed.

Lemma observe_wf (h : histogram) (v : Q) :
  histogram_wf h -> histogram_wf (observe h v).
Proof.
  unfold histogram_wf, observe. cbn [buckets upper_bounds].
  rewrite length_alter. trivial.
Qed.

Lemma hcount_observe (h : histogram) (v : Q) :
  histogram_wf h -> hcount (observe h v) = S (hcount h).
Proof.
  intros Hwf. unfold hcount, observe. cbn [buckets].
  apply sum_list_alter_S. rewrite Hwf.
  pose proof (bucket_index_le (upper_bounds h) v). lia.
Qed.

Lemma new_histogram_wf (bounds : list Q) : histogram_wf (new_histogram bounds).
Proof. unfold histogram_wf, new_histogram. cbn. rewrite length_replicate. reflexivity. Qed.

Lemma hcount_new_histogram (bounds : list Q) : hcount (new_histogram bounds) = 0%nat.
Proof.
  unfold hcount, new_histogram. cbn [buckets].
  rewrite sum_list_replicate. lia.
Qed.

(** X10. A histogram child that has taken a sequence of observations,
    of any sign and size, has them all in its count, their sum (added in
    the order of arrival) as its running sum, and the bounds and the
    number of buckets it was created with: a value above every bound is
    counted in the [+Inf] bucket. *)
Theorem histogram_tallies_observations :
  forall (bounds : list Q) (amounts : list Q),
    let h := foldl observe (new_histogram bounds) amounts in
    hcount h = length amounts
    /\ hsum h = foldl Qplus 0%Q amounts
    /\ upper_bounds h = bounds
    /\ length (buckets h) = S (length bounds).
Proof.
  intros bounds amounts.
  assert (Hgen : forall h0 : histogram,
             histogram_wf h0 ->
             let h := foldl observe h0 amounts in
             hcount h = (hcount h0 + length amounts)%nat
             /\ hsum h = foldl Qplus (hsum h0) amounts
             /\ upper_bounds h = upper_bounds h0
             /\ histogram_wf h).
  { induction amounts as [|v vs IH]; intros h0 Hwf; cbn [foldl length].
    - cbv zeta. repeat split; [lia|exact Hwf].
    - destruct (IH (observe h0 v) (observe_wf h0 v Hwf)) as (Hc & Hs & Hb & Hw).
      cbv zeta. rewrite Hc, Hs, Hb, (hcount_observe h0 v Hwf).
      repeat split; [lia|exact Hw]. }
  destruct (Hgen (new_histogram bounds) (new_histogram_wf bounds))
    as (Hc & Hs & Hb & Hw).
  cbv zeta. rewrite Hc, Hs, Hb, hcount_new_histogram.
  repeat split. unfold histogram_wf in Hw. rewrite Hw, Hb. reflexivity.
Qed.

(** X11. [observe] counts a value in the first bucket whose bound is
    not below it: every earlier bound is below the value, the bucket
    chosen is the one of [+Inf] when all bounds are, and no other bucket
    changes. *)
Theorem observation_lands_in_first_fitting_bucket :
  forall (h : histogram) (v : Q),
    let i := bucket_index (upper_bounds h) v in
    (i <= length (upper_bounds h))%nat
    /\ (forall (j : nat) (b : Q),
          (j < i)%nat -> upper_bounds h !! j = Some b -> (b < v)%Q)
    /\ (forall b : Q, upper_bounds h !! i = Some b -> (v <= b)%Q)
    /\ buckets (observe h v) !! i = S <$> buckets h !! i
    /\ (forall j : nat, j <> i -> buckets (observe h v) !! j = buckets h !! j).
Proof.
  intros h v i. subst i. unfold observe. cbn [buckets].
  split; [apply bucket_index_le|].
  split; [|split; [|split]].
  - induction (upper_bounds h) as [|b0 rest IH]; intros j b Hj Hb;
      cbn [bucket_index] in Hj; [lia|].
    destruct (decide (v <= b0)%Q) as [Hle|Hgt]; [lia|].
    destruct j as [|j]; cbn in Hb.
    + injection Hb as <-. apply Qnot_le_lt. exact Hgt.
    + apply (IH j b); [lia|exact Hb].
  - induction (upper_bounds h) as [|b0 rest IH]; intros b Hb;
      cbn [bucket_index] in Hb; [discriminate|].
    destruct (decide (v <= b0)%Q) as [Hle|Hgt]; cbn in Hb.
    + injection Hb as <-. exact Hle.
    + apply IH. exact Hb.
  - apply list_lookup_alter_eq.
  - intros j Hj. apply list_lookup_alter_ne. congruence.
Qed.

(** ** The series of the registry *)

Lemma weight_insert `{Countable K} {V : Type} (w : V -> nat) (m : gmap K V)
    (k : K) (x : V) :
  (sum_list_with (fun item => w item.2) (map_to_list (<[k := x]> m))
   + from_option w 0 (m !! k)
   = w x + sum_list_with (fun item => w item.2) (map_to_list m))%nat.
Proof.
  destruct (m !! k) as [old|] eqn:Hk; cbn [from_option].
  - rewrite <- insert_delete_eq.
    rewrite map_to_list_insert by apply lookup_delete_eq.
    rewrite <- (map_to_list_delete m k old Hk). cbn. lia.
  - rewrite map_to_list_insert by exact Hk. cbn. lia.
Qed.

Lemma counter_total_inc `{Countable K} (m : gmap K nat) (k : K) :
  counter_total (<[k := S (labels_counter m k)]> m) = S (counter_total m).
Proof.
  unfold counter_total, labels_counter.
  pose proof (weight_insert (fun n : nat => n) m k (S (default 0%nat (m !! k)))) as Hw.
  cbn beta in Hw. destruct (m !! k); cbn in Hw |- *; lia.
Qed.

Lemma observation_total_observe `{Countable K} (bounds : list Q)
    (m : gmap K histogram) (k : K) (v : Q) :
  map_Forall (fun _ h => histogram_wf h) m ->
  observation_total (<[k := observe (labels_histogram bounds m k) v]> m)
  = S (observation_total m)
  /\ map_Forall (fun _ h => histogram_wf h)
       (<[k := observe (labels_histogram bounds m k) v]> m).
Proof.
  intros Hwf.
  assert (Hchild : histogram_wf (labels_histogram bounds m k)).
  { unfold labels_histogram. destruct (m !! k) as [h|] eqn:Hk; cbn.
    - exact (Hwf k h Hk).
    - apply new_histogram_wf. }
  split.
  - unfold observation_total.
    pose proof (weight_insert hcount m k (observe (labels_histogram bounds m k) v)) as Hw.
    rewrite (hcount_observe _ v Hchild) in Hw.
    unfold labels_histogram in Hw |- *.
    destruct (m !! k) as [h|]; cbn [from_option default] in Hw |- *;
      unfold id in Hw |- *.
    + lia.
    + rewrite hcount_new_histogram in Hw. lia.
  - apply map_Forall_insert_2; [|exact Hwf]. apply observe_wf. exact Hchild.
Qed.

(** X12. After any sequence of [record_http_request] and
    [record_db_query] calls on a fresh collector, the request counters
    add up to the number of request calls and so do the counts of the
    duration histograms; likewise for the database series: no call is
    lost or counted twice, whatever the labels and the durations. *)
Theorem registry_counts_every_call :
  forall calls : list registry_call,
    let self := foldl run_call empty_collector calls in
    counter_total (http_requests_total self) = count_where is_http_call calls
    /\ observation_total (http_request_duration self)
       = count_where is_http_call calls
    /\ counter_total (db_queries_total self)
       = count_where (fun call => negb (is_http_call call)) calls
    /\ observation_total (db_query_duration self)
       = count_where (fun call => negb (is_http_call call)) calls.
Proof.
  intros calls.
  assert (Hgen : forall self0 : MetricsCollector,
             map_Forall (fun _ h => histogram_wf h) (http_request_duration self0) ->
             map_Forall (fun _ h => histogram_wf h) (db_query_duration self0) ->
             let self := foldl run_call self0 calls in
             counter_total (http_requests_total self)
             = (counter_total (http_requests_total self0)
                + count_where is_http_call calls)%nat
             /\ observation_total (http_request_duration self)
                = (observation_total (http_request_duration self0)
                   + count_where is_http_call calls)%nat
             /\ counter_total (db_queries_total self)
                = (counter_total (db_queries_total self0)
                   + count_where (fun call => negb (is_http_call call)) calls)%nat
             /\ observation_total (db_query_duration self)
                = (observation_total (db_query_duration self0)
                   + count_where (fun call => negb (is_http_call call)) calls)%nat).
  { induction calls as [|call rest IH]; intros self0 Hh Hd; cbn [foldl count_where].
    { cbv zeta. repeat split; lia. }
    destruct call as [method endpoint status_code duration|table operation duration];
      cbn [run_call is_http_call negb].
    - destruct (observation_total_observe http_request_duration_buckets
                  (http_request_duration self0) (method, endpoint) duration Hh)
        as [Hobs Hwf].
      destruct (IH (record_http_request self0 method endpoint status_code duration)
                  Hwf Hd) as (H1 & H2 & H3 & H4).
      cbv zeta. rewrite H1, H2, H3, H4.
      unfold record_http_request. cbv zeta.
      cbn [http_requests_total http_request_duration db_queries_total db_query_duration].
      rewrite counter_total_inc, Hobs. repeat split; lia.
    - destruct (observation_total_observe db_query_duration_buckets
                  (db_query_duration self0) (table, operation) duration Hd)
        as [Hobs Hwf].
      destruct (IH (record_db_query self0 table operation duration) Hh Hwf)
        as (H1 & H2 & H3 & H4).
      cbv zeta. rewrite H1, H2, H3, H4.
      unfold record_db_query. cbv zeta.
      cbn [http_requests_total http_request_duration db_queries_total db_query_duration].
      rewrite counter_total_inc, Hobs. repeat split; lia. }
  destruct (Hgen empty_collector) as (H1 & H2 & H3 & H4);
    [apply map_Forall_empty..|].
  cbv zeta. rewrite H1, H2, H3, H4. repeat split.
Qed.

(** X13. A request changes the counter of its own method, endpoint and
    status code and the histogram child of its method and endpoint, and
    nothing else: requests that differ in the status code are counted in
    different series, rendered as they are by [str], and no database
    series is touched. *)
Theorem request_touches_only_its_series :
  forall (self : MetricsCollector) (method endpoint : string)
         (status_code : Z) (duration : Q),
    let after := record_http_request self method endpoint status_code duration in
    http_requests_total after !! (method, endpoint, pretty status_code)
    = Some (S (default 0%nat
                 (http_requests_total self !! (method, endpoint, pretty status_code))))
    /\ (forall other : Z,
          other <> status_code ->
          http_requests_total after !! (method, endpoint, pretty other)
          = http_requests_total self !! (method, endpoint, pretty other))
    /\ (forall key : string * string * string,
          key <> (method, endpoint, pretty status_code) ->
          http_requests_total after !! key = http_requests_total self !! key)
    /\ (forall key : string * string,
          key <> (method, endpoint) ->
          http_request_duration after !! key = http_request_duration self !! key)
    /\ db_queries_total after = db_queries_total self
    /\ db_query_duration after = db_query_duration self.
Proof.
  intros self method endpoint status_code duration after. subst after.
  unfold record_http_request. cbv zeta.
  cbn [http_requests_total http_request_duration db_queries_total db_query_duration].
  split; [apply lookup_insert_eq|].
  split; [|split; [|split; [|split; reflexivity]]].
  - intros other Hother. apply lookup_insert_ne.
    intros Heq. injection Heq as Heq. apply (inj pretty) in Heq. congruence.
  - intros key Hkey. apply lookup_insert_ne. congruence.
  - intros key Hkey. apply lookup_insert_ne. congruence.
Qed.

(** * Further properties of the middleware *)

(** ** Endpoint labels *)

Lemma slash_is_no_digit (c : ascii) :
  Ascii.eqb c "/" = true -> is_digit c = false.
Proof. intros Hc. apply Ascii.eqb_eq in Hc. subst c. reflexivity. Qed.

Lemma sub_slash_digits_no_digit (rest : string) (in_match : bool) :
  starts_with_digit rest = false ->
  sub_slash_digits in_match rest = sub_slash_digits false rest.
Proof.
  destruct rest as [|c rest]; [reflexivity|]. cbn [starts_with_digit].
  intros Hc. cbn [sub_slash_digits]. rewrite Hc, andb_false_r. reflexivity.
Qed.

Lemma sub_slash_digits_head (rest : string) (in_match : bool) :
  starts_with_digit rest = false ->
  starts_with_digit (sub_slash_digits in_match rest) = false.
Proof.
  intros Hrest. rewrite (sub_slash_digits_no_digit rest in_match Hrest).
  destruct rest as [|c rest]; [reflexivity|]. cbn [starts_with_digit] in Hrest.
  cbn [sub_slash_digits andb].
  destruct (Ascii.eqb c "/" && starts_with_digit rest); [reflexivity|].
  exact Hrest.
Qed.

Lemma sub_slash_digits_clean (path : string) :
  forall in_match : bool,
    has_slash_digit (sub_slash_digits in_match path) = false.
Proof.
  induction path as [|c rest IH]; intros in_match; [reflexivity|].
  cbn [sub_slash_digits].
  destruct (in_match && is_digit c); [apply IH|].
  destruct (Ascii.eqb c "/") eqn:Hc; cbn [andb].
  - destruct (starts_with_digit rest) eqn:Hrest.
    + cbn. apply IH.
    + cbn [has_slash_digit]. rewrite Hc, (sub_slash_digits_head rest false Hrest).
      cbn [andb orb]. apply IH.
  - cbn [has_slash_digit]. rewrite Hc. cbn [andb orb]. apply IH.
Qed.

Lemma sub_slash_digits_fixed (path : string) :
  has_slash_digit path = false -> sub_slash_digits false path = path.
Proof.
  induction path as [|c rest IH]; [reflexivity|].
  cbn [has_slash_digit sub_slash_digits andb]. intros Hpath.
  apply orb_false_iff in Hpath as [Hhere Hrest].
  rewrite Hhere, (IH Hrest). reflexivity.
Qed.

(** X14. A normalised path has no slash followed by a digit left, so
    normalising it again changes nothing: the endpoint label of the
    registry is a fixed point of [_normalize_path]. *)
Theorem normalized_path_has_no_numeric_segment :
  forall path : string,
    has_slash_digit (_normalize_path path) = false
    /\ _normalize_path (_normalize_path path) = _normalize_path path.
Proof.
  intros path. unfold _normalize_path.
  pose proof (sub_slash_digits_clean path false) as Hclean.
  split; [exact Hclean|]. apply sub_slash_digits_fixed. exact Hclean.
Qed.

Lemma starts_with_digit_before_slash (prefix rest : string) :
  starts_with_digit (prefix ++ String "/" rest)
  = starts_with_digit (prefix ++ "/").
Proof. destruct prefix; reflexivity. Qed.

Lemma sub_slash_digits_cons (in_match : bool) (c : ascii) (rest : string) :
  sub_slash_digits in_match (String c rest)
  = if in_match && is_digit c then sub_slash_digits true rest
    else if Ascii.eqb c "/" && starts_with_digit rest
         then ("/{id}" ++ sub_slash_digits true rest)%string
         else String c (sub_slash_digits false rest).
Proof. reflexivity. Qed.

Lemma sub_slash_digits_prefix (prefix : string) :
  forall in_match : bool,
    exists out : string,
      forall rest : string,
        sub_slash_digits in_match (prefix ++ String "/" rest)
        = (out ++ sub_slash_digits false (String "/" rest))%string.
Proof.
  induction prefix as [|c prefix IH]; intros in_match.
  { exists EmptyString. intros rest.
    change (EmptyString ++ String "/" rest)%string with (String "/" rest).
    rewrite (sub_slash_digits_no_digit (String "/" rest) in_match eq_refl).
    reflexivity. }
  destruct (in_match && is_digit c) eqn:Hskip.
  { destruct (IH true) as [out Hout]. exists out. intros rest.
    change (String c prefix ++ String "/" rest)%string
      with (String c (prefix ++ String "/" rest)).
    rewrite sub_slash_digits_cons, Hskip. apply Hout. }
  destruct (Ascii.eqb c "/" && starts_with_digit (prefix ++ "/")) eqn:Hhere.
  - destruct (IH true) as [out Hout]. exists ("/{id}" ++ out)%string.
    intros rest.
    change (String c prefix ++ String "/" rest)%string
      with (String c (prefix ++ String "/" rest)).
    rewrite sub_slash_digits_cons, Hskip, starts_with_digit_before_slash, Hhere, Hout.
    reflexivity.
  - destruct (IH false) as [out Hout]. exists (String c out).
    intros rest.
    change (String c prefix ++ String "/" rest)%string
      with (String c (prefix ++ String "/" rest)).
    rewrite sub_slash_digits_cons, Hskip, starts_with_digit_before_slash, Hhere, Hout.
    reflexivity.
Qed.

Lemma sub_slash_digits_skips (digits rest : string) :
  all_digits digits = true ->
  sub_slash_digits true (digits ++ rest) = sub_slash_digits true rest.
Proof.
  induction digits as [|d digits IH]; [reflexivity|].
  cbn [all_digits]. intros Hd. apply andb_true_iff in Hd as [Hd Hds].
  change (String d digits ++ rest)%string with (String d (digits ++ rest)).
  rewrite sub_slash_digits_cons, Hd. exact (IH Hds).
Qed.

(** X15. ASCII paths that differ only in a numeric segment get the
    same endpoint label: a slash followed by digits, up to the first
    character that is not a digit, is read as ["/{id}"], whatever comes
    before and after it. (On other text [\d] matches more than the ten
    digits, and a digit of another script after the segment would be
    taken into it.) *)
Theorem numeric_segments_collapse :
  forall prefix digits rest : string,
    is_ascii_text prefix = true ->
    is_ascii_text rest = true ->
    digits <> EmptyString ->
    all_digits digits = true ->
    starts_with_digit rest = false ->
    _normalize_path (prefix ++ "/" ++ digits ++ rest)
    = _normalize_path (prefix ++ "/{id}" ++ rest).
Proof.
  intros prefix digits rest _ _ Hne Hdigits Hrest. unfold _normalize_path.
  destruct (sub_slash_digits_prefix prefix false) as [out Hout].
  change ("/" ++ digits ++ rest)%string with (String "/" (digits ++ rest)).
  change ("/{id}" ++ rest)%string with (String "/" ("{id}" ++ rest)).
  rewrite !Hout. f_equal.
  destruct digits as [|d digits]; [congruence|].
  cbn [all_digits] in Hdigits. apply andb_true_iff in Hdigits as [Hd Hds].
  change (String d digits ++ rest)%string with (String d (digits ++ rest)).
  rewrite (sub_slash_digits_cons false "/" (String d (digits ++ rest))).
  cbn [starts_with_digit andb]. change (Ascii.eqb "/" "/") with true.
  rewrite Hd. cbn [andb].
  rewrite sub_slash_digits_cons, Hd. cbn [andb].
  rewrite (sub_slash_digits_skips digits rest Hds).
  rewrite (sub_slash_digits_no_digit rest true Hrest).
  reflexivity.
Qed.

Lemma numeric_segments_witness :
  _normalize_path ("/api/v1/books" ++ "/" ++ "42" ++ "/reviews")
  = _normalize_path ("/api/v1/books" ++ "/{id}" ++ "/reviews").
Proof.
  apply (numeric_segments_collapse "/api/v1/books" "42" "/reviews");
    [reflexivity | reflexivity | discriminate | reflexivity | reflexivity].
Defined.

(** ** The package at work *)

Lemma count_where_app {A : Type} (p : A -> bool) (l1 l2 : list A) :
  count_where p (l1 ++ l2) = (count_where p l1 + count_where p l2)%nat.
Proof. induction l1 as [|x l1 IH]; cbn; [reflexivity|]. rewrite IH. lia. Qed.

Lemma count_where_filter {A : Type} (p q : A -> bool) (l : list A) :
  count_where q (List.filter p l) = count_where (fun x => p x && q x) l.
Proof.
  induction l as [|x l IH]; cbn; [reflexivity|].
  destruct (p x); cbn; rewrite IH; reflexivity.
Qed.

Lemma count_where_ext {A : Type} (p q : A -> bool) (l : list A) :
  (forall x, p x = q x) -> count_where p l = count_where q l.
Proof.
  intros Hpq. induction l as [|x l IH]; cbn; [reflexivity|].
  rewrite Hpq, IH. reflexivity.
Qed.

(** The reader never finds more records than there are lines. *)
Lemma count_read_le (fromtimestamp : Q -> option datetime) (p : extra -> bool)
    (lines : list log_line) (since : option datetime) :
  (count_where (fun log => p (record_extra log))
     (_read_structured_logs fromtimestamp lines since)
   <= count_where (line_satisfies p) lines)%nat.
Proof.
  induction lines as [|line rest IH]; [cbn; lia|].
  destruct line as [| | |raw]; cbn [_read_structured_logs count_where line_satisfies];
    try lia.
  destruct (time_timestamp raw) as [t|]; [|lia].
  destruct (Qeq_bool t 0); [lia|].
  destruct (fromtimestamp t) as [ts|]; [|cbn; lia].
  destruct since as [s|].
  - destruct (ts <? s); cbn [count_where record_extra]; lia.
  - cbn [count_where record_extra]. lia.
Qed.

(** It finds every line written at a time that it accepts. *)
Lemma count_read_well_timed (fromtimestamp : Q -> option datetime)
    (p : extra -> bool) (lines : list log_line) (now : datetime) :
  Forall (well_timed fromtimestamp now) lines ->
  count_where (fun log => p (record_extra log))
    (_read_structured_logs fromtimestamp lines (Some (now - timedelta_hours 1)))
  = count_where (line_satisfies p) lines.
Proof.
  induction 1 as [|line rest Hline _ IH]; [reflexivity|].
  destruct Hline as (clock & e & -> & ts & Hzero & Hts & Hsince).
  cbn [_read_structured_logs time_timestamp record_extra].
  assert (Qeq_bool clock 0 = false) as ->.
  { destruct (Qeq_bool clock 0) eqn:E; [|reflexivity].
    apply Qeq_bool_eq in E. contradiction. }
  rewrite Hts.
  assert ((ts <? now - timedelta_hours 1) = false) as -> by (apply Z.ltb_ge; lia).
  cbn [count_where line_satisfies record_extra]. rewrite IH. reflexivity.
Qed.

Lemma log_file_run (LOG_LEVEL : Z) (self : monitoring) (step : activity * Q) :
  log_file (run LOG_LEVEL self step) = log_file self ++ written LOG_LEVEL step.
Proof.
  unfold written. destruct step as [[method path authorization call_next duration
    |table operation duration|books_count|recommended user_id|success username
    | |page_number books_found total_pages|total_books duration_seconds
    |raised message|sql sql_duration sql_table sql_operation| |reader] clock];
    cbn; try reflexivity.
  - destruct call_next; cbn; rewrite <- ?app_assoc; reflexivity.
  - unfold BusinessEventTracker.track_scraping_complete.
    destruct (books_per_second total_books duration_seconds); cbn;
      rewrite ?app_nil_r; reflexivity.
Qed.

Lemma log_file_foldl_run (LOG_LEVEL : Z) (steps : list (activity * Q)) :
  forall self : monitoring,
    log_file (foldl (run LOG_LEVEL) self steps)
    = log_file self ++ flat_map (written LOG_LEVEL) steps.
Proof.
  induction steps as [|step steps IH]; intros self; cbn [foldl flat_map].
  { rewrite app_nil_r. reflexivity. }
  rewrite IH, log_file_run, <- app_assoc. reflexivity.
Qed.

Lemma tally_written (LOG_LEVEL : Z) (p : log_line -> bool)
    (q : activity * Q -> bool) (steps : list (activity * Q)) :
  (forall step, count_where p (written LOG_LEVEL step) = if q step then 1%nat else 0%nat) ->
  count_where p (log_file (run_all LOG_LEVEL steps)) = count_where q steps.
Proof.
  intros Hstep. unfold run_all. rewrite log_file_foldl_run. cbn [log_file idle app].
  induction steps as [|step steps IH]; [reflexivity|].
  cbn [flat_map count_where]. rewrite count_where_app, Hstep, IH. reflexivity.
Qed.

Lemma tally_written_le (LOG_LEVEL : Z) (p : log_line -> bool)
    (q : activity * Q -> bool) (steps : list (activity * Q)) :
  (forall step,
      (count_where p (written LOG_LEVEL step) <= if q step then 1 else 0)%nat) ->
  (count_where p (log_file (run_all LOG_LEVEL steps)) <= count_where q steps)%nat.
Proof.
  intros Hstep. unfold run_all. rewrite log_file_foldl_run. cbn [log_file idle app].
  induction steps as [|step steps IH]; [reflexivity|].
  cbn [flat_map count_where]. rewrite count_where_app.
  pose proof (Hstep step). lia.
Qed.

Lemma file_sink_well_timed (fromtimestamp : Q -> option datetime) (now : datetime)
    (LOG_LEVEL : Z) (clock : Q) (record : level * extra) :
  within_last_hour fromtimestamp now clock ->
  Forall (well_timed fromtimestamp now) (file_sink LOG_LEVEL clock record).
Proof.
  intros Hclock. unfold file_sink. destruct (sink_receives LOG_LEVEL record.1).
  - apply List.Forall_cons; [|apply List.Forall_nil].
    exists clock, record.2. split; [reflexivity|exact Hclock].
  - apply List.Forall_nil.
Qed.

Lemma count_file_sink (p : extra -> bool) (LOG_LEVEL : Z) (clock : Q)
    (record : level * extra) :
  count_where (line_satisfies p) (file_sink LOG_LEVEL clock record)
  = if sink_receives LOG_LEVEL record.1 && p record.2 then 1%nat else 0%nat.
Proof.
  unfold file_sink. destruct (sink_receives LOG_LEVEL record.1); cbn; [|reflexivity].
  destruct (p record.2); reflexivity.
Qed.

(** The case analysis on a step, with the lines it writes. *)
Ltac written_cases step :=
  unfold written;
  destruct step as [[method path authorization
    [status_code|error_type error_message error_clock] duration
    |table operation duration|books_count|recommended uid|success username
    | |page_number books_found total_pages|total_books duration_seconds
    |raised message|sql sql_duration sql_table sql_operation| |reader] clock];
  [ | | | | | | | |
    unfold run; cbn [fst snd];
    unfold BusinessEventTracker.track_scraping_complete;
    destruct (books_per_second total_books duration_seconds) | | | | ];
  cbn -[file_sink log_request log_database_query].

(** The attributes of the records are known; what is left is whether
    the sink receives them. *)
Ltac tally_records :=
  rewrite ?count_where_app, ?count_file_sink;
  cbn [fst snd log_request log_error log_business_event log_database_query
       database_query_extra event_type status_code duration_ms user_id
       event_name context_success];
  repeat first
    [ rewrite bool_decide_eq_true_2 by reflexivity
    | rewrite bool_decide_eq_false_2 by discriminate ];
  cbn [andb negb];
  rewrite ?andb_false_r, ?andb_true_r.

(** The levels of the records against the level of the sink. *)
Ltac settle_levels :=
  unfold sink_receives, LOG_LEVEL_default, id in *;
  repeat (cbn [level_no default andb orb negb] in *;
          match goal with
          | |- context [?a <=? ?b] =>
              lazymatch b with
              | context [if _ then _ else _] => fail
              | _ => destruct (Z.leb_spec a b)
              end
          | |- context [if ?b then _ else _] =>
              lazymatch b with
              | context [if _ then _ else _] => fail
              | _ => destruct b eqn:?
              end
          end);
  cbn; try reflexivity; try lia; try discriminate.

Lemma written_well_timed (fromtimestamp : Q -> option datetime) (now : datetime)
    (LOG_LEVEL : Z) (step : activity * Q) :
  Forall (within_last_hour fromtimestamp now) (clocks step) ->
  Forall (well_timed fromtimestamp now) (written LOG_LEVEL step).
Proof.
  unfold clocks. written_cases step; intros Hclocks;
    repeat match goal with
           | H : Forall _ (_ :: _) |- _ => apply Forall_cons in H as [? H]
           end;
    rewrite ?Forall_app; repeat split;
    try (apply file_sink_well_timed; assumption); apply List.Forall_nil.
Qed.

Lemma log_file_well_timed (fromtimestamp : Q -> option datetime) (now : datetime)
    (LOG_LEVEL : Z) (steps : list (activity * Q)) :
  Forall (fun step => Forall (within_last_hour fromtimestamp now) (clocks step))
    steps ->
  Forall (well_timed fromtimestamp now) (log_file (run_all LOG_LEVEL steps)).
Proof.
  intros Hsteps. unfold run_all. rewrite log_file_foldl_run. cbn [log_file idle app].
  induction Hsteps as [|step steps Hstep _ IH]; cbn [flat_map];
    [apply List.Forall_nil|].
  apply Forall_app. split; [|exact IH]. apply written_well_timed. exact Hstep.
Qed.

Lemma request_lines_written (LOG_LEVEL : Z) (step : activity * Q) :
  LOG_LEVEL <= LOG_LEVEL_default ->
  count_where (line_has_event_type "http_request") (written LOG_LEVEL step)
  = if is_request step then 1%nat else 0%nat.
Proof.
  intros Hlevel. unfold line_has_event_type.
  written_cases step; tally_records; settle_levels.
Qed.

Lemma request_lines_bounded (LOG_LEVEL : Z) (step : activity * Q) :
  (count_where (line_has_event_type "http_request") (written LOG_LEVEL step)
   <= if is_request step then 1 else 0)%nat.
Proof.
  unfold line_has_event_type. written_cases step; tally_records; settle_levels.
Qed.

Lemma http_total_run (LOG_LEVEL : Z) (self : monitoring) (step : activity * Q) :
  counter_total (http_requests_total (registry (run LOG_LEVEL self step)))
  = (counter_total (http_requests_total (registry self))
     + if is_request step then 1 else 0)%nat.
Proof.
  destruct step as [[method path authorization
    [status_code|error_type error_message error_clock] duration
    |table operation duration|books_count|recommended user_id|success username
    | |page_number books_found total_pages|total_books duration_seconds
    |raised message|sql sql_duration sql_table sql_operation| |reader] clock];
    cbn -[counter_total]; rewrite ?counter_total_inc; try lia.
  unfold BusinessEventTracker.track_scraping_complete.
  destruct (books_per_second total_books duration_seconds); cbn -[counter_total]; lia.
Qed.

Lemma http_total_run_all (LOG_LEVEL : Z) (steps : list (activity * Q)) :
  counter_total (http_requests_total (registry (run_all LOG_LEVEL steps)))
  = count_where is_request steps.
Proof.
  unfold run_all.
  assert (Hgen : forall self : monitoring,
             counter_total (http_requests_total
                              (registry (foldl (run LOG_LEVEL) self steps)))
             = (counter_total (http_requests_total (registry self))
                + count_where is_request steps)%nat).
  { induction steps as [|step steps IH]; intros self; cbn [foldl count_where]; [lia|].
    rewrite IH, http_total_run. lia. }
  rewrite Hgen. reflexivity.
Qed.

Lemma total_requests_as_count (fromtimestamp : Q -> option datetime)
    (lines : list log_line) (now utcnow : datetime) :
  total_requests (export_current_metrics fromtimestamp lines now utcnow)
  = count_where
      (fun log => (fun e => bool_decide (event_type e = Some "http_request"%string))
                    (record_extra log))
      (_read_structured_logs fromtimestamp lines (Some (now - timedelta_hours 1))).
Proof.
  unfold export_current_metrics. cbn [total_requests].
  rewrite length_filter_count. reflexivity.
Qed.

(** X16. In a process that started with an empty log file and logs at
    the default level or below, when every record was logged at a time
    that the reader accepts for the trailing hour, the dashboard's
    [total_requests] is the number of requests dispatched, and so is the
    sum of the [http_requests_total] counters: the two sources of the
    dashboard agree. *)
Theorem dashboard_counts_every_request :
  forall (fromtimestamp : Q -> option datetime) (LOG_LEVEL : Z)
         (steps : list (activity * Q)) (now utcnow : datetime),
    LOG_LEVEL <= LOG_LEVEL_default ->
    Forall (fun step => Forall (within_last_hour fromtimestamp now) (clocks step))
      steps ->
    let final := run_all LOG_LEVEL steps in
    let shown := export_current_metrics fromtimestamp (log_file final) now utcnow in
    total_requests shown = count_where is_request steps
    /\ counter_total (http_requests_total (registry final))
       = count_where is_request steps.
Proof.
  intros fromtimestamp LOG_LEVEL steps now utcnow Hlevel Hclocks final shown.
  subst shown final. split; [|apply http_total_run_all].
  rewrite total_requests_as_count.
  etransitivity;
    [exact (count_read_well_timed fromtimestamp
              (fun e => bool_decide (event_type e = Some "http_request"%string))
              _ now (log_file_well_timed fromtimestamp now LOG_LEVEL steps Hclocks))|].
  apply (tally_written LOG_LEVEL (line_has_event_type "http_request") is_request).
  intros step. apply request_lines_written. exact Hlevel.
Qed.

(** X17. Whatever the log level and the times of the records, the
    dashboard never shows more requests than the registry has counted
    since the process started with an empty log file. *)
Theorem dashboard_never_exceeds_registry :
  forall (fromtimestamp : Q -> option datetime) (LOG_LEVEL : Z)
         (steps : list (activity * Q)) (now utcnow : datetime),
    let final := run_all LOG_LEVEL steps in
    let shown := export_current_metrics fromtimestamp (log_file final) now utcnow in
    (total_requests shown
     <= counter_total (http_requests_total (registry final)))%nat.
Proof.
  intros fromtimestamp LOG_LEVEL steps now utcnow final shown. subst shown final.
  rewrite total_requests_as_count, http_total_run_all.
  etransitivity;
    [exact (count_read_le fromtimestamp
              (fun e => bool_decide (event_type e = Some "http_request"%string))
              _ _)|].
  apply (tally_written_le LOG_LEVEL (line_has_event_type "http_request") is_request).
  intros step. apply request_lines_bounded.
Qed.

Lemma sample_steps_well_timed :
  Forall (fun step => Forall (within_last_hour utc_clock sample_now) (clocks step))
    sample_steps.
Proof.
  repeat apply List.Forall_cons; try apply List.Forall_nil;
    (eexists; split; [|split; [reflexivity|]]; vm_compute; discriminate).
Defined.

Lemma dashboard_counts_witness :
  let final := run_all LOG_LEVEL_default sample_steps in
  let shown :=
    export_current_metrics utc_clock (log_file final) sample_now sample_now in
  total_requests shown = count_where is_request sample_steps
  /\ counter_total (http_requests_total (registry final))
     = count_where is_request sample_steps.
Proof.
  exact (dashboard_counts_every_request utc_clock LOG_LEVEL_default sample_steps
           sample_now sample_now ltac:(reflexivity) sample_steps_well_timed).
Defined.

Lemma in_progress_run (LOG_LEVEL : Z) (self : monitoring) (step : activity * Q) :
  http_requests_in_progress (run LOG_LEVEL self step)
  = http_requests_in_progress self.
Proof.
  destruct step as [[method path authorization
    [status_code|error_type error_message error_clock] duration
    |table operation duration|books_count|recommended user_id|success username
    | |page_number books_found total_pages|total_books duration_seconds
    |raised message|sql sql_duration sql_table sql_operation| |reader] clock];
    cbn; try lia.
  unfold BusinessEventTracker.track_scraping_complete.
  destruct (books_per_second total_books duration_seconds); reflexivity.
Qed.

Lemma server_error_lines_written (LOG_LEVEL : Z) (step : activity * Q) :
  LOG_LEVEL <= LOG_LEVEL_default ->
  count_where
    (line_satisfies
       (fun e => bool_decide (event_type e = Some "http_request"%string)
                 && (500 <=? default 0 (status_code e))))
    (written LOG_LEVEL step)
  = if is_server_error step then 1%nat else 0%nat.
Proof.
  intros Hlevel. written_cases step; tally_records; cbn [default]; settle_levels.
Qed.

(** X18. In a process that started with an empty log file and logs at
    the default level or below, when every record was logged at a time
    that the reader accepts for the trailing hour, the dashboard's
    [error_rate_5xx] is the share of the requests dispatched whose
    handler raised or answered 500 or more: a request that ends in an
    exception has no response, and is shown as a server error. The gauge
    of requests in progress is then back at zero. *)
Theorem failed_handlers_count_as_server_errors :
  forall (fromtimestamp : Q -> option datetime) (LOG_LEVEL : Z)
         (steps : list (activity * Q)) (now utcnow : datetime),
    LOG_LEVEL <= LOG_LEVEL_default ->
    Forall (fun step => Forall (within_last_hour fromtimestamp now) (clocks step))
      steps ->
    let final := run_all LOG_LEVEL steps in
    let shown := export_current_metrics fromtimestamp (log_file final) now utcnow in
    error_rate_5xx shown
    = fraction (count_where is_server_error steps) (count_where is_request steps)
    /\ http_requests_in_progress final = 0.
Proof.
  intros fromtimestamp LOG_LEVEL steps now utcnow Hlevel Hclocks final shown.
  subst shown final. split.
  - pose proof (log_file_well_timed fromtimestamp now LOG_LEVEL steps Hclocks) as Htimed.
    unfold export_current_metrics. cbn [error_rate_5xx].
    rewrite error_rate_5xx_eq.
    set (logs := _read_structured_logs fromtimestamp _ _) in *.
    assert (Hlen : length (List.filter (has_event_type "http_request") logs)
                   = count_where is_request steps).
    { rewrite length_filter_count. subst logs.
      etransitivity;
        [exact (count_read_well_timed fromtimestamp
                  (fun e => bool_decide (event_type e = Some "http_request"%string))
                  _ now Htimed)|].
      apply (tally_written LOG_LEVEL (line_has_event_type "http_request") is_request).
      intros step. apply request_lines_written. exact Hlevel. }
    assert (H5xx : count_where is_5xx (List.filter (has_event_type "http_request") logs)
                   = count_where is_server_error steps).
    { rewrite count_where_filter. subst logs.
      etransitivity;
        [exact (count_read_well_timed fromtimestamp
                  (fun e => bool_decide (event_type e = Some "http_request"%string)
                            && (500 <=? default 0 (status_code e)))
                  _ now Htimed)|].
      apply (tally_written LOG_LEVEL _ is_server_error).
      intros step. apply server_error_lines_written. exact Hlevel. }
    destruct (List.filter (has_event_type "http_request") logs) as [|req reqs].
    + rewrite <- Hlen, <- H5xx. reflexivity.
    + rewrite Hlen, H5xx. reflexivity.
  - unfold run_all.
    assert (Hgen : forall self : monitoring,
               http_requests_in_progress (foldl (run LOG_LEVEL) self steps)
               = http_requests_in_progress self).
    { clear. induction steps as [|step steps IH]; intros self; cbn [foldl];
        [reflexivity|]. rewrite IH. apply in_progress_run. }
    rewrite Hgen. reflexivity.
Qed.

Lemma failed_handlers_witness :
  let final := run_all LOG_LEVEL_default sample_steps in
  let shown :=
    export_current_metrics utc_clock (log_file final) sample_now sample_now in
  error_rate_5xx shown
  = fraction (count_where is_server_error sample_steps)
      (count_where is_request sample_steps)
  /\ http_requests_in_progress final = 0.
Proof.
  exact (failed_handlers_count_as_server_errors utc_clock LOG_LEVEL_default
           sample_steps sample_now sample_now ltac:(reflexivity)
           sample_steps_well_timed).
Defined.

Lemma extract_user_id_none (authorization : option string) :
  _extract_user_id authorization = None.
Proof.
  destruct authorization as [a|]; [|reflexivity]. unfold _extract_user_id.
  destruct (negb (bool_decide (a = ""%string)) && startswith a "Bearer ");
    reflexivity.
Qed.

Lemma length_omap_count {A B : Type} (f : A -> option B) (l : list A) :
  length (omap f l) = count_where (fun x => bool_decide (is_Some (f x))) l.
Proof.
  induction l as [|x l IH]; [reflexivity|]. cbn [omap list_omap count_where].
  destruct (f x) as [y|]; cbn [length].
  - rewrite bool_decide_eq_true_2 by (eexists; reflexivity). rewrite <- IH. reflexivity.
  - rewrite bool_decide_eq_false_2 by (intros [? ?]; discriminate).
    rewrite <- IH. reflexivity.
Qed.

Lemma identified_lines_bounded (LOG_LEVEL : Z) (step : activity * Q) :
  (count_where
     (line_satisfies
        (fun e => match user_id e with
                  | Some u => negb (bool_decide (u = ""%string))
                  | None => false
                  end))
     (written LOG_LEVEL step)
   <= if is_identified step then 1 else 0)%nat.
Proof.
  unfold is_identified.
  written_cases step; rewrite ?extract_user_id_none; tally_records;
    try (destruct uid as [u|]);
    cbn [is_identified_prediction is_identified_overview fst orb];
    settle_levels.
Qed.

(** X19. The dashboard's [active_users] is at most the number of steps
    that log a record with a non-empty user id, and these are the ML
    predictions tracked with one and the visits of the statistics
    overview, which is logged with the user name as [user_id]: the
    middleware never finds a user id for a request, and a login is
    logged with its user name in the context only, so neither ever
    counts as an active user. *)
Theorem active_users_come_from_identified_calls :
  forall (fromtimestamp : Q -> option datetime) (LOG_LEVEL : Z)
         (steps : list (activity * Q)) (now utcnow : datetime),
    let final := run_all LOG_LEVEL steps in
    let shown := export_current_metrics fromtimestamp (log_file final) now utcnow in
    (active_users shown <= count_where is_identified steps)%nat
    /\ (forall step : activity * Q,
          is_identified step = true ->
          (exists (recommended : bool) (u : string),
              step.1 = MlPrediction recommended (Some u) /\ u <> EmptyString)
          \/ (exists username : string,
                step.1 = StatsOverviewAccessed username
                /\ username <> EmptyString)).
Proof.
  intros fromtimestamp LOG_LEVEL steps now utcnow final shown. subst shown final.
  split.
  - unfold export_current_metrics. cbn [active_users].
    rewrite active_users_as_set.
    etransitivity; [apply size_list_to_set_length|].
    rewrite length_omap_count.
    erewrite (count_where_ext _
                (fun log => (fun e => match user_id e with
                                      | Some u => negb (bool_decide (u = ""%string))
                                      | None => false
                                      end) (record_extra log))).
    2:{ intros log. unfold truthy_user_id.
        destruct (user_id (record_extra log)) as [u|].
        - destruct (bool_decide (u = ""%string)); cbn [negb].
          + apply bool_decide_eq_false_2. intros [? ?]. discriminate.
          + apply bool_decide_eq_true_2. eexists. reflexivity.
        - apply bool_decide_eq_false_2. intros [? ?]. discriminate. }
    etransitivity;
      [exact (count_read_le fromtimestamp
                (fun e => match user_id e with
                          | Some u => negb (bool_decide (u = ""%string))
                          | None => false
                          end) _ _)|].
    apply (tally_written_le LOG_LEVEL _ is_identified).
    intros step. apply identified_lines_bounded.
  - intros [act clock]. unfold is_identified, is_identified_prediction,
      is_identified_overview. cbn [fst].
    destruct act as [| | |recommended [u|]| | | | | | | |username];
      cbn [orb]; try discriminate.
    + rewrite orb_false_r. intros Hu. left. exists recommended, u.
      split; [reflexivity|].
      apply negb_true_iff, bool_decide_eq_false_1 in Hu. exact Hu.
    + intros Hu. right. exists username. split; [reflexivity|].
      apply negb_true_iff, bool_decide_eq_false_1 in Hu. exact Hu.
Qed.

(** ** The business counters *)

Lemma labels_counter_inc `{Countable K} (m : gmap K nat) (k k' : K) :
  labels_counter (<[k := S (labels_counter m k)]> m) k'
  = (labels_counter m k' + if bool_decide (k = k') then 1 else 0)%nat.
Proof.
  unfold labels_counter. case_bool_decide as Hk.
  - subst k'. rewrite lookup_insert_eq. cbn [default from_option id]. lia.
  - rewrite lookup_insert_ne by exact Hk. lia.
Qed.

Lemma iter_book_scraped (n : nat) (b : BusinessCounters) :
  Nat.iter n (fun b => record_business_event b "book_scraped" ∅) b
  = mk_business (n + books_scraped_total b) (ml_predictions_total b)
      (user_logins_total b).
Proof.
  induction n as [|n IH]; cbn [Nat.iter nat_rect].
  - destruct b; reflexivity.
  - change (nat_rect _ b _ n)
      with (Nat.iter n (fun b => record_business_event b "book_scraped" ∅) b).
    rewrite IH. reflexivity.
Qed.

(** What a step does to the business counters. *)
Lemma business_run (LOG_LEVEL : Z) (self : monitoring) (step : activity * Q) :
  business (run LOG_LEVEL self step)
  = let b := business self in
    match step.1 with
    | BookScraping books_count =>
        mk_business (Z.to_nat books_count + books_scraped_total b)
          (ml_predictions_total b) (user_logins_total b)
    | MlPrediction recommended _ =>
        let label := if recommended then "true"%string else "false"%string in
        mk_business (books_scraped_total b)
          (<[label := S (labels_counter (ml_predictions_total b) label)]>
             (ml_predictions_total b))
          (user_logins_total b)
    | UserLogin success _ =>
        let status := if success then "success"%string else "failed"%string in
        mk_business (books_scraped_total b) (ml_predictions_total b)
          (<[status := S (labels_counter (user_logins_total b) status)]>
             (user_logins_total b))
    | _ => b
    end.
Proof.
  destruct step as [[method path authorization
    [status_code|error_type error_message error_clock] duration
    |table operation duration|books_count|recommended uid|success username
    | |page_number books_found total_pages|total_books duration_seconds
    |raised message|sql sql_duration sql_table sql_operation| |reader] clock];
    cbn -[record_business_event Nat.iter]; try reflexivity.
  - apply iter_book_scraped.
  - unfold BusinessEventTracker.track_scraping_complete.
    destruct (books_per_second total_books duration_seconds); reflexivity.
Qed.

Lemma business_tally_from (LOG_LEVEL : Z) (steps : list (activity * Q)) :
  forall self : monitoring,
    let before := business self in
    let counted := business (foldl (run LOG_LEVEL) self steps) in
    books_scraped_total counted
    = (books_scraped_total before + sum_list_with books_of steps)%nat
    /\ (forall success : bool,
          let status := if success then "success"%string else "failed"%string in
          labels_counter (user_logins_total counted) status
          = (labels_counter (user_logins_total before) status
             + count_where (is_login success) steps)%nat)
    /\ (forall recommended : bool,
          let label := if recommended then "true"%string else "false"%string in
          labels_counter (ml_predictions_total counted) label
          = (labels_counter (ml_predictions_total before) label
             + count_where (is_prediction recommended) steps)%nat)
    /\ (forall status : string,
          status <> "success"%string -> status <> "failed"%string ->
          user_logins_total counted !! status = user_logins_total before !! status)
    /\ (forall label : string,
          label <> "true"%string -> label <> "false"%string ->
          ml_predictions_total counted !! label
          = ml_predictions_total before !! label)
    /\ counter_total (user_logins_total counted)
       = (counter_total (user_logins_total before)
          + count_where (is_login true) steps
          + count_where (is_login false) steps)%nat.
Proof.
  induction steps as [|step steps IH]; intros self; cbv zeta.
  { cbn [foldl sum_list_with count_where]. repeat split; intros; lia || reflexivity. }
  cbn [foldl].
  destruct (IH (run LOG_LEVEL self step)) as (Hbooks & Hlogins & Hml & Hstatus & Hlabel & Htotal).
  cbv zeta in Hbooks, Hlogins, Hml, Hstatus, Hlabel, Htotal.
  rewrite business_run in Hbooks, Hlogins, Hml, Hstatus, Hlabel, Htotal.
  cbv zeta in Hbooks, Hlogins, Hml, Hstatus, Hlabel, Htotal.
  destruct step as [[method path authorization call_next duration
    |table operation duration|books_count|recommended uid|success username
    | |page_number books_found total_pages|total_books duration_seconds
    |raised message|sql sql_duration sql_table sql_operation| |reader] clock];
    cbn [fst books_scraped_total ml_predictions_total user_logins_total]
      in Hbooks, Hlogins, Hml, Hstatus, Hlabel, Htotal;
    cbn [sum_list_with count_where books_of is_login is_prediction fst].
  all: try (repeat split; intros;
            first [ rewrite Hbooks | rewrite Hlogins | rewrite Hml
                  | rewrite Hstatus by assumption | rewrite Hlabel by assumption
                  | rewrite Htotal ];
            first [ lia | reflexivity ]).
  - (* a prediction *)
    repeat split; intros.
    + rewrite Hbooks. lia.
    + rewrite Hlogins. lia.
    + rewrite Hml, labels_counter_inc.
      destruct recommended, recommended0;
        repeat first [ rewrite bool_decide_eq_true_2 by reflexivity
                     | rewrite bool_decide_eq_false_2 by discriminate ]; lia.
    + rewrite Hstatus by assumption. reflexivity.
    + rewrite Hlabel by assumption. apply lookup_insert_ne.
      destruct recommended; congruence.
    + rewrite Htotal. lia.
  - (* a login *)
    repeat split; intros.
    + rewrite Hbooks. lia.
    + rewrite Hlogins, labels_counter_inc.
      destruct success, success0;
        repeat first [ rewrite bool_decide_eq_true_2 by reflexivity
                     | rewrite bool_decide_eq_false_2 by discriminate ]; lia.
    + rewrite Hml. lia.
    + rewrite Hstatus by assumption. apply lookup_insert_ne.
      destruct success; congruence.
    + rewrite Hlabel by assumption. reflexivity.
    + rewrite Htotal, counter_total_inc.
      destruct success;
        repeat first [ rewrite bool_decide_eq_true_2 by reflexivity
                     | rewrite bool_decide_eq_false_2 by discriminate ]; lia.
Qed.

(** X20. After any steps of a fresh process, [books_scraped_total] is
    the sum of the book counts tracked (a negative count adds nothing),
    [user_logins_total] has under ["success"] and ["failed"] the numbers
    of successful and failed logins tracked and no other label, and
    [ml_predictions_total] has under ["true"] and ["false"] the numbers
    of predictions tracked and no other label; a page of scraping
    progress changes no counter. *)
Theorem business_counters_tally :
  forall (LOG_LEVEL : Z) (steps : list (activity * Q)),
    let counted := business (run_all LOG_LEVEL steps) in
    books_scraped_total counted = sum_list_with books_of steps
    /\ labels_counter (user_logins_total counted) "success"
       = count_where (is_login true) steps
    /\ labels_counter (user_logins_total counted) "failed"
       = count_where (is_login false) steps
    /\ labels_counter (ml_predictions_total counted) "true"
       = count_where (is_prediction true) steps
    /\ labels_counter (ml_predictions_total counted) "false"
       = count_where (is_prediction false) steps
    /\ (forall status : string,
          status <> "success"%string -> status <> "failed"%string ->
          user_logins_total counted !! status = None)
    /\ (forall label : string,
          label <> "true"%string -> label <> "false"%string ->
          ml_predictions_total counted !! label = None).
Proof.
  intros LOG_LEVEL steps counted. subst counted. unfold run_all.
  destruct (business_tally_from LOG_LEVEL steps idle)
    as (Hbooks & Hlogins & Hml & Hstatus & Hlabel & _).
  cbv zeta in Hbooks, Hlogins, Hml, Hstatus, Hlabel.
  split; [rewrite Hbooks; reflexivity|].
  split; [rewrite (Hlogins true); reflexivity|].
  split; [rewrite (Hlogins false); reflexivity|].
  split; [rewrite (Hml true); reflexivity|].
  split; [rewrite (Hml false); reflexivity|].
  split.
  - intros status H1 H2. rewrite (Hstatus status H1 H2). reflexivity.
  - intros label H1 H2. rewrite (Hlabel label H1 H2). reflexivity.
Qed.

Lemma login_lines_written (LOG_LEVEL : Z) (step : activity * Q) :
  LOG_LEVEL <= LOG_LEVEL_default ->
  count_where
    (line_satisfies
       (fun e => bool_decide (event_type e = Some "business_event"%string)
                 && bool_decide (event_name e = Some "user_login_attempt"%string)))
    (written LOG_LEVEL step)
  = if is_login true step || is_login false step then 1%nat else 0%nat.
Proof.
  intros Hlevel. written_cases step; tally_records;
    try (destruct success; cbn); settle_levels.
Qed.

Lemma failed_login_lines_written (LOG_LEVEL : Z) (step : activity * Q) :
  LOG_LEVEL <= LOG_LEVEL_default ->
  count_where
    (line_satisfies
       (fun e => bool_decide (event_type e = Some "business_event"%string)
                 && (bool_decide (event_name e = Some "user_login_attempt"%string)
                     && bool_decide (context_success e = Some false))))
    (written LOG_LEVEL step)
  = if is_login false step then 1%nat else 0%nat.
Proof.
  intros Hlevel. written_cases step; tally_records;
    try (destruct success; cbn); settle_levels.
Qed.

Lemma count_where_or {A : Type} (p q : A -> bool) (l : list A) :
  (forall x, p x && q x = false) ->
  count_where (fun x => p x || q x) l = (count_where p l + count_where q l)%nat.
Proof.
  intros Hpq. induction l as [|x l IH]; cbn; [reflexivity|]. rewrite IH.
  pose proof (Hpq x). destruct (p x), (q x); cbn in *; try discriminate; lia.
Qed.

(** X21. In a process that started with an empty log file and logs at
    the default level or below, when every record was logged at a time
    that the reader accepts for the trailing hour, the dashboard's
    [failed_logins_rate], computed from the log, is what the
    [user_logins_total] counters give: the count under ["failed"]
    divided by the sum of the counters (and zero when there was no
    login). *)
Theorem failed_login_rate_matches_counters :
  forall (fromtimestamp : Q -> option datetime) (LOG_LEVEL : Z)
         (steps : list (activity * Q)) (now utcnow : datetime),
    LOG_LEVEL <= LOG_LEVEL_default ->
    Forall (fun step => Forall (within_last_hour fromtimestamp now) (clocks step))
      steps ->
    let final := run_all LOG_LEVEL steps in
    let shown := export_current_metrics fromtimestamp (log_file final) now utcnow in
    let logins := user_logins_total (business final) in
    failed_logins_rate shown
    = fraction (labels_counter logins "failed") (counter_total logins).
Proof.
  intros fromtimestamp LOG_LEVEL steps now utcnow Hlevel Hclocks final shown logins.
  subst shown logins final.
  pose proof (log_file_well_timed fromtimestamp now LOG_LEVEL steps Hclocks) as Htimed.
  destruct (business_tally_from LOG_LEVEL steps idle)
    as (_ & Hlogins & _ & _ & _ & Htotal).
  cbv zeta in Hlogins, Htotal. specialize (Hlogins false).
  cbn [idle business user_logins_total empty_business] in Hlogins, Htotal.
  unfold run_all. rewrite Hlogins, Htotal.
  change (labels_counter (∅ : gmap string nat) "failed") with 0%nat.
  change (counter_total (∅ : gmap string nat)) with 0%nat.
  fold (run_all LOG_LEVEL steps).
  unfold export_current_metrics. cbn [failed_logins_rate].
  rewrite failed_logins_rate_eq. cbv zeta.
  set (logs := _read_structured_logs fromtimestamp _ _) in *.
  assert (Hlen : length (List.filter is_login_attempt
                           (List.filter (has_event_type "business_event") logs))
                 = (count_where (is_login true) steps
                    + count_where (is_login false) steps)%nat).
  { rewrite length_filter_count, count_where_filter. subst logs.
    etransitivity;
      [exact (count_read_well_timed fromtimestamp
                (fun e => bool_decide (event_type e = Some "business_event"%string)
                          && bool_decide (event_name e
                                          = Some "user_login_attempt"%string))
                _ now Htimed)|].
    rewrite <- count_where_or.
    - apply (tally_written LOG_LEVEL _
               (fun step => is_login true step || is_login false step)).
      intros step. apply login_lines_written. exact Hlevel.
    - intros [[] ?]; try reflexivity. unfold is_login. cbn [fst].
      destruct success; reflexivity. }
  assert (Hfailed : count_where login_failed
                      (List.filter is_login_attempt
                         (List.filter (has_event_type "business_event") logs))
                    = count_where (is_login false) steps).
  { rewrite !count_where_filter. subst logs.
    etransitivity;
      [exact (count_read_well_timed fromtimestamp
                (fun e => bool_decide (event_type e = Some "business_event"%string)
                          && (bool_decide (event_name e
                                           = Some "user_login_attempt"%string)
                              && bool_decide (context_success e = Some false)))
                _ now Htimed)|].
    apply (tally_written LOG_LEVEL _ (is_login false)).
    intros step. apply failed_login_lines_written. exact Hlevel. }
  destruct (List.filter is_login_attempt
              (List.filter (has_event_type "business_event") logs)) as [|ev evs].
  - cbn [length count_where] in Hlen, Hfailed. rewrite <- Hfailed.
    replace (0 + count_where (is_login true) steps + 0)%nat with 0%nat by lia.
    reflexivity.
  - rewrite Hfailed, Hlen. f_equal; lia.
Qed.

Lemma failed_login_rate_witness :
  let final := run_all LOG_LEVEL_default sample_steps in
  let shown :=
    export_current_metrics utc_clock (log_file final) sample_now sample_now in
  let logins := user_logins_total (business final) in
  failed_logins_rate shown
  = fraction (labels_counter logins "failed") (counter_total logins).
Proof.
  exact (failed_login_rate_matches_counters utc_clock LOG_LEVEL_default
           sample_steps sample_now sample_now ltac:(reflexivity)
           sample_steps_well_timed).
Defined.

(** ** Database queries *)

Lemma query_lines_written (step : activity * Q) :
  count_where (line_has_event_type "database_query")
    (written LOG_LEVEL_default step)
  = if is_slow_query step then 1%nat else 0%nat.
Proof.
  unfold line_has_event_type. written_cases step; tally_records;
    try (unfold is_slow_query; cbn [fst];
         match goal with
         | |- context [decide (DB_QUERY_SLOW_THRESHOLD < ?d)%Q] =>
             destruct (decide (DB_QUERY_SLOW_THRESHOLD < d)%Q);
             [rewrite bool_decide_eq_true_2 by assumption
             |rewrite bool_decide_eq_false_2 by assumption]
         end);
    settle_levels.
Qed.

Lemma db_total_run (LOG_LEVEL : Z) (self : monitoring) (step : activity * Q) :
  counter_total (db_queries_total (registry (run LOG_LEVEL self step)))
  = (counter_total (db_queries_total (registry self))
     + if is_query step then 1 else 0)%nat.
Proof.
  destruct step as [[method path authorization
    [status_code|error_type error_message error_clock] duration
    |table operation duration|books_count|recommended uid|success username
    | |page_number books_found total_pages|total_books duration_seconds
    |raised message|sql sql_duration sql_table sql_operation| |reader] clock];
    cbn -[counter_total]; rewrite ?counter_total_inc; try lia.
  unfold BusinessEventTracker.track_scraping_complete.
  destruct (books_per_second total_books duration_seconds); cbn -[counter_total]; lia.
Qed.

(** X22. At the default log level a database query wrapped by
    [monitor_query] is always counted in [db_queries_total], but leaves
    a line in the log file only when it took more than half a second:
    the record of a faster query is logged at DEBUG, which the sinks
    drop. A query that [api/main.py] only logs leaves a line under the
    same condition and is never counted. *)
Theorem fast_queries_leave_no_log_line :
  forall steps : list (activity * Q),
    let final := run_all LOG_LEVEL_default steps in
    count_where (line_has_event_type "database_query") (log_file final)
    = count_where is_slow_query steps
    /\ counter_total (db_queries_total (registry final))
       = count_where is_query steps.
Proof.
  intros steps final. subst final. split.
  - apply (tally_written LOG_LEVEL_default _ is_slow_query).
    intros step. apply query_lines_written.
  - unfold run_all.
    assert (Hgen : forall self : monitoring,
               counter_total (db_queries_total
                                (registry (foldl (run LOG_LEVEL_default) self steps)))
               = (counter_total (db_queries_total (registry self))
                  + count_where is_query steps)%nat).
    { induction steps as [|step steps IH]; intros self; cbn [foldl count_where];
        [lia|]. rewrite IH, db_total_run. lia. }
    rewrite Hgen. reflexivity.
Qed.

(** * Further properties of the exposition *)

Lemma categorize_fails (lines : list string) :
  forall (current_section : string) (m : gmap string (list string)),
    categorize lines current_section m = None
    <-> exists line : string,
          In line lines
          /\ strip line <> EmptyString
          /\ startswith line "# HELP" = true
          /\ split line !! 2%nat = None.
Proof.
  induction lines as [|line rest IH]; intros current_section m.
  { cbn. split; [discriminate|]. intros (line & [] & _). }
  cbn [categorize].
  destruct (bool_decide (strip line = EmptyString)) eqn:Hblank.
  { apply bool_decide_eq_true_1 in Hblank. rewrite IH. split.
    - intros (l & Hin & Hl). exists l. split; [right; exact Hin|exact Hl].
    - intros (l & [<-|Hin] & Hnb & Hl); [contradiction|].
      exists l. split; [exact Hin|]. split; [exact Hnb|exact Hl]. }
  apply bool_decide_eq_false_1 in Hblank.
  destruct (startswith line "# HELP") eqn:Hhelp.
  - destruct (split line !! 2%nat) as [name|] eqn:Hname; cbn [fmap option_fmap option_map mbind option_bind].
    + rewrite IH. split.
      * intros (l & Hin & Hl). exists l. split; [right; exact Hin|exact Hl].
      * intros (l & [<-|Hin] & Hnb & Hh & Hn); [congruence|].
        exists l. split; [exact Hin|]. split; [exact Hnb|]. split; assumption.
    + split; [|reflexivity]. intros _. exists line.
      split; [left; reflexivity|]. split; [exact Hblank|]. split; assumption.
  - cbn [mbind option_bind]. rewrite IH. split.
    + intros (l & Hin & Hl). exists l. split; [right; exact Hin|exact Hl].
    + intros (l & [<-|Hin] & Hnb & Hh & Hn); [congruence|].
      exists l. split; [exact Hin|]. split; [exact Hnb|]. split; assumption.
Qed.

(** X23. [_format_metrics_by_category] fails, with the [IndexError] of
    [line.split()[2]], exactly when some line of the exposition that is
    not blank starts with ["# HELP"] and has fewer than three words; on
    every other input it returns a text. *)
Theorem formatter_fails_on_nameless_help :
  forall raw_metrics : string,
    _format_metrics_by_category raw_metrics = None
    <-> exists line : string,
          In line (split_newline (strip raw_metrics))
          /\ strip line <> EmptyString
          /\ startswith line "# HELP" = true
          /\ split line !! 2%nat = None.
Proof.
  intros raw_metrics. rewrite <- (categorize_fails _ "other" ∅).
  unfold _format_metrics_by_category. cbv zeta.
  destruct (categorize (split_newline (strip raw_metrics)) "other" ∅);
    cbn [mbind option_bind]; split; intros H; congruence.
Qed.

Lemma section_of_metric_in_order (metric_name : string) :
  In (section_of_metric metric_name) section_order.
Proof.
  unfold section_of_metric.
  destruct (List.find (fun item => startswith metric_name item.1) categories)
    as [item|] eqn:Hfind.
  - apply find_some in Hfind as [Hin _]. cbn in Hin.
    repeat (destruct Hin as [<-|Hin]; [cbn; tauto|]). destruct Hin.
  - cbn. tauto.
Qed.

Lemma flat_map_agree {A B : Type} (f g : A -> list B) (l : list A) :
  (forall x, In x l -> f x = g x) -> flat_map f l = flat_map g l.
Proof.
  induction l as [|x l IH]; intros Hfg; [reflexivity|]. cbn [flat_map].
  rewrite (Hfg x (or_introl eq_refl)), IH; [reflexivity|].
  intros y Hy. apply Hfg. right. exact Hy.
Qed.

Lemma filed_lines_insert (m : gmap string (list string)) (s line : string)
    (order : list string) :
  NoDup order ->
  In s order ->
  flat_map (fun k => default [] (<[s := default [] (m !! s) ++ [line]]> m !! k)) order
  ≡ₚ line :: flat_map (fun k => default [] (m !! k)) order.
Proof.
  intros Hnodup. induction Hnodup as [|k order Hk Hnodup IH]; intros Hin.
  { destruct Hin. }
  cbn [flat_map]. destruct (decide (s = k)) as [->|Hne].
  - rewrite lookup_insert_eq. cbn [default from_option id].
    assert (Hrest : flat_map (fun k0 => default [] (<[k := default [] (m !! k) ++ [line]]> m !! k0)) order
                    = flat_map (fun k0 => default [] (m !! k0)) order).
    { apply flat_map_agree. intros k0 Hk0. rewrite lookup_insert_ne; [reflexivity|].
      intros ->. apply Hk. apply list_elem_of_In. exact Hk0. }
    rewrite Hrest.
    rewrite <- app_assoc. cbn [app].
    rewrite (Permutation_middle (default [] (m !! k)) _ line). reflexivity.
  - rewrite lookup_insert_ne by exact Hne.
    destruct Hin as [Heq|Hin]; [congruence|].
    rewrite (IH Hin). rewrite (Permutation_middle (default [] (m !! k)) _ line).
    reflexivity.
Qed.

Lemma section_order_NoDup : NoDup section_order.
Proof. apply (bool_decide_unpack _). vm_compute. exact I. Qed.

Lemma categorize_files_every_line (lines : list string) :
  forall (current_section : string) (m m' : gmap string (list string)),
    In current_section section_order ->
    (forall s : string, ~ In s section_order -> m !! s = None) ->
    categorize lines current_section m = Some m' ->
    (forall s : string, ~ In s section_order -> m' !! s = None)
    /\ flat_map (fun s => default [] (m' !! s)) section_order
       ≡ₚ flat_map (fun s => default [] (m !! s)) section_order
          ++ List.filter (fun line => negb (bool_decide (strip line = EmptyString)))
               lines.
Proof.
  induction lines as [|line rest IH]; intros current_section m m' Hsec Hdom Hrun.
  { cbn in Hrun. injection Hrun as <-. split; [exact Hdom|].
    cbn [List.filter]. rewrite app_nil_r. reflexivity. }
  cbn [categorize List.filter] in *.
  destruct (bool_decide (strip line = EmptyString)); cbn [negb].
  { apply (IH current_section); assumption. }
  destruct (if startswith line "# HELP"
            then section_of_metric <$> split line !! 2%nat
            else Some current_section) as [section|] eqn:Hsection;
    cbn [mbind option_bind] in Hrun; [|discriminate].
  assert (Hin : In section section_order).
  { destruct (startswith line "# HELP").
    - destruct (split line !! 2%nat) as [name|]; [|discriminate].
      injection Hsection as <-. apply section_of_metric_in_order.
    - injection Hsection as <-. exact Hsec. }
  assert (Hfiled : forall s : string,
             ~ In s section_order ->
             <[section := default [] (m !! section) ++ [line]]> m !! s = None).
  { intros s Hs. rewrite lookup_insert_ne; [apply Hdom; exact Hs|].
    intros ->. contradiction. }
  destruct (IH section _ m' Hin Hfiled Hrun) as [Hdom' Hperm].
  split; [exact Hdom'|].
  rewrite Hperm, (filed_lines_insert m section line section_order
                    section_order_NoDup Hin).
  cbn [app]. apply Permutation_middle.
Qed.

(** X24. When the formatter returns, its grouping keeps every line of
    the exposition that is not blank exactly once: the lines filed
    under the seven sections laid out are, together, a rearrangement of
    those lines, and nothing is filed under any other section. *)
Theorem grouping_keeps_every_line :
  forall (raw_metrics : string) (categorized_metrics : gmap string (list string)),
    let lines := split_newline (strip raw_metrics) in
    categorize lines "other" ∅ = Some categorized_metrics ->
    _format_metrics_by_category raw_metrics
    = Some (join_newline
              (exposition_header
               ++ flat_map (section_block categorized_metrics) section_order))
    /\ (forall s : string,
          ~ In s section_order -> categorized_metrics !! s = None)
    /\ flat_map (fun s => default [] (categorized_metrics !! s)) section_order
       ≡ₚ List.filter (fun line => negb (bool_decide (strip line = EmptyString)))
            lines.
Proof.
  intros raw_metrics categorized_metrics lines Hrun.
  split.
  { unfold _format_metrics_by_category. fold lines. rewrite Hrun. reflexivity. }
  destruct (categorize_files_every_line lines "other" ∅ categorized_metrics)
    as [Hdom Hperm].
  - cbn. tauto.
  - intros s _. apply lookup_empty.
  - exact Hrun.
  - split; [exact Hdom|]. rewrite Hperm.
    assert (Hempty : flat_map (fun s => default [] ((∅ : gmap string (list string)) !! s))
                       section_order = []) by reflexivity.
    rewrite Hempty. reflexivity.
Qed.

Lemma grouping_witness :
  let lines := split_newline (strip sample_exposition) in
  exists categorized_metrics : gmap string (list string),
    categorize lines "other" ∅ = Some categorized_metrics
    /\ flat_map (fun s => default [] (categorized_metrics !! s)) section_order
       ≡ₚ List.filter (fun line => negb (bool_decide (strip line = EmptyString)))
            lines.
Proof.
  cbv zeta.
  destruct (categorize (split_newline (strip sample_exposition)) "other" ∅)
    as [categorized_metrics|] eqn:Hrun.
  - exists categorized_metrics. split; [reflexivity|].
    exact (proj2 (proj2 (grouping_keeps_every_line sample_exposition
                           categorized_metrics Hrun))).
  - vm_compute in Hrun. discriminate.
Defined.

(** * Further properties of the logger *)

Lemma string_length_append (s1 s2 : string) :
  String.length (s1 ++ s2) = (String.length s1 + String.length s2)%nat.
Proof.
  induction s1 as [|c s1 IH]; [reflexivity|].
  change (String c s1 ++ s2)%string with (String c (s1 ++ s2)).
  cbn [String.length Nat.add]. rewrite IH. reflexivity.
Qed.

Lemma length_substring_0 (n : nat) :
  forall s : string,
    String.length (substring 0 n s) = Nat.min n (String.length s).
Proof.
  induction n as [|n IH]; intros [|c s]; cbn; try reflexivity.
  f_equal. apply IH.
Qed.

Lemma substring_0_prefix (n : nat) :
  forall s : string, String.prefix (substring 0 n s) s = true.
Proof.
  induction n as [|n IH]; intros [|c s]; cbn; try reflexivity.
  destruct (ascii_dec c c) as [_|Hne]; [apply IH|congruence].
Qed.

(** X25. The query that [log_database_query] binds to its record is
    never longer than 203 characters: a query of at most 200 characters
    is bound as it is, and of a longer one the first 200 characters are
    kept, followed by three dots. *)
Theorem logged_query_is_bounded :
  forall (query : string) (duration : Q) (table operation : option string),
    let logged := dq_query (log_database_query query duration table operation).2 in
    (String.length logged <= 203)%nat
    /\ ((String.length query <= 200)%nat -> logged = query)
    /\ ((200 < String.length query)%nat ->
        exists head : string,
          String.length head = 200%nat
          /\ startswith query head = true
          /\ logged = (head ++ "...")%string).
Proof.
  intros query duration table operation logged. subst logged.
  unfold log_database_query. cbn [snd dq_query].
  destruct (decide (200 < String.length query)%nat) as [Hlong|Hshort].
  - split; [|split].
    + rewrite string_length_append, length_substring_0. cbn [String.length]. lia.
    + intros Hle. lia.
    + intros _. exists (substring 0 200 query).
      split; [rewrite length_substring_0; lia|].
      split; [apply substring_0_prefix|reflexivity].
  - split; [lia|]. split; [reflexivity|]. intros Hlt. lia.
Qed.

Lemma hundredth (q : Q) : (q / 100 == q * (1 # 100))%Q.
Proof. reflexivity. Qed.

Lemma round2_close (x : Q) :
  exists n : Z,
    round2 x = (inject_Z n / 100)%Q
    /\ (x - (1 # 200) <= inject_Z n / 100)%Q
    /\ (inject_Z n / 100 <= x + (1 # 200))%Q.
Proof.
  unfold round2. cbv zeta.
  pose proof (Qfloor_le (x * 100)) as Hlo.
  pose proof (Qlt_floor (x * 100)) as Hhi.
  rewrite inject_Z_plus in Hhi.
  change (inject_Z 1) with 1%Q in Hhi.
  set (lower := Qfloor (x * 100)) in *. clearbody lower.
  destruct (decide (x * 100 - inject_Z lower < 1 # 2)%Q) as [Hlt|Hge].
  { exists lower. split; [reflexivity|]. rewrite hundredth. split; lra. }
  destruct (decide (1 # 2 < x * 100 - inject_Z lower)%Q) as [Hgt|Hle].
  { exists (lower + 1). split; [reflexivity|].
    rewrite hundredth, inject_Z_plus. change (inject_Z 1) with 1%Q. split; lra. }
  destruct (Z.even lower).
  - exists lower. split; [reflexivity|]. rewrite hundredth. split; lra.
  - exists (lower + 1). split; [reflexivity|].
    rewrite hundredth, inject_Z_plus. change (inject_Z 1) with 1%Q. split; lra.
Qed.

(** X26. The [duration_ms] that [log_request] and [log_database_query]
    bind is a whole number of hundredths of a millisecond, and is within
    half a hundredth of the duration measured, taken in milliseconds. *)
Theorem logged_duration_is_rounded_to_hundredths :
  forall (method path query : string) (status_code : Z) (duration : Q)
         (user_id : option string) (table operation : option string),
    exists n : Z,
      duration_ms (log_request method path status_code duration user_id).2
      = Some (inject_Z n / 100)%Q
      /\ dq_duration_ms (log_database_query query duration table operation).2
         = (inject_Z n / 100)%Q
      /\ (duration * 1000 - (1 # 200) <= inject_Z n / 100)%Q
      /\ (inject_Z n / 100 <= duration * 1000 + (1 # 200))%Q.
Proof.
  intros method path query status_code duration user_id table operation.
  destruct (round2_close (duration * 1000)) as (n & Hn & Hlo & Hhi).
  exists n. unfold log_request, log_database_query.
  cbn [snd duration_ms dq_duration_ms]. rewrite Hn.
  split; [reflexivity|]. split; [reflexivity|]. split; assumption.
Qed.

Lemma round2_grid_le (x : Q) (k : Z) :
  (x <= inject_Z k / 100)%Q -> (round2 x <= inject_Z k / 100)%Q.
Proof.
  intros Hx. unfold round2. cbv zeta. rewrite hundredth in Hx.
  pose proof (Qfloor_le (x * 100)) as Hlo.
  assert (Hk : (x * 100 <= inject_Z k)%Q) by lra.
  pose proof (Qfloor_resp_le _ _ Hk) as Hfloor. rewrite Qfloor_Z in Hfloor.
  set (lower := Qfloor (x * 100)) in *. clearbody lower.
  assert (Hsame : (inject_Z lower <= inject_Z k)%Q)
    by (rewrite <- Zle_Qle; exact Hfloor).
  assert (Hnext : (~ x * 100 - inject_Z lower < 1 # 2)%Q ->
                  (inject_Z (lower + 1) <= inject_Z k)%Q).
  { intros Hge. rewrite <- Zle_Qle.
    assert (Hlt : (inject_Z lower < inject_Z k)%Q) by lra.
    rewrite <- Zlt_Qlt in Hlt. lia. }
  destruct (decide (x * 100 - inject_Z lower < 1 # 2)%Q) as [Hlt|Hge];
    [rewrite !hundredth; lra|].
  specialize (Hnext Hge).
  destruct (decide (1 # 2 < x * 100 - inject_Z lower)%Q);
    [rewrite !hundredth; lra|].
  destruct (Z.even lower); rewrite !hundredth; lra.
Qed.

Lemma round2_grid_ge (x : Q) (k : Z) :
  (inject_Z k / 100 <= x)%Q -> (inject_Z k / 100 <= round2 x)%Q.
Proof.
  intros Hx. unfold round2. cbv zeta. rewrite hundredth in Hx.
  assert (Hk : (inject_Z k <= x * 100)%Q) by lra.
  pose proof (Qfloor_resp_le _ _ Hk) as Hfloor. rewrite Qfloor_Z in Hfloor.
  set (lower := Qfloor (x * 100)) in *. clearbody lower.
  assert (Hsame : (inject_Z k <= inject_Z lower)%Q)
    by (rewrite <- Zle_Qle; exact Hfloor).
  assert (Hnext : (inject_Z k <= inject_Z (lower + 1))%Q)
    by (rewrite <- Zle_Qle; lia).
  destruct (decide (x * 100 - inject_Z lower < 1 # 2)%Q);
    [rewrite !hundredth; lra|].
  destruct (decide (1 # 2 < x * 100 - inject_Z lower)%Q);
    [rewrite !hundredth; lra|].
  destruct (Z.even lower); rewrite !hundredth; lra.
Qed.

(** X27. For a page between 0 and the total number of pages,
    [track_scraping_progress] logs a progress between 0 and 100 per
    cent; when the total is zero or is not given there is no progress
    value, and nothing is divided. *)
Theorem scraping_progress_is_a_percentage :
  forall page_number total_pages : Z,
    0 <= page_number <= total_pages ->
    0 < total_pages ->
    (exists percent : Q,
        progress_percent page_number (Some total_pages) = Some percent
        /\ (0 <= percent)%Q /\ (percent <= 100)%Q)
    /\ progress_percent page_number (Some 0) = None
    /\ progress_percent page_number None = None.
Proof.
  intros page_number total_pages Hpage Htotal.
  split; [|split; reflexivity].
  unfold progress_percent. rewrite bool_decide_eq_false_2 by lia.
  eexists. split; [reflexivity|].
  assert (Hpos : (0 < inject_Z total_pages)%Q).
  { change 0%Q with (inject_Z 0). rewrite <- Zlt_Qlt. exact Htotal. }
  assert (Hlow : (0 <= inject_Z page_number / inject_Z total_pages)%Q).
  { apply Qle_shift_div_l; [exact Hpos|]. rewrite Qmult_0_l.
    change 0%Q with (inject_Z 0). rewrite <- Zle_Qle. lia. }
  assert (Hhigh : (inject_Z page_number / inject_Z total_pages <= 1)%Q).
  { apply Qle_shift_div_r; [exact Hpos|]. rewrite Qmult_1_l.
    rewrite <- Zle_Qle. lia. }
  split.
  - apply (Qle_trans _ (inject_Z 0 / 100)); [vm_compute; discriminate|].
    apply round2_grid_ge.
    apply (Qle_trans _ 0); [vm_compute; discriminate|]. lra.
  - apply (Qle_trans _ (inject_Z 10000 / 100)); [|vm_compute; discriminate].
    apply round2_grid_le.
    apply (Qle_trans _ 100); [lra|vm_compute; discriminate].
Qed.

Lemma scraping_progress_witness :
  (exists percent : Q,
      progress_percent 3 (Some 50) = Some percent
      /\ (0 <= percent)%Q /\ (percent <= 100)%Q)
  /\ progress_percent 3 (Some 0) = None
  /\ progress_percent 3 None = None.
Proof.
  apply (scraping_progress_is_a_percentage 3 50); lia.
Defined.

(** The sample steps, run: two requests of which one failed, nine
    lines in the log file (the fast query left none), two active users
    and three books. *)
Example sample_steps_on_the_dashboard :
  let final := run_all LOG_LEVEL_default sample_steps in
  let shown :=
    export_current_metrics utc_clock (log_file final) sample_now sample_now in
  total_requests shown = 2%nat
  /\ length (log_file final) = 9%nat
  /\ active_users shown = 2%nat
  /\ (error_rate_5xx shown == 1 # 2)%Q
  /\ (failed_logins_rate shown == 1 # 2)%Q
  /\ books_scraped_total (business final) = 3%nat
  /\ http_requests_total (registry final)
       !! ("GET", "/api/v1/books/{id}", "200")%string = Some 1%nat
  /\ http_requests_total (registry final)
       !! ("POST", "/api/v1/predict", "500")%string = Some 1%nat.
Proof.
  cbv zeta.
  split; [vm_compute; reflexivity|].
  split; [vm_compute; reflexivity|].
  split; [vm_compute; reflexivity|].
  split; [vm_compute; reflexivity|].
  split; [vm_compute; reflexivity|].
  split; [vm_compute; reflexivity|].
  split; vm_compute; reflexivity.
Qed.

(** * The rates as doubles *)

(** [true_div] agrees with the division of the kernel's binary64
    numbers on every quotient [a / b] with [0 <= a <= b <= 40], and for
    some larger denominators. *)
Example true_div_agrees_with_hardware :
  Binary64.agree_on (seqZ 1 40) = true
  /\ Binary64.agree_on [97; 360; 1000] = true.
Proof. split; [vm_compute; reflexivity|]. vm_compute. reflexivity. Qed.

Lemma nearest_quotient_close (a d : Z) :
  0 < d ->
  - d <= 2 * (Binary64.nearest_quotient a d * d - a) <= d.
Proof.
  intros Hd. unfold Binary64.nearest_quotient. cbv zeta.
  pose proof (Z.div_mod a d ltac:(lia)) as Hdiv.
  pose proof (Z.mod_pos_bound a d Hd) as Hmod.
  set (q := a / d) in *. set (r := a mod d) in *. clearbody q r.
  assert (Hq : q * d = a - r) by lia.
  assert (Hq1 : (q + 1) * d = a - r + d) by lia.
  destruct (Z.ltb_spec (2 * r) d); [rewrite Hq; lia|].
  destruct (Z.ltb_spec d (2 * r)); [rewrite Hq1; lia|].
  destruct (Z.even q); [rewrite Hq|rewrite Hq1]; lia.
Qed.

(** The quotient of two counts, as a double, is within [2 ^ -53] of the
    exact quotient. *)
Lemma true_div_close (a b : nat) :
  (a <= b)%nat -> (0 < b)%nat ->
  (fraction a b - half_ulp
   <= Binary64.to_Q (Binary64.true_div (Z.of_nat a) (Z.of_nat b))
   <= fraction a b + half_ulp)%Q.
Proof.
  intros Hab Hb. unfold Binary64.true_div, fraction.
  destruct (Z.eqb_spec (Z.of_nat a) 0) as [Hzero|Hpos].
  { rewrite Hzero. unfold Binary64.to_Q, half_ulp. cbn.
    unfold Qdiv. rewrite Qmult_0_l. split; discriminate. }
  cbv zeta.
  set (x := Z.of_nat a) in *. set (y := Z.of_nat b) in *.
  assert (Hx : 0 < x) by lia. assert (Hxy : x <= y) by lia.
  assert (Hy : 0 < y) by lia. clearbody x y. clear a b Hab Hb Hpos.
  pose proof (Z.log2_le_mono x y Hxy) as Hlog.
  set (k0 := Float64.prec + Z.log2 y - Z.log2 x).
  assert (Hk0 : 53 <= k0) by (subst k0; unfold Float64.prec; lia).
  set (k := if 2 ^ Float64.prec * y * 2 ^ Z.max 0 (- k0) <=? x * 2 ^ Z.max 0 k0
            then k0 - 1 else k0).
  assert (Hk : 52 <= k) by (subst k; destruct (_ <=? _); lia).
  clearbody k. clear k0 Hk0 Hlog.
  rewrite (Z.max_r 0 k) by lia. rewrite (Z.max_l 0 (- k)) by lia.
  rewrite Z.pow_0_r, Z.mul_1_r.
  unfold Binary64.to_Q. cbn [Float64.mant Float64.expo].
  assert (Hneg : (0 <=? - k) = false) by (apply Z.leb_gt; lia).
  rewrite Hneg, Z.opp_involutive.
  pose proof (nearest_quotient_close (x * 2 ^ k) y Hy) as [Hlo Hhi].
  set (n := Binary64.nearest_quotient (x * 2 ^ k) y) in *. clearbody n.
  assert (Hpow : 2 ^ 52 <= 2 ^ k) by (apply Z.pow_le_mono_r; lia).
  set (p := 2 ^ k) in *. clearbody p.
  assert (HP : (inject_Z (2 ^ 52) <= inject_Z p)%Q) by (rewrite <- Zle_Qle; exact Hpow).
  assert (HY : (0 < inject_Z y)%Q).
  { change 0%Q with (inject_Z 0). rewrite <- Zlt_Qlt. exact Hy. }
  assert (HLO : (- inject_Z y <= 2 * (inject_Z n * inject_Z y - inject_Z x * inject_Z p))%Q).
  { rewrite <- !inject_Z_mult, <- inject_Z_opp.
    change 2%Q with (inject_Z 2).
    unfold Qminus. rewrite <- inject_Z_opp, <- inject_Z_plus, <- inject_Z_mult.
    rewrite <- Zle_Qle. lia. }
  assert (HHI : (2 * (inject_Z n * inject_Z y - inject_Z x * inject_Z p) <= inject_Z y)%Q).
  { rewrite <- !inject_Z_mult. change 2%Q with (inject_Z 2).
    unfold Qminus. rewrite <- inject_Z_opp, <- inject_Z_plus, <- inject_Z_mult.
    rewrite <- Zle_Qle. lia. }
  change (inject_Z (2 ^ 52)) with 4503599627370496%Q in HP.
  set (N := inject_Z n) in *. set (X := inject_Z x) in *.
  set (Y := inject_Z y) in *. set (P := inject_Z p) in *.
  clearbody N X Y P.
  assert (HPpos : (0 < P)%Q) by lra.
  assert (HPY : (4503599627370496 * Y <= P * Y)%Q).
  { apply Qmult_le_compat_r; [exact HP|]. apply Qlt_le_weak. exact HY. }
  assert (HPYpos : (0 < P * Y)%Q).
  { apply Qmult_lt_0_compat; assumption. }
  assert (Hdiff : (N / P - X / Y == (N * Y - X * P) / (P * Y))%Q).
  { field. split; intros Hz; [rewrite Hz in HY|rewrite Hz in HPpos];
      exact (Qlt_irrefl 0 ltac:(assumption)). }
  assert (Hup : ((N * Y - X * P) / (P * Y) <= half_ulp)%Q).
  { apply Qle_shift_div_r; [exact HPYpos|]. unfold half_ulp.
    set (D := (N * Y - X * P)%Q) in *. set (T := (P * Y)%Q) in *.
    clearbody D T. lra. }
  assert (Hdown : (- half_ulp <= (N * Y - X * P) / (P * Y))%Q).
  { apply Qle_shift_div_l; [exact HPYpos|]. unfold half_ulp.
    set (D := (N * Y - X * P)%Q) in *. set (T := (P * Y)%Q) in *.
    clearbody D T. lra. }
  rewrite <- Hdiff in Hup, Hdown. split; lra.
Qed.

Lemma binary64_success_rate_close (reqs : list log_entry) :
  reqs <> [] ->
  (_calculate_real_success_rate reqs - half_ulp
   <= Binary64.to_Q (Binary64._calculate_real_success_rate reqs)
   <= _calculate_real_success_rate reqs + half_ulp)%Q.
Proof.
  intros Hne. rewrite success_rate_eq.
  destruct reqs as [|x l]; [contradiction|].
  unfold Binary64._calculate_real_success_rate. cbv zeta.
  rewrite (length_filter_count (fun req => get_status_code req <? 400)).
  apply true_div_close; [apply count_where_le|cbn; lia].
Qed.

Lemma binary64_error_rate_4xx_close (reqs : list log_entry) :
  reqs <> [] ->
  (_calculate_real_error_rate reqs "4xx" - half_ulp
   <= Binary64.to_Q (Binary64._calculate_real_error_rate reqs "4xx")
   <= _calculate_real_error_rate reqs "4xx" + half_ulp)%Q.
Proof.
  intros Hne. rewrite error_rate_4xx_eq.
  destruct reqs as [|x l]; [contradiction|].
  unfold Binary64._calculate_real_error_rate. cbv zeta.
  rewrite bool_decide_eq_true_2 by reflexivity.
  rewrite (length_filter_count
             (fun req => (400 <=? get_status_code req) && (get_status_code req <? 500))).
  apply true_div_close; [apply count_where_le|cbn; lia].
Qed.

Lemma binary64_error_rate_5xx_close (reqs : list log_entry) :
  reqs <> [] ->
  (_calculate_real_error_rate reqs "5xx" - half_ulp
   <= Binary64.to_Q (Binary64._calculate_real_error_rate reqs "5xx")
   <= _calculate_real_error_rate reqs "5xx" + half_ulp)%Q.
Proof.
  intros Hne. rewrite error_rate_5xx_eq.
  destruct reqs as [|x l]; [contradiction|].
  unfold Binary64._calculate_real_error_rate. cbv zeta.
  rewrite bool_decide_eq_false_2 by discriminate.
  rewrite bool_decide_eq_true_2 by reflexivity.
  rewrite (length_filter_count (fun req => 500 <=? get_status_code req)).
  apply true_div_close; [apply count_where_le|cbn; lia].
Qed.

(** C10. When the trailing hour holds at least one [http_request]
    record, every record falls in exactly one of the three status
    classes, a record without [status_code] counting as status 0, hence
    as a success and as neither kind of error; the three exact
    fractions therefore add up to 1. The three rates returned are the
    doubles nearest to these fractions, each within [2 ^ -53] of its
    fraction, so their sum is 1 up to rounding only: it differs from 1
    by at most [3 * 2 ^ -53]. *)
Theorem rates_sum_to_one_up_to_rounding :
  forall (fromtimestamp : Q -> option datetime) (lines : list log_line)
         (now : datetime),
    let reqs := window_http_requests fromtimestamp lines now in
    let s := Binary64.to_Q (Binary64._calculate_real_success_rate reqs) in
    let e4 := Binary64.to_Q (Binary64._calculate_real_error_rate reqs "4xx") in
    let e5 := Binary64.to_Q (Binary64._calculate_real_error_rate reqs "5xx") in
    reqs <> [] ->
    (count_where is_success reqs + count_where is_4xx reqs
     + count_where is_5xx reqs = length reqs)%nat
    /\ (fraction (count_where is_success reqs) (length reqs)
        + fraction (count_where is_4xx reqs) (length reqs)
        + fraction (count_where is_5xx reqs) (length reqs) == 1)%Q
    /\ (fraction (count_where is_success reqs) (length reqs) - half_ulp <= s
        <= fraction (count_where is_success reqs) (length reqs) + half_ulp)%Q
    /\ (fraction (count_where is_4xx reqs) (length reqs) - half_ulp <= e4
        <= fraction (count_where is_4xx reqs) (length reqs) + half_ulp)%Q
    /\ (fraction (count_where is_5xx reqs) (length reqs) - half_ulp <= e5
        <= fraction (count_where is_5xx reqs) (length reqs) + half_ulp)%Q
    /\ (1 - 3 * half_ulp <= s + e4 + e5 <= 1 + 3 * half_ulp)%Q
    /\ (forall req : log_entry,
          status_code (record_extra req) = None ->
          get_status_code req = 0
          /\ is_success req = true /\ is_4xx req = false /\ is_5xx req = false).
Proof.
  intros fromtimestamp lines now reqs s e4 e5 Hne.
  pose proof (binary64_success_rate_close reqs Hne) as Hs.
  pose proof (binary64_error_rate_4xx_close reqs Hne) as H4.
  pose proof (binary64_error_rate_5xx_close reqs Hne) as H5.
  rewrite success_rate_eq in Hs. rewrite error_rate_4xx_eq in H4.
  rewrite error_rate_5xx_eq in H5.
  fold s in Hs. fold e4 in H4. fold e5 in H5.
  assert (Hlen : (0 < length reqs)%nat).
  { destruct reqs; [contradiction|cbn; lia]. }
  assert (Hsum : (fraction (count_where is_success reqs) (length reqs)
                  + fraction (count_where is_4xx reqs) (length reqs)
                  + fraction (count_where is_5xx reqs) (length reqs) == 1)%Q).
  { apply fraction_sum3; [apply status_classes_partition|exact Hlen]. }
  destruct reqs as [|x l] eqn:E; [contradiction|]. rewrite <- E in *.
  clearbody s e4 e5.
  split; [apply status_classes_partition|].
  split; [exact Hsum|].
  split; [exact Hs|]. split; [exact H4|]. split; [exact H5|].
  split.
  - set (fs := fraction (count_where is_success reqs) (length reqs)) in *.
    set (f4 := fraction (count_where is_4xx reqs) (length reqs)) in *.
    set (f5 := fraction (count_where is_5xx reqs) (length reqs)) in *.
    clearbody fs f4 f5. unfold half_ulp in *. split; lra.
  - intros req Hnone. unfold is_success, is_4xx, is_5xx, get_status_code.
    rewrite Hnone. simpl. repeat split; reflexivity.
Qed.

Lemma rates_sum_witness :
  let reqs := window_http_requests utc_clock three_requests sample_now in
  let s := Binary64.to_Q (Binary64._calculate_real_success_rate reqs) in
  let e4 := Binary64.to_Q (Binary64._calculate_real_error_rate reqs "4xx") in
  let e5 := Binary64.to_Q (Binary64._calculate_real_error_rate reqs "5xx") in
  reqs <> []
  /\ (1 - 3 * half_ulp <= s + e4 + e5 <= 1 + 3 * half_ulp)%Q.
Proof.
  cbv zeta.
  assert (Hne : window_http_requests utc_clock three_requests sample_now <> [])
    by (vm_compute; discriminate).
  split; [exact Hne|].
  exact (proj1 (proj2 (proj2 (proj2 (proj2 (proj2
           (rates_sum_to_one_up_to_rounding utc_clock three_requests sample_now
              Hne))))))).
Defined.

(** For one request answered 200, four answered 404 and one answered
    500 the rates returned are the doubles nearest to 1/6, 4/6 and 1/6,
    both 1/6 and 4/6 being rounded down: their sum is below 1, and
    added up in binary64 they give [0.9999999999999999]. *)
Lemma binary64_rates_miss_one :
  let reqs := window_http_requests utc_clock six_requests sample_now in
  let success_rate := Binary64._calculate_real_success_rate reqs in
  let error_rate_4xx := Binary64._calculate_real_error_rate reqs "4xx" in
  let error_rate_5xx := Binary64._calculate_real_error_rate reqs "5xx" in
  length reqs = 6%nat
  /\ (Binary64.to_Q success_rate + Binary64.to_Q error_rate_4xx
      + Binary64.to_Q error_rate_5xx < 1)%Q
  /\ Binary64.same_double success_rate (Binary64.hardware_true_div 1 6) = true
  /\ Binary64.same_double error_rate_4xx (Binary64.hardware_true_div 4 6) = true
  /\ Binary64.same_double error_rate_5xx (Binary64.hardware_true_div 1 6) = true
  /\ PrimFloat.eqb
       (Binary64.hardware_true_div 1 6 + Binary64.hardware_true_div 4 6
        + Binary64.hardware_true_div 1 6)%float
       1%float = false
  /\ PrimFloat.eqb
       (Binary64.hardware_true_div 1 6 + Binary64.hardware_true_div 4 6
        + Binary64.hardware_true_div 1 6)%float
       0x1.fffffffffffffp-1%float = true.
Proof.
  cbv zeta.
  split; [vm_compute; reflexivity|].
  split; [vm_compute; reflexivity|].
  split; [vm_compute; reflexivity|].
  split; [vm_compute; reflexivity|].
  split; [vm_compute; reflexivity|].
  split; vm_compute; reflexivity.
Qed.
